(** * MUS2NDP: the MUS to NDP MML converter (src/mus2ndp.py)

    A shallow embedding of the converter's core: the line-oriented parser
    [parse_mus_file], the track-line preprocessor, the command translator
    [process_mus_commands], the line wrapper [split_track_data], the tempo
    conversion and the document emitter of [convert_mml_file].

    Character model.  A Python [str] is a list of code points ([N]).  The
    classes the program relies on (whitespace, line boundaries, decimal
    digits, word characters, letters, upper case) and the upper-case
    mapping are written out for every code point, as CPython 3.11 defines
    them from the Unicode 14.0 character database. *)

From Stdlib Require Import NArith ZArith Bool Lia Ascii String DecimalString List.
From Stdlib Require Import Permutation Sorted.
From Equations Require Import Equations.
Import ListNotations.

(** ** The Unicode character database

    The character classes and the case mapping of CPython 3.11 (Unicode
    14.0), as tables of code point ranges. *)

Module Unicode.
#[local] Open Scope N_scope.

Definition in_range (lo hi c : N) : bool := (lo <=? c) && (c <=? hi).

(** The code point [c] lies in one of the ranges of the table. *)
Definition in_table (t : list (N * N)) (c : N) : bool :=
  existsb (fun r => in_range (fst r) (snd r) c) t.

(** The range [r] holds no code point from [lo] to [hi]. *)
Definition range_avoids (lo hi : N) (r : N * N) : bool :=
  (snd r <? lo) || (hi <? fst r).

(** The decimal digits of Unicode, in blocks of ten: the digits 0 to 9 of one
    script, in their order. *)
Definition decimal_blocks : list (N * N) :=
  [ (48, 57); (1632, 1641); (1776, 1785); (1984, 1993); (2406, 2415); (2534, 2543);
    (2662, 2671); (2790, 2799); (2918, 2927); (3046, 3055); (3174, 3183); (3302, 3311);
    (3430, 3439); (3558, 3567); (3664, 3673); (3792, 3801); (3872, 3881); (4160, 4169);
    (4240, 4249); (6112, 6121); (6160, 6169); (6470, 6479); (6608, 6617); (6784, 6793);
    (6800, 6809); (6992, 7001); (7088, 7097); (7232, 7241); (7248, 7257);
    (42528, 42537); (43216, 43225); (43264, 43273); (43472, 43481); (43504, 43513);
    (43600, 43609); (44016, 44025); (65296, 65305); (66720, 66729); (68912, 68921);
    (69734, 69743); (69872, 69881); (69942, 69951); (70096, 70105); (70384, 70393);
    (70736, 70745); (70864, 70873); (71248, 71257); (71360, 71369); (71472, 71481);
    (71904, 71913); (72016, 72025); (72784, 72793); (73040, 73049); (73120, 73129);
    (92768, 92777); (92864, 92873); (93008, 93017); (120782, 120791); (120792, 120801);
    (120802, 120811); (120812, 120821); (120822, 120831); (123200, 123209);
    (123632, 123641); (125264, 125273); (130032, 130041) ].

(** The characters [\w] matches: the alphanumeric characters and the
    underscore. *)
Definition word_ranges : list (N * N) :=
  [ (48, 57); (65, 90); (95, 95); (97, 122); (170, 170); (178, 179); (181, 181);
    (185, 186); (188, 190); (192, 214); (216, 246); (248, 705); (710, 721); (736, 740);
    (748, 748); (750, 750); (880, 884); (886, 887); (890, 893); (895, 895); (902, 902);
    (904, 906); (908, 908); (910, 929); (931, 1013); (1015, 1153); (1162, 1327);
    (1329, 1366); (1369, 1369); (1376, 1416); (1488, 1514); (1519, 1522); (1568, 1610);
    (1632, 1641); (1646, 1647); (1649, 1747); (1749, 1749); (1765, 1766); (1774, 1788);
    (1791, 1791); (1808, 1808); (1810, 1839); (1869, 1957); (1969, 1969); (1984, 2026);
    (2036, 2037); (2042, 2042); (2048, 2069); (2074, 2074); (2084, 2084); (2088, 2088);
    (2112, 2136); (2144, 2154); (2160, 2183); (2185, 2190); (2208, 2249); (2308, 2361);
    (2365, 2365); (2384, 2384); (2392, 2401); (2406, 2415); (2417, 2432); (2437, 2444);
    (2447, 2448); (2451, 2472); (2474, 2480); (2482, 2482); (2486, 2489); (2493, 2493);
    (2510, 2510); (2524, 2525); (2527, 2529); (2534, 2545); (2548, 2553); (2556, 2556);
    (2565, 2570); (2575, 2576); (2579, 2600); (2602, 2608); (2610, 2611); (2613, 2614);
    (2616, 2617); (2649, 2652); (2654, 2654); (2662, 2671); (2674, 2676); (2693, 2701);
    (2703, 2705); (2707, 2728); (2730, 2736); (2738, 2739); (2741, 2745); (2749, 2749);
    (2768, 2768); (2784, 2785); (2790, 2799); (2809, 2809); (2821, 2828); (2831, 2832);
    (2835, 2856); (2858, 2864); (2866, 2867); (2869, 2873); (2877, 2877); (2908, 2909);
    (2911, 2913); (2918, 2927); (2929, 2935); (2947, 2947); (2949, 2954); (2958, 2960);
    (2962, 2965); (2969, 2970); (2972, 2972); (2974, 2975); (2979, 2980); (2984, 2986);
    (2990, 3001); (3024, 3024); (3046, 3058); (3077, 3084); (3086, 3088); (3090, 3112);
    (3114, 3129); (3133, 3133); (3160, 3162); (3165, 3165); (3168, 3169); (3174, 3183);
    (3192, 3198); (3200, 3200); (3205, 3212); (3214, 3216); (3218, 3240); (3242, 3251);
    (3253, 3257); (3261, 3261); (3293, 3294); (3296, 3297); (3302, 3311); (3313, 3314);
    (3332, 3340); (3342, 3344); (3346, 3386); (3389, 3389); (3406, 3406); (3412, 3414);
    (3416, 3425); (3430, 3448); (3450, 3455); (3461, 3478); (3482, 3505); (3507, 3515);
    (3517, 3517); (3520, 3526); (3558, 3567); (3585, 3632); (3634, 3635); (3648, 3654);
    (3664, 3673); (3713, 3714); (3716, 3716); (3718, 3722); (3724, 3747); (3749, 3749);
    (3751, 3760); (3762, 3763); (3773, 3773); (3776, 3780); (3782, 3782); (3792, 3801);
    (3804, 3807); (3840, 3840); (3872, 3891); (3904, 3911); (3913, 3948); (3976, 3980);
    (4096, 4138); (4159, 4169); (4176, 4181); (4186, 4189); (4193, 4193); (4197, 4198);
    (4206, 4208); (4213, 4225); (4238, 4238); (4240, 4249); (4256, 4293); (4295, 4295);
    (4301, 4301); (4304, 4346); (4348, 4680); (4682, 4685); (4688, 4694); (4696, 4696);
    (4698, 4701); (4704, 4744); (4746, 4749); (4752, 4784); (4786, 4789); (4792, 4798);
    (4800, 4800); (4802, 4805); (4808, 4822); (4824, 4880); (4882, 4885); (4888, 4954);
    (4969, 4988); (4992, 5007); (5024, 5109); (5112, 5117); (5121, 5740); (5743, 5759);
    (5761, 5786); (5792, 5866); (5870, 5880); (5888, 5905); (5919, 5937); (5952, 5969);
    (5984, 5996); (5998, 6000); (6016, 6067); (6103, 6103); (6108, 6108); (6112, 6121);
    (6128, 6137); (6160, 6169); (6176, 6264); (6272, 6276); (6279, 6312); (6314, 6314);
    (6320, 6389); (6400, 6430); (6470, 6509); (6512, 6516); (6528, 6571); (6576, 6601);
    (6608, 6618); (6656, 6678); (6688, 6740); (6784, 6793); (6800, 6809); (6823, 6823);
    (6917, 6963); (6981, 6988); (6992, 7001); (7043, 7072); (7086, 7141); (7168, 7203);
    (7232, 7241); (7245, 7293); (7296, 7304); (7312, 7354); (7357, 7359); (7401, 7404);
    (7406, 7411); (7413, 7414); (7418, 7418); (7424, 7615); (7680, 7957); (7960, 7965);
    (7968, 8005); (8008, 8013); (8016, 8023); (8025, 8025); (8027, 8027); (8029, 8029);
    (8031, 8061); (8064, 8116); (8118, 8124); (8126, 8126); (8130, 8132); (8134, 8140);
    (8144, 8147); (8150, 8155); (8160, 8172); (8178, 8180); (8182, 8188); (8304, 8305);
    (8308, 8313); (8319, 8329); (8336, 8348); (8450, 8450); (8455, 8455); (8458, 8467);
    (8469, 8469); (8473, 8477); (8484, 8484); (8486, 8486); (8488, 8488); (8490, 8493);
    (8495, 8505); (8508, 8511); (8517, 8521); (8526, 8526); (8528, 8585); (9312, 9371);
    (9450, 9471); (10102, 10131); (11264, 11492); (11499, 11502); (11506, 11507);
    (11517, 11517); (11520, 11557); (11559, 11559); (11565, 11565); (11568, 11623);
    (11631, 11631); (11648, 11670); (11680, 11686); (11688, 11694); (11696, 11702);
    (11704, 11710); (11712, 11718); (11720, 11726); (11728, 11734); (11736, 11742);
    (11823, 11823); (12293, 12295); (12321, 12329); (12337, 12341); (12344, 12348);
    (12353, 12438); (12445, 12447); (12449, 12538); (12540, 12543); (12549, 12591);
    (12593, 12686); (12690, 12693); (12704, 12735); (12784, 12799); (12832, 12841);
    (12872, 12879); (12881, 12895); (12928, 12937); (12977, 12991); (13312, 19903);
    (19968, 42124); (42192, 42237); (42240, 42508); (42512, 42539); (42560, 42606);
    (42623, 42653); (42656, 42735); (42775, 42783); (42786, 42888); (42891, 42954);
    (42960, 42961); (42963, 42963); (42965, 42969); (42994, 43009); (43011, 43013);
    (43015, 43018); (43020, 43042); (43056, 43061); (43072, 43123); (43138, 43187);
    (43216, 43225); (43250, 43255); (43259, 43259); (43261, 43262); (43264, 43301);
    (43312, 43334); (43360, 43388); (43396, 43442); (43471, 43481); (43488, 43492);
    (43494, 43518); (43520, 43560); (43584, 43586); (43588, 43595); (43600, 43609);
    (43616, 43638); (43642, 43642); (43646, 43695); (43697, 43697); (43701, 43702);
    (43705, 43709); (43712, 43712); (43714, 43714); (43739, 43741); (43744, 43754);
    (43762, 43764); (43777, 43782); (43785, 43790); (43793, 43798); (43808, 43814);
    (43816, 43822); (43824, 43866); (43868, 43881); (43888, 44002); (44016, 44025);
    (44032, 55203); (55216, 55238); (55243, 55291); (63744, 64109); (64112, 64217);
    (64256, 64262); (64275, 64279); (64285, 64285); (64287, 64296); (64298, 64310);
    (64312, 64316); (64318, 64318); (64320, 64321); (64323, 64324); (64326, 64433);
    (64467, 64829); (64848, 64911); (64914, 64967); (65008, 65019); (65136, 65140);
    (65142, 65276); (65296, 65305); (65313, 65338); (65345, 65370); (65382, 65470);
    (65474, 65479); (65482, 65487); (65490, 65495); (65498, 65500); (65536, 65547);
    (65549, 65574); (65576, 65594); (65596, 65597); (65599, 65613); (65616, 65629);
    (65664, 65786); (65799, 65843); (65856, 65912); (65930, 65931); (66176, 66204);
    (66208, 66256); (66273, 66299); (66304, 66339); (66349, 66378); (66384, 66421);
    (66432, 66461); (66464, 66499); (66504, 66511); (66513, 66517); (66560, 66717);
    (66720, 66729); (66736, 66771); (66776, 66811); (66816, 66855); (66864, 66915);
    (66928, 66938); (66940, 66954); (66956, 66962); (66964, 66965); (66967, 66977);
    (66979, 66993); (66995, 67001); (67003, 67004); (67072, 67382); (67392, 67413);
    (67424, 67431); (67456, 67461); (67463, 67504); (67506, 67514); (67584, 67589);
    (67592, 67592); (67594, 67637); (67639, 67640); (67644, 67644); (67647, 67669);
    (67672, 67702); (67705, 67742); (67751, 67759); (67808, 67826); (67828, 67829);
    (67835, 67867); (67872, 67897); (67968, 68023); (68028, 68047); (68050, 68096);
    (68112, 68115); (68117, 68119); (68121, 68149); (68160, 68168); (68192, 68222);
    (68224, 68255); (68288, 68295); (68297, 68324); (68331, 68335); (68352, 68405);
    (68416, 68437); (68440, 68466); (68472, 68497); (68521, 68527); (68608, 68680);
    (68736, 68786); (68800, 68850); (68858, 68899); (68912, 68921); (69216, 69246);
    (69248, 69289); (69296, 69297); (69376, 69415); (69424, 69445); (69457, 69460);
    (69488, 69505); (69552, 69579); (69600, 69622); (69635, 69687); (69714, 69743);
    (69745, 69746); (69749, 69749); (69763, 69807); (69840, 69864); (69872, 69881);
    (69891, 69926); (69942, 69951); (69956, 69956); (69959, 69959); (69968, 70002);
    (70006, 70006); (70019, 70066); (70081, 70084); (70096, 70106); (70108, 70108);
    (70113, 70132); (70144, 70161); (70163, 70187); (70272, 70278); (70280, 70280);
    (70282, 70285); (70287, 70301); (70303, 70312); (70320, 70366); (70384, 70393);
    (70405, 70412); (70415, 70416); (70419, 70440); (70442, 70448); (70450, 70451);
    (70453, 70457); (70461, 70461); (70480, 70480); (70493, 70497); (70656, 70708);
    (70727, 70730); (70736, 70745); (70751, 70753); (70784, 70831); (70852, 70853);
    (70855, 70855); (70864, 70873); (71040, 71086); (71128, 71131); (71168, 71215);
    (71236, 71236); (71248, 71257); (71296, 71338); (71352, 71352); (71360, 71369);
    (71424, 71450); (71472, 71483); (71488, 71494); (71680, 71723); (71840, 71922);
    (71935, 71942); (71945, 71945); (71948, 71955); (71957, 71958); (71960, 71983);
    (71999, 71999); (72001, 72001); (72016, 72025); (72096, 72103); (72106, 72144);
    (72161, 72161); (72163, 72163); (72192, 72192); (72203, 72242); (72250, 72250);
    (72272, 72272); (72284, 72329); (72349, 72349); (72368, 72440); (72704, 72712);
    (72714, 72750); (72768, 72768); (72784, 72812); (72818, 72847); (72960, 72966);
    (72968, 72969); (72971, 73008); (73030, 73030); (73040, 73049); (73056, 73061);
    (73063, 73064); (73066, 73097); (73112, 73112); (73120, 73129); (73440, 73458);
    (73648, 73648); (73664, 73684); (73728, 74649); (74752, 74862); (74880, 75075);
    (77712, 77808); (77824, 78894); (82944, 83526); (92160, 92728); (92736, 92766);
    (92768, 92777); (92784, 92862); (92864, 92873); (92880, 92909); (92928, 92975);
    (92992, 92995); (93008, 93017); (93019, 93025); (93027, 93047); (93053, 93071);
    (93760, 93846); (93952, 94026); (94032, 94032); (94099, 94111); (94176, 94177);
    (94179, 94179); (94208, 100343); (100352, 101589); (101632, 101640);
    (110576, 110579); (110581, 110587); (110589, 110590); (110592, 110882);
    (110928, 110930); (110948, 110951); (110960, 111355); (113664, 113770);
    (113776, 113788); (113792, 113800); (113808, 113817); (119520, 119539);
    (119648, 119672); (119808, 119892); (119894, 119964); (119966, 119967);
    (119970, 119970); (119973, 119974); (119977, 119980); (119982, 119993);
    (119995, 119995); (119997, 120003); (120005, 120069); (120071, 120074);
    (120077, 120084); (120086, 120092); (120094, 120121); (120123, 120126);
    (120128, 120132); (120134, 120134); (120138, 120144); (120146, 120485);
    (120488, 120512); (120514, 120538); (120540, 120570); (120572, 120596);
    (120598, 120628); (120630, 120654); (120656, 120686); (120688, 120712);
    (120714, 120744); (120746, 120770); (120772, 120779); (120782, 120831);
    (122624, 122654); (123136, 123180); (123191, 123197); (123200, 123209);
    (123214, 123214); (123536, 123565); (123584, 123627); (123632, 123641);
    (124896, 124902); (124904, 124907); (124909, 124910); (124912, 124926);
    (124928, 125124); (125127, 125135); (125184, 125251); (125259, 125259);
    (125264, 125273); (126065, 126123); (126125, 126127); (126129, 126132);
    (126209, 126253); (126255, 126269); (126464, 126467); (126469, 126495);
    (126497, 126498); (126500, 126500); (126503, 126503); (126505, 126514);
    (126516, 126519); (126521, 126521); (126523, 126523); (126530, 126530);
    (126535, 126535); (126537, 126537); (126539, 126539); (126541, 126543);
    (126545, 126546); (126548, 126548); (126551, 126551); (126553, 126553);
    (126555, 126555); (126557, 126557); (126559, 126559); (126561, 126562);
    (126564, 126564); (126567, 126570); (126572, 126578); (126580, 126583);
    (126585, 126588); (126590, 126590); (126592, 126601); (126603, 126619);
    (126625, 126627); (126629, 126633); (126635, 126651); (127232, 127244);
    (130032, 130041); (131072, 173791); (173824, 177976); (177984, 178205);
    (178208, 183969); (183984, 191456); (194560, 195101); (196608, 201546) ].

(** The characters of [str.isalpha]. *)
Definition alpha_ranges : list (N * N) :=
  [ (65, 90); (97, 122); (170, 170); (181, 181); (186, 186); (192, 214); (216, 246);
    (248, 705); (710, 721); (736, 740); (748, 748); (750, 750); (880, 884); (886, 887);
    (890, 893); (895, 895); (902, 902); (904, 906); (908, 908); (910, 929); (931, 1013);
    (1015, 1153); (1162, 1327); (1329, 1366); (1369, 1369); (1376, 1416); (1488, 1514);
    (1519, 1522); (1568, 1610); (1646, 1647); (1649, 1747); (1749, 1749); (1765, 1766);
    (1774, 1775); (1786, 1788); (1791, 1791); (1808, 1808); (1810, 1839); (1869, 1957);
    (1969, 1969); (1994, 2026); (2036, 2037); (2042, 2042); (2048, 2069); (2074, 2074);
    (2084, 2084); (2088, 2088); (2112, 2136); (2144, 2154); (2160, 2183); (2185, 2190);
    (2208, 2249); (2308, 2361); (2365, 2365); (2384, 2384); (2392, 2401); (2417, 2432);
    (2437, 2444); (2447, 2448); (2451, 2472); (2474, 2480); (2482, 2482); (2486, 2489);
    (2493, 2493); (2510, 2510); (2524, 2525); (2527, 2529); (2544, 2545); (2556, 2556);
    (2565, 2570); (2575, 2576); (2579, 2600); (2602, 2608); (2610, 2611); (2613, 2614);
    (2616, 2617); (2649, 2652); (2654, 2654); (2674, 2676); (2693, 2701); (2703, 2705);
    (2707, 2728); (2730, 2736); (2738, 2739); (2741, 2745); (2749, 2749); (2768, 2768);
    (2784, 2785); (2809, 2809); (2821, 2828); (2831, 2832); (2835, 2856); (2858, 2864);
    (2866, 2867); (2869, 2873); (2877, 2877); (2908, 2909); (2911, 2913); (2929, 2929);
    (2947, 2947); (2949, 2954); (2958, 2960); (2962, 2965); (2969, 2970); (2972, 2972);
    (2974, 2975); (2979, 2980); (2984, 2986); (2990, 3001); (3024, 3024); (3077, 3084);
    (3086, 3088); (3090, 3112); (3114, 3129); (3133, 3133); (3160, 3162); (3165, 3165);
    (3168, 3169); (3200, 3200); (3205, 3212); (3214, 3216); (3218, 3240); (3242, 3251);
    (3253, 3257); (3261, 3261); (3293, 3294); (3296, 3297); (3313, 3314); (3332, 3340);
    (3342, 3344); (3346, 3386); (3389, 3389); (3406, 3406); (3412, 3414); (3423, 3425);
    (3450, 3455); (3461, 3478); (3482, 3505); (3507, 3515); (3517, 3517); (3520, 3526);
    (3585, 3632); (3634, 3635); (3648, 3654); (3713, 3714); (3716, 3716); (3718, 3722);
    (3724, 3747); (3749, 3749); (3751, 3760); (3762, 3763); (3773, 3773); (3776, 3780);
    (3782, 3782); (3804, 3807); (3840, 3840); (3904, 3911); (3913, 3948); (3976, 3980);
    (4096, 4138); (4159, 4159); (4176, 4181); (4186, 4189); (4193, 4193); (4197, 4198);
    (4206, 4208); (4213, 4225); (4238, 4238); (4256, 4293); (4295, 4295); (4301, 4301);
    (4304, 4346); (4348, 4680); (4682, 4685); (4688, 4694); (4696, 4696); (4698, 4701);
    (4704, 4744); (4746, 4749); (4752, 4784); (4786, 4789); (4792, 4798); (4800, 4800);
    (4802, 4805); (4808, 4822); (4824, 4880); (4882, 4885); (4888, 4954); (4992, 5007);
    (5024, 5109); (5112, 5117); (5121, 5740); (5743, 5759); (5761, 5786); (5792, 5866);
    (5873, 5880); (5888, 5905); (5919, 5937); (5952, 5969); (5984, 5996); (5998, 6000);
    (6016, 6067); (6103, 6103); (6108, 6108); (6176, 6264); (6272, 6276); (6279, 6312);
    (6314, 6314); (6320, 6389); (6400, 6430); (6480, 6509); (6512, 6516); (6528, 6571);
    (6576, 6601); (6656, 6678); (6688, 6740); (6823, 6823); (6917, 6963); (6981, 6988);
    (7043, 7072); (7086, 7087); (7098, 7141); (7168, 7203); (7245, 7247); (7258, 7293);
    (7296, 7304); (7312, 7354); (7357, 7359); (7401, 7404); (7406, 7411); (7413, 7414);
    (7418, 7418); (7424, 7615); (7680, 7957); (7960, 7965); (7968, 8005); (8008, 8013);
    (8016, 8023); (8025, 8025); (8027, 8027); (8029, 8029); (8031, 8061); (8064, 8116);
    (8118, 8124); (8126, 8126); (8130, 8132); (8134, 8140); (8144, 8147); (8150, 8155);
    (8160, 8172); (8178, 8180); (8182, 8188); (8305, 8305); (8319, 8319); (8336, 8348);
    (8450, 8450); (8455, 8455); (8458, 8467); (8469, 8469); (8473, 8477); (8484, 8484);
    (8486, 8486); (8488, 8488); (8490, 8493); (8495, 8505); (8508, 8511); (8517, 8521);
    (8526, 8526); (8579, 8580); (11264, 11492); (11499, 11502); (11506, 11507);
    (11520, 11557); (11559, 11559); (11565, 11565); (11568, 11623); (11631, 11631);
    (11648, 11670); (11680, 11686); (11688, 11694); (11696, 11702); (11704, 11710);
    (11712, 11718); (11720, 11726); (11728, 11734); (11736, 11742); (11823, 11823);
    (12293, 12294); (12337, 12341); (12347, 12348); (12353, 12438); (12445, 12447);
    (12449, 12538); (12540, 12543); (12549, 12591); (12593, 12686); (12704, 12735);
    (12784, 12799); (13312, 19903); (19968, 42124); (42192, 42237); (42240, 42508);
    (42512, 42527); (42538, 42539); (42560, 42606); (42623, 42653); (42656, 42725);
    (42775, 42783); (42786, 42888); (42891, 42954); (42960, 42961); (42963, 42963);
    (42965, 42969); (42994, 43009); (43011, 43013); (43015, 43018); (43020, 43042);
    (43072, 43123); (43138, 43187); (43250, 43255); (43259, 43259); (43261, 43262);
    (43274, 43301); (43312, 43334); (43360, 43388); (43396, 43442); (43471, 43471);
    (43488, 43492); (43494, 43503); (43514, 43518); (43520, 43560); (43584, 43586);
    (43588, 43595); (43616, 43638); (43642, 43642); (43646, 43695); (43697, 43697);
    (43701, 43702); (43705, 43709); (43712, 43712); (43714, 43714); (43739, 43741);
    (43744, 43754); (43762, 43764); (43777, 43782); (43785, 43790); (43793, 43798);
    (43808, 43814); (43816, 43822); (43824, 43866); (43868, 43881); (43888, 44002);
    (44032, 55203); (55216, 55238); (55243, 55291); (63744, 64109); (64112, 64217);
    (64256, 64262); (64275, 64279); (64285, 64285); (64287, 64296); (64298, 64310);
    (64312, 64316); (64318, 64318); (64320, 64321); (64323, 64324); (64326, 64433);
    (64467, 64829); (64848, 64911); (64914, 64967); (65008, 65019); (65136, 65140);
    (65142, 65276); (65313, 65338); (65345, 65370); (65382, 65470); (65474, 65479);
    (65482, 65487); (65490, 65495); (65498, 65500); (65536, 65547); (65549, 65574);
    (65576, 65594); (65596, 65597); (65599, 65613); (65616, 65629); (65664, 65786);
    (66176, 66204); (66208, 66256); (66304, 66335); (66349, 66368); (66370, 66377);
    (66384, 66421); (66432, 66461); (66464, 66499); (66504, 66511); (66560, 66717);
    (66736, 66771); (66776, 66811); (66816, 66855); (66864, 66915); (66928, 66938);
    (66940, 66954); (66956, 66962); (66964, 66965); (66967, 66977); (66979, 66993);
    (66995, 67001); (67003, 67004); (67072, 67382); (67392, 67413); (67424, 67431);
    (67456, 67461); (67463, 67504); (67506, 67514); (67584, 67589); (67592, 67592);
    (67594, 67637); (67639, 67640); (67644, 67644); (67647, 67669); (67680, 67702);
    (67712, 67742); (67808, 67826); (67828, 67829); (67840, 67861); (67872, 67897);
    (67968, 68023); (68030, 68031); (68096, 68096); (68112, 68115); (68117, 68119);
    (68121, 68149); (68192, 68220); (68224, 68252); (68288, 68295); (68297, 68324);
    (68352, 68405); (68416, 68437); (68448, 68466); (68480, 68497); (68608, 68680);
    (68736, 68786); (68800, 68850); (68864, 68899); (69248, 69289); (69296, 69297);
    (69376, 69404); (69415, 69415); (69424, 69445); (69488, 69505); (69552, 69572);
    (69600, 69622); (69635, 69687); (69745, 69746); (69749, 69749); (69763, 69807);
    (69840, 69864); (69891, 69926); (69956, 69956); (69959, 69959); (69968, 70002);
    (70006, 70006); (70019, 70066); (70081, 70084); (70106, 70106); (70108, 70108);
    (70144, 70161); (70163, 70187); (70272, 70278); (70280, 70280); (70282, 70285);
    (70287, 70301); (70303, 70312); (70320, 70366); (70405, 70412); (70415, 70416);
    (70419, 70440); (70442, 70448); (70450, 70451); (70453, 70457); (70461, 70461);
    (70480, 70480); (70493, 70497); (70656, 70708); (70727, 70730); (70751, 70753);
    (70784, 70831); (70852, 70853); (70855, 70855); (71040, 71086); (71128, 71131);
    (71168, 71215); (71236, 71236); (71296, 71338); (71352, 71352); (71424, 71450);
    (71488, 71494); (71680, 71723); (71840, 71903); (71935, 71942); (71945, 71945);
    (71948, 71955); (71957, 71958); (71960, 71983); (71999, 71999); (72001, 72001);
    (72096, 72103); (72106, 72144); (72161, 72161); (72163, 72163); (72192, 72192);
    (72203, 72242); (72250, 72250); (72272, 72272); (72284, 72329); (72349, 72349);
    (72368, 72440); (72704, 72712); (72714, 72750); (72768, 72768); (72818, 72847);
    (72960, 72966); (72968, 72969); (72971, 73008); (73030, 73030); (73056, 73061);
    (73063, 73064); (73066, 73097); (73112, 73112); (73440, 73458); (73648, 73648);
    (73728, 74649); (74880, 75075); (77712, 77808); (77824, 78894); (82944, 83526);
    (92160, 92728); (92736, 92766); (92784, 92862); (92880, 92909); (92928, 92975);
    (92992, 92995); (93027, 93047); (93053, 93071); (93760, 93823); (93952, 94026);
    (94032, 94032); (94099, 94111); (94176, 94177); (94179, 94179); (94208, 100343);
    (100352, 101589); (101632, 101640); (110576, 110579); (110581, 110587);
    (110589, 110590); (110592, 110882); (110928, 110930); (110948, 110951);
    (110960, 111355); (113664, 113770); (113776, 113788); (113792, 113800);
    (113808, 113817); (119808, 119892); (119894, 119964); (119966, 119967);
    (119970, 119970); (119973, 119974); (119977, 119980); (119982, 119993);
    (119995, 119995); (119997, 120003); (120005, 120069); (120071, 120074);
    (120077, 120084); (120086, 120092); (120094, 120121); (120123, 120126);
    (120128, 120132); (120134, 120134); (120138, 120144); (120146, 120485);
    (120488, 120512); (120514, 120538); (120540, 120570); (120572, 120596);
    (120598, 120628); (120630, 120654); (120656, 120686); (120688, 120712);
    (120714, 120744); (120746, 120770); (120772, 120779); (122624, 122654);
    (123136, 123180); (123191, 123197); (123214, 123214); (123536, 123565);
    (123584, 123627); (124896, 124902); (124904, 124907); (124909, 124910);
    (124912, 124926); (124928, 125124); (125184, 125251); (125259, 125259);
    (126464, 126467); (126469, 126495); (126497, 126498); (126500, 126500);
    (126503, 126503); (126505, 126514); (126516, 126519); (126521, 126521);
    (126523, 126523); (126530, 126530); (126535, 126535); (126537, 126537);
    (126539, 126539); (126541, 126543); (126545, 126546); (126548, 126548);
    (126551, 126551); (126553, 126553); (126555, 126555); (126557, 126557);
    (126559, 126559); (126561, 126562); (126564, 126564); (126567, 126570);
    (126572, 126578); (126580, 126583); (126585, 126588); (126590, 126590);
    (126592, 126601); (126603, 126619); (126625, 126627); (126629, 126633);
    (126635, 126651); (131072, 173791); (173824, 177976); (177984, 178205);
    (178208, 183969); (183984, 191456); (194560, 195101); (196608, 201546) ].

(** The characters of [str.isupper]. *)
Definition uppercase_ranges : list (N * N) :=
  [ (65, 90); (192, 214); (216, 222); (256, 256); (258, 258); (260, 260); (262, 262);
    (264, 264); (266, 266); (268, 268); (270, 270); (272, 272); (274, 274); (276, 276);
    (278, 278); (280, 280); (282, 282); (284, 284); (286, 286); (288, 288); (290, 290);
    (292, 292); (294, 294); (296, 296); (298, 298); (300, 300); (302, 302); (304, 304);
    (306, 306); (308, 308); (310, 310); (313, 313); (315, 315); (317, 317); (319, 319);
    (321, 321); (323, 323); (325, 325); (327, 327); (330, 330); (332, 332); (334, 334);
    (336, 336); (338, 338); (340, 340); (342, 342); (344, 344); (346, 346); (348, 348);
    (350, 350); (352, 352); (354, 354); (356, 356); (358, 358); (360, 360); (362, 362);
    (364, 364); (366, 366); (368, 368); (370, 370); (372, 372); (374, 374); (376, 377);
    (379, 379); (381, 381); (385, 386); (388, 388); (390, 391); (393, 395); (398, 401);
    (403, 404); (406, 408); (412, 413); (415, 416); (418, 418); (420, 420); (422, 423);
    (425, 425); (428, 428); (430, 431); (433, 435); (437, 437); (439, 440); (444, 444);
    (452, 452); (455, 455); (458, 458); (461, 461); (463, 463); (465, 465); (467, 467);
    (469, 469); (471, 471); (473, 473); (475, 475); (478, 478); (480, 480); (482, 482);
    (484, 484); (486, 486); (488, 488); (490, 490); (492, 492); (494, 494); (497, 497);
    (500, 500); (502, 504); (506, 506); (508, 508); (510, 510); (512, 512); (514, 514);
    (516, 516); (518, 518); (520, 520); (522, 522); (524, 524); (526, 526); (528, 528);
    (530, 530); (532, 532); (534, 534); (536, 536); (538, 538); (540, 540); (542, 542);
    (544, 544); (546, 546); (548, 548); (550, 550); (552, 552); (554, 554); (556, 556);
    (558, 558); (560, 560); (562, 562); (570, 571); (573, 574); (577, 577); (579, 582);
    (584, 584); (586, 586); (588, 588); (590, 590); (880, 880); (882, 882); (886, 886);
    (895, 895); (902, 902); (904, 906); (908, 908); (910, 911); (913, 929); (931, 939);
    (975, 975); (978, 980); (984, 984); (986, 986); (988, 988); (990, 990); (992, 992);
    (994, 994); (996, 996); (998, 998); (1000, 1000); (1002, 1002); (1004, 1004);
    (1006, 1006); (1012, 1012); (1015, 1015); (1017, 1018); (1021, 1071); (1120, 1120);
    (1122, 1122); (1124, 1124); (1126, 1126); (1128, 1128); (1130, 1130); (1132, 1132);
    (1134, 1134); (1136, 1136); (1138, 1138); (1140, 1140); (1142, 1142); (1144, 1144);
    (1146, 1146); (1148, 1148); (1150, 1150); (1152, 1152); (1162, 1162); (1164, 1164);
    (1166, 1166); (1168, 1168); (1170, 1170); (1172, 1172); (1174, 1174); (1176, 1176);
    (1178, 1178); (1180, 1180); (1182, 1182); (1184, 1184); (1186, 1186); (1188, 1188);
    (1190, 1190); (1192, 1192); (1194, 1194); (1196, 1196); (1198, 1198); (1200, 1200);
    (1202, 1202); (1204, 1204); (1206, 1206); (1208, 1208); (1210, 1210); (1212, 1212);
    (1214, 1214); (1216, 1217); (1219, 1219); (1221, 1221); (1223, 1223); (1225, 1225);
    (1227, 1227); (1229, 1229); (1232, 1232); (1234, 1234); (1236, 1236); (1238, 1238);
    (1240, 1240); (1242, 1242); (1244, 1244); (1246, 1246); (1248, 1248); (1250, 1250);
    (1252, 1252); (1254, 1254); (1256, 1256); (1258, 1258); (1260, 1260); (1262, 1262);
    (1264, 1264); (1266, 1266); (1268, 1268); (1270, 1270); (1272, 1272); (1274, 1274);
    (1276, 1276); (1278, 1278); (1280, 1280); (1282, 1282); (1284, 1284); (1286, 1286);
    (1288, 1288); (1290, 1290); (1292, 1292); (1294, 1294); (1296, 1296); (1298, 1298);
    (1300, 1300); (1302, 1302); (1304, 1304); (1306, 1306); (1308, 1308); (1310, 1310);
    (1312, 1312); (1314, 1314); (1316, 1316); (1318, 1318); (1320, 1320); (1322, 1322);
    (1324, 1324); (1326, 1326); (1329, 1366); (4256, 4293); (4295, 4295); (4301, 4301);
    (5024, 5109); (7312, 7354); (7357, 7359); (7680, 7680); (7682, 7682); (7684, 7684);
    (7686, 7686); (7688, 7688); (7690, 7690); (7692, 7692); (7694, 7694); (7696, 7696);
    (7698, 7698); (7700, 7700); (7702, 7702); (7704, 7704); (7706, 7706); (7708, 7708);
    (7710, 7710); (7712, 7712); (7714, 7714); (7716, 7716); (7718, 7718); (7720, 7720);
    (7722, 7722); (7724, 7724); (7726, 7726); (7728, 7728); (7730, 7730); (7732, 7732);
    (7734, 7734); (7736, 7736); (7738, 7738); (7740, 7740); (7742, 7742); (7744, 7744);
    (7746, 7746); (7748, 7748); (7750, 7750); (7752, 7752); (7754, 7754); (7756, 7756);
    (7758, 7758); (7760, 7760); (7762, 7762); (7764, 7764); (7766, 7766); (7768, 7768);
    (7770, 7770); (7772, 7772); (7774, 7774); (7776, 7776); (7778, 7778); (7780, 7780);
    (7782, 7782); (7784, 7784); (7786, 7786); (7788, 7788); (7790, 7790); (7792, 7792);
    (7794, 7794); (7796, 7796); (7798, 7798); (7800, 7800); (7802, 7802); (7804, 7804);
    (7806, 7806); (7808, 7808); (7810, 7810); (7812, 7812); (7814, 7814); (7816, 7816);
    (7818, 7818); (7820, 7820); (7822, 7822); (7824, 7824); (7826, 7826); (7828, 7828);
    (7838, 7838); (7840, 7840); (7842, 7842); (7844, 7844); (7846, 7846); (7848, 7848);
    (7850, 7850); (7852, 7852); (7854, 7854); (7856, 7856); (7858, 7858); (7860, 7860);
    (7862, 7862); (7864, 7864); (7866, 7866); (7868, 7868); (7870, 7870); (7872, 7872);
    (7874, 7874); (7876, 7876); (7878, 7878); (7880, 7880); (7882, 7882); (7884, 7884);
    (7886, 7886); (7888, 7888); (7890, 7890); (7892, 7892); (7894, 7894); (7896, 7896);
    (7898, 7898); (7900, 7900); (7902, 7902); (7904, 7904); (7906, 7906); (7908, 7908);
    (7910, 7910); (7912, 7912); (7914, 7914); (7916, 7916); (7918, 7918); (7920, 7920);
    (7922, 7922); (7924, 7924); (7926, 7926); (7928, 7928); (7930, 7930); (7932, 7932);
    (7934, 7934); (7944, 7951); (7960, 7965); (7976, 7983); (7992, 7999); (8008, 8013);
    (8025, 8025); (8027, 8027); (8029, 8029); (8031, 8031); (8040, 8047); (8120, 8123);
    (8136, 8139); (8152, 8155); (8168, 8172); (8184, 8187); (8450, 8450); (8455, 8455);
    (8459, 8461); (8464, 8466); (8469, 8469); (8473, 8477); (8484, 8484); (8486, 8486);
    (8488, 8488); (8490, 8493); (8496, 8499); (8510, 8511); (8517, 8517); (8544, 8559);
    (8579, 8579); (9398, 9423); (11264, 11311); (11360, 11360); (11362, 11364);
    (11367, 11367); (11369, 11369); (11371, 11371); (11373, 11376); (11378, 11378);
    (11381, 11381); (11390, 11392); (11394, 11394); (11396, 11396); (11398, 11398);
    (11400, 11400); (11402, 11402); (11404, 11404); (11406, 11406); (11408, 11408);
    (11410, 11410); (11412, 11412); (11414, 11414); (11416, 11416); (11418, 11418);
    (11420, 11420); (11422, 11422); (11424, 11424); (11426, 11426); (11428, 11428);
    (11430, 11430); (11432, 11432); (11434, 11434); (11436, 11436); (11438, 11438);
    (11440, 11440); (11442, 11442); (11444, 11444); (11446, 11446); (11448, 11448);
    (11450, 11450); (11452, 11452); (11454, 11454); (11456, 11456); (11458, 11458);
    (11460, 11460); (11462, 11462); (11464, 11464); (11466, 11466); (11468, 11468);
    (11470, 11470); (11472, 11472); (11474, 11474); (11476, 11476); (11478, 11478);
    (11480, 11480); (11482, 11482); (11484, 11484); (11486, 11486); (11488, 11488);
    (11490, 11490); (11499, 11499); (11501, 11501); (11506, 11506); (42560, 42560);
    (42562, 42562); (42564, 42564); (42566, 42566); (42568, 42568); (42570, 42570);
    (42572, 42572); (42574, 42574); (42576, 42576); (42578, 42578); (42580, 42580);
    (42582, 42582); (42584, 42584); (42586, 42586); (42588, 42588); (42590, 42590);
    (42592, 42592); (42594, 42594); (42596, 42596); (42598, 42598); (42600, 42600);
    (42602, 42602); (42604, 42604); (42624, 42624); (42626, 42626); (42628, 42628);
    (42630, 42630); (42632, 42632); (42634, 42634); (42636, 42636); (42638, 42638);
    (42640, 42640); (42642, 42642); (42644, 42644); (42646, 42646); (42648, 42648);
    (42650, 42650); (42786, 42786); (42788, 42788); (42790, 42790); (42792, 42792);
    (42794, 42794); (42796, 42796); (42798, 42798); (42802, 42802); (42804, 42804);
    (42806, 42806); (42808, 42808); (42810, 42810); (42812, 42812); (42814, 42814);
    (42816, 42816); (42818, 42818); (42820, 42820); (42822, 42822); (42824, 42824);
    (42826, 42826); (42828, 42828); (42830, 42830); (42832, 42832); (42834, 42834);
    (42836, 42836); (42838, 42838); (42840, 42840); (42842, 42842); (42844, 42844);
    (42846, 42846); (42848, 42848); (42850, 42850); (42852, 42852); (42854, 42854);
    (42856, 42856); (42858, 42858); (42860, 42860); (42862, 42862); (42873, 42873);
    (42875, 42875); (42877, 42878); (42880, 42880); (42882, 42882); (42884, 42884);
    (42886, 42886); (42891, 42891); (42893, 42893); (42896, 42896); (42898, 42898);
    (42902, 42902); (42904, 42904); (42906, 42906); (42908, 42908); (42910, 42910);
    (42912, 42912); (42914, 42914); (42916, 42916); (42918, 42918); (42920, 42920);
    (42922, 42926); (42928, 42932); (42934, 42934); (42936, 42936); (42938, 42938);
    (42940, 42940); (42942, 42942); (42944, 42944); (42946, 42946); (42948, 42951);
    (42953, 42953); (42960, 42960); (42966, 42966); (42968, 42968); (42997, 42997);
    (65313, 65338); (66560, 66599); (66736, 66771); (66928, 66938); (66940, 66954);
    (66956, 66962); (66964, 66965); (68736, 68786); (71840, 71871); (93760, 93791);
    (119808, 119833); (119860, 119885); (119912, 119937); (119964, 119964);
    (119966, 119967); (119970, 119970); (119973, 119974); (119977, 119980);
    (119982, 119989); (120016, 120041); (120068, 120069); (120071, 120074);
    (120077, 120084); (120086, 120092); (120120, 120121); (120123, 120126);
    (120128, 120132); (120134, 120134); (120138, 120144); (120172, 120197);
    (120224, 120249); (120276, 120301); (120328, 120353); (120380, 120405);
    (120432, 120457); (120488, 120512); (120546, 120570); (120604, 120628);
    (120662, 120686); (120720, 120744); (120778, 120778); (125184, 125217);
    (127280, 127305); (127312, 127337); (127344, 127369) ].

(** The characters [str.upper] maps to one other character: every
    [step]-th character from [lo] to [hi], [lo] going to [image] and the
    others as far from it as they are from [lo]. *)
Definition upper_rules : list (N * N * N * N) :=
  [ (97, 122, 1, 65); (181, 181, 1, 924); (224, 246, 1, 192); (248, 254, 1, 216);
    (255, 255, 1, 376); (257, 303, 2, 256); (305, 305, 1, 73); (307, 311, 2, 306);
    (314, 328, 2, 313); (331, 375, 2, 330); (378, 382, 2, 377); (383, 383, 1, 83);
    (384, 384, 1, 579); (387, 389, 2, 386); (392, 392, 1, 391); (396, 396, 1, 395);
    (402, 402, 1, 401); (405, 405, 1, 502); (409, 409, 1, 408); (410, 410, 1, 573);
    (414, 414, 1, 544); (417, 421, 2, 416); (424, 424, 1, 423); (429, 429, 1, 428);
    (432, 432, 1, 431); (436, 438, 2, 435); (441, 441, 1, 440); (445, 445, 1, 444);
    (447, 447, 1, 503); (453, 453, 1, 452); (454, 454, 1, 452); (456, 456, 1, 455);
    (457, 457, 1, 455); (459, 459, 1, 458); (460, 460, 1, 458); (462, 476, 2, 461);
    (477, 477, 1, 398); (479, 495, 2, 478); (498, 498, 1, 497); (499, 499, 1, 497);
    (501, 501, 1, 500); (505, 543, 2, 504); (547, 563, 2, 546); (572, 572, 1, 571);
    (575, 576, 1, 11390); (578, 578, 1, 577); (583, 591, 2, 582); (592, 592, 1, 11375);
    (593, 593, 1, 11373); (594, 594, 1, 11376); (595, 595, 1, 385); (596, 596, 1, 390);
    (598, 599, 1, 393); (601, 601, 1, 399); (603, 603, 1, 400); (604, 604, 1, 42923);
    (608, 608, 1, 403); (609, 609, 1, 42924); (611, 611, 1, 404); (613, 613, 1, 42893);
    (614, 614, 1, 42922); (616, 616, 1, 407); (617, 617, 1, 406); (618, 618, 1, 42926);
    (619, 619, 1, 11362); (620, 620, 1, 42925); (623, 623, 1, 412);
    (625, 625, 1, 11374); (626, 626, 1, 413); (629, 629, 1, 415); (637, 637, 1, 11364);
    (640, 640, 1, 422); (642, 642, 1, 42949); (643, 643, 1, 425); (647, 647, 1, 42929);
    (648, 648, 1, 430); (649, 649, 1, 580); (650, 651, 1, 433); (652, 652, 1, 581);
    (658, 658, 1, 439); (669, 669, 1, 42930); (670, 670, 1, 42928); (837, 837, 1, 921);
    (881, 883, 2, 880); (887, 887, 1, 886); (891, 893, 1, 1021); (940, 940, 1, 902);
    (941, 943, 1, 904); (945, 961, 1, 913); (962, 962, 1, 931); (963, 971, 1, 931);
    (972, 972, 1, 908); (973, 974, 1, 910); (976, 976, 1, 914); (977, 977, 1, 920);
    (981, 981, 1, 934); (982, 982, 1, 928); (983, 983, 1, 975); (985, 1007, 2, 984);
    (1008, 1008, 1, 922); (1009, 1009, 1, 929); (1010, 1010, 1, 1017);
    (1011, 1011, 1, 895); (1013, 1013, 1, 917); (1016, 1016, 1, 1015);
    (1019, 1019, 1, 1018); (1072, 1103, 1, 1040); (1104, 1119, 1, 1024);
    (1121, 1153, 2, 1120); (1163, 1215, 2, 1162); (1218, 1230, 2, 1217);
    (1231, 1231, 1, 1216); (1233, 1327, 2, 1232); (1377, 1414, 1, 1329);
    (4304, 4346, 1, 7312); (4349, 4351, 1, 7357); (5112, 5117, 1, 5104);
    (7296, 7296, 1, 1042); (7297, 7297, 1, 1044); (7298, 7298, 1, 1054);
    (7299, 7300, 1, 1057); (7301, 7301, 1, 1058); (7302, 7302, 1, 1066);
    (7303, 7303, 1, 1122); (7304, 7304, 1, 42570); (7545, 7545, 1, 42877);
    (7549, 7549, 1, 11363); (7566, 7566, 1, 42950); (7681, 7829, 2, 7680);
    (7835, 7835, 1, 7776); (7841, 7935, 2, 7840); (7936, 7943, 1, 7944);
    (7952, 7957, 1, 7960); (7968, 7975, 1, 7976); (7984, 7991, 1, 7992);
    (8000, 8005, 1, 8008); (8017, 8023, 2, 8025); (8032, 8039, 1, 8040);
    (8048, 8049, 1, 8122); (8050, 8053, 1, 8136); (8054, 8055, 1, 8154);
    (8056, 8057, 1, 8184); (8058, 8059, 1, 8170); (8060, 8061, 1, 8186);
    (8112, 8113, 1, 8120); (8126, 8126, 1, 921); (8144, 8145, 1, 8152);
    (8160, 8161, 1, 8168); (8165, 8165, 1, 8172); (8526, 8526, 1, 8498);
    (8560, 8575, 1, 8544); (8580, 8580, 1, 8579); (9424, 9449, 1, 9398);
    (11312, 11359, 1, 11264); (11361, 11361, 1, 11360); (11365, 11365, 1, 570);
    (11366, 11366, 1, 574); (11368, 11372, 2, 11367); (11379, 11379, 1, 11378);
    (11382, 11382, 1, 11381); (11393, 11491, 2, 11392); (11500, 11502, 2, 11499);
    (11507, 11507, 1, 11506); (11520, 11557, 1, 4256); (11559, 11559, 1, 4295);
    (11565, 11565, 1, 4301); (42561, 42605, 2, 42560); (42625, 42651, 2, 42624);
    (42787, 42799, 2, 42786); (42803, 42863, 2, 42802); (42874, 42876, 2, 42873);
    (42879, 42887, 2, 42878); (42892, 42892, 1, 42891); (42897, 42899, 2, 42896);
    (42900, 42900, 1, 42948); (42903, 42921, 2, 42902); (42933, 42947, 2, 42932);
    (42952, 42954, 2, 42951); (42961, 42961, 1, 42960); (42967, 42969, 2, 42966);
    (42998, 42998, 1, 42997); (43859, 43859, 1, 42931); (43888, 43967, 1, 5024);
    (65345, 65370, 1, 65313); (66600, 66639, 1, 66560); (66776, 66811, 1, 66736);
    (66967, 67003, 2, 66928); (66968, 66976, 2, 66929); (66980, 66992, 2, 66941);
    (66996, 67000, 2, 66957); (67004, 67004, 1, 66965); (68800, 68850, 1, 68736);
    (71872, 71903, 1, 71840); (93792, 93823, 1, 93760); (125218, 125251, 1, 125184) ].

(** The characters [str.upper] expands to two or three characters. *)
Definition upper_expansions : list (N * list N) :=
  [ (223, [83; 83]); (329, [700; 78]); (496, [74; 780]); (912, [921; 776; 769]);
    (944, [933; 776; 769]); (1415, [1333; 1362]); (7830, [72; 817]); (7831, [84; 776]);
    (7832, [87; 778]); (7833, [89; 778]); (7834, [65; 702]); (8016, [933; 787]);
    (8018, [933; 787; 768]); (8020, [933; 787; 769]); (8022, [933; 787; 834]);
    (8064, [7944; 921]); (8065, [7945; 921]); (8066, [7946; 921]); (8067, [7947; 921]);
    (8068, [7948; 921]); (8069, [7949; 921]); (8070, [7950; 921]); (8071, [7951; 921]);
    (8072, [7944; 921]); (8073, [7945; 921]); (8074, [7946; 921]); (8075, [7947; 921]);
    (8076, [7948; 921]); (8077, [7949; 921]); (8078, [7950; 921]); (8079, [7951; 921]);
    (8080, [7976; 921]); (8081, [7977; 921]); (8082, [7978; 921]); (8083, [7979; 921]);
    (8084, [7980; 921]); (8085, [7981; 921]); (8086, [7982; 921]); (8087, [7983; 921]);
    (8088, [7976; 921]); (8089, [7977; 921]); (8090, [7978; 921]); (8091, [7979; 921]);
    (8092, [7980; 921]); (8093, [7981; 921]); (8094, [7982; 921]); (8095, [7983; 921]);
    (8096, [8040; 921]); (8097, [8041; 921]); (8098, [8042; 921]); (8099, [8043; 921]);
    (8100, [8044; 921]); (8101, [8045; 921]); (8102, [8046; 921]); (8103, [8047; 921]);
    (8104, [8040; 921]); (8105, [8041; 921]); (8106, [8042; 921]); (8107, [8043; 921]);
    (8108, [8044; 921]); (8109, [8045; 921]); (8110, [8046; 921]); (8111, [8047; 921]);
    (8114, [8122; 921]); (8115, [913; 921]); (8116, [902; 921]); (8118, [913; 834]);
    (8119, [913; 834; 921]); (8124, [913; 921]); (8130, [8138; 921]);
    (8131, [919; 921]); (8132, [905; 921]); (8134, [919; 834]); (8135, [919; 834; 921]);
    (8140, [919; 921]); (8146, [921; 776; 768]); (8147, [921; 776; 769]);
    (8150, [921; 834]); (8151, [921; 776; 834]); (8162, [933; 776; 768]);
    (8163, [933; 776; 769]); (8164, [929; 787]); (8166, [933; 834]);
    (8167, [933; 776; 834]); (8178, [8186; 921]); (8179, [937; 921]);
    (8180, [911; 921]); (8182, [937; 834]); (8183, [937; 834; 921]); (8188, [937; 921]);
    (64256, [70; 70]); (64257, [70; 73]); (64258, [70; 76]); (64259, [70; 70; 73]);
    (64260, [70; 70; 76]); (64261, [83; 84]); (64262, [83; 84]); (64275, [1348; 1350]);
    (64276, [1348; 1333]); (64277, [1348; 1339]); (64278, [1358; 1350]);
    (64279, [1348; 1341]) ].

End Unicode.

(** ** Python strings *)

Module Py.
Export Unicode.
#[local] Open Scope N_scope.

Definition char : Type := N.
Definition str : Type := list char.

(** A string literal of the source, as code points. *)
Definition lit (s : string) : str := map N_of_ascii (list_ascii_of_string s).
Definition chr (a : ascii) : char := N_of_ascii a.

(** [str.isspace] on one character, which is also what [strip] removes and
    what [\s] matches. *)
Definition isspace (c : char) : bool :=
  in_range 9 13 c || in_range 28 32 c || (c =? 133) || (c =? 160)
  || (c =? 5760) || in_range 8192 8202 c || (c =? 8232) || (c =? 8233)
  || (c =? 8239) || (c =? 8287) || (c =? 12288).

(** The line boundaries of [str.splitlines]. *)
Definition islinebreak (c : char) : bool :=
  in_range 10 13 c || in_range 28 30 c || (c =? 133) || (c =? 8232) || (c =? 8233).

(** Decimal digits: [str.isdecimal], the class [\d] and the digits [int]
    accepts, in every script. *)
Definition isdecimal (c : char) : bool := in_table decimal_blocks c.

Definition isalpha (c : char) : bool := in_table alpha_ranges c.

Definition isupper (c : char) : bool := in_table uppercase_ranges c.

(** Word characters, the class [\w] behind [\b]: alphanumeric or underscore. *)
Definition isword (c : char) : bool := in_table word_ranges c.

(** The rule [(lo, hi, step, image)] maps [c]. *)
Definition rule_applies (r : N * N * N * N) (c : char) : bool :=
  let '(lo, hi, step, _) := r in in_range lo hi c && ((c - lo) mod step =? 0).

(** [str.upper] on one character: some characters expand to two or three
    (sharp s to "SS"), the others go to one character or stay. *)
Definition upper_char (c : char) : str :=
  match find (fun e => fst e =? c) upper_expansions with
  | Some e => snd e
  | None =>
      match find (fun r => rule_applies r c) upper_rules with
      | Some (lo, _, _, image) => [image + (c - lo)]
      | None => [c]
      end
  end.

(** [str.upper]: character by character, whatever stands around it. *)
Definition upper (s : str) : str := flat_map upper_char s.

Fixpoint eqb (a b : str) : bool :=
  match a, b with
  | [], [] => true
  | x :: a', y :: b' => (x =? y) && eqb a' b'
  | _, _ => false
  end.

Fixpoint startswith (s prefix : str) : bool :=
  match prefix, s with
  | [], _ => true
  | p :: prefix', c :: s' => (c =? p) && startswith s' prefix'
  | _ :: _, [] => false
  end.

Definition endswith (s suffix : str) : bool := startswith (rev s) (rev suffix).

Fixpoint lstrip (s : str) : str :=
  match s with
  | c :: s' => if isspace c then lstrip s' else s
  | [] => []
  end.

Definition rstrip (s : str) : str := rev (lstrip (rev s)).
Definition strip (s : str) : str := lstrip (rstrip s).

(** [c in s] for a single character [c]. *)
Definition has_char (c : char) (s : str) : bool := existsb (N.eqb c) s.

(** [needle in s] for a substring. *)
Fixpoint contains (s needle : str) : bool :=
  startswith s needle ||
  match s with
  | [] => false
  | _ :: s' => contains s' needle
  end.

(** [s.replace(c, new)] for a one-character [c]. *)
Definition replace_char (c : char) (new s : str) : str :=
  flat_map (fun x => if x =? c then new else [x]) s.

(** [sep.join(parts)]. *)
Fixpoint join (sep : str) (parts : list str) : str :=
  match parts with
  | [] => []
  | [x] => x
  | x :: rest => x ++ sep ++ join sep rest
  end.

(** [s.split(c, 1)] for a character [c] that occurs in [s]: the text before
    the first [c] and the text after it. *)
Fixpoint split_once (c : char) (s : str) : str * str :=
  match s with
  | [] => ([], [])
  | x :: s' => if x =? c then ([], s')
               else let '(a, b) := split_once c s' in (x :: a, b)
  end.

(** [str.splitlines]: the line boundaries are dropped, a carriage return
    followed by a line feed counts once, and no empty last line is made. *)
Fixpoint splitlines_from (cur : str) (s : str) : list str :=
  match s with
  | [] => match cur with [] => [] | _ => [cur] end
  | c :: s' =>
      if islinebreak c then
        cur :: (if c =? 13
                then match s' with
                     | d :: s'' => if d =? 10 then splitlines_from [] s''
                                   else splitlines_from [] s'
                     | [] => splitlines_from [] s'
                     end
                else splitlines_from [] s')
      else splitlines_from (cur ++ [c]) s'
  end.

Definition splitlines (s : str) : list str := splitlines_from [] s.

(** The value of a decimal digit: its place in its block of ten. *)
Definition digit_value (c : char) : N :=
  match find (fun r => in_range (fst r) (snd r) c) decimal_blocks with
  | Some r => c - fst r
  | None => 0
  end.

(** [int] refuses a text of more than 4300 digits with a [ValueError]
    (the default of [sys.set_int_max_str_digits]); leading zeros count. *)
Definition int_max_str_digits : nat := 4300.

Definition int_raises (s : str) : bool := (int_max_str_digits <? length s)%nat.

(** [int(s)] on a run of decimal digits, where it returns: the number the
    digits write, whatever their scripts. *)
Definition int_of_digits (s : str) : N :=
  fold_left (fun acc c => 10 * acc + digit_value c) s 0.

(** [str(n)] for an integer. *)
Definition str_of_Z (z : Z) : str := lit (NilZero.string_of_int (Z.to_int z)).

(** The order of [sorted] on strings: by code point, a prefix first. *)
Fixpoint leb (a b : str) : bool :=
  match a, b with
  | [], _ => true
  | _ :: _, [] => false
  | x :: a', y :: b' => (x <? y) || ((x =? y) && leb a' b')
  end.

End Py.

(** ** The regular expressions of the source

    The patterns of the program are sequences of character classes under
    greedy quantifiers, the word boundary [\b], one capturing group and one
    negative lookahead.  [match_at] is a backtracking matcher in the order
    Python's [re] tries alternatives: a greedy quantifier takes as many
    characters as it can and gives them back one at a time. *)

Module Re.
Import Py.

#[warnings="-register-all"]
Inductive atom : Type :=
| Chr (f : char -> bool)       (* one character of a class *)
| Opt (f : char -> bool)       (* [c?] *)
| Star (f : char -> bool)      (* [c*] *)
| Plus (f : char -> bool)      (* [c+] *)
| WordB                        (* [\b] *)
| GOpen                        (* [(] of group 1 *)
| GClose                       (* [)] of group 1 *)
| NotAhead (q : list atom).    (* [(?!q)] *)

Definition pattern : Type := list atom.

(** Start and end of group 1, when it took part in the match. *)
Definition groups : Type := (option nat * option nat)%type.

Definition one (a : ascii) : char -> bool := N.eqb (chr a).

Definition isword_opt (c : option char) : bool :=
  match c with Some x => isword x | None => false end.

(** [\b] holds between a word character and a character that is not one,
    the two ends of the text counting as not one. *)
Definition word_boundary (prev : option char) (s : str) : bool :=
  xorb (isword_opt prev) (isword_opt (hd_error s)).

Section Star.
Context {R : Type}.
Variable f : char -> bool.
Variable k : nat -> option char -> str -> option R.

(** Greedy repetition of [f], then the rest of the pattern [k]. *)
Fixpoint star (pos : nat) (prev : option char) (s : str) : option R :=
  match s with
  | c :: s' =>
      if f c then
        match star (S pos) (Some c) s' with
        | Some r => Some r
        | None => k pos prev s
        end
      else k pos prev s
  | [] => k pos prev s
  end.
End Star.

(** What is left to match: the group so far, the index in the subject, the
    character before it and the text from it on. *)
Definition cont : Type :=
  groups -> nat -> option char -> str -> option (nat * groups).

(** The end of the pattern: the match ends here. *)
Definition accept : cont := fun g pos _ _ => Some (pos, g).

(** [match_atom a k]: match the atom [a], then the rest of the pattern [k]. *)
Fixpoint match_atom (a : atom) (k : cont) {struct a} : cont :=
  fun g pos prev s =>
  match a with
  | Chr f =>
      match s with
      | c :: s' => if f c then k g (S pos) (Some c) s' else None
      | [] => None
      end
  | Opt f =>
      match s with
      | c :: s' =>
          if f c then
            match k g (S pos) (Some c) s' with
            | Some r => Some r
            | None => k g pos prev s
            end
          else k g pos prev s
      | [] => k g pos prev s
      end
  | Star f => star f (k g) pos prev s
  | Plus f =>
      match s with
      | c :: s' => if f c then star f (k g) (S pos) (Some c) s' else None
      | [] => None
      end
  | WordB => if word_boundary prev s then k g pos prev s else None
  | GOpen => k (Some pos, snd g) pos prev s
  | GClose => k (fst g, Some pos) pos prev s
  | NotAhead q =>
      match fold_right match_atom accept q g pos prev s with
      | Some _ => None
      | None => k g pos prev s
      end
  end.

(** [match_at p g pos prev s]: match [p] against [s], which starts at index
    [pos] of the subject and is preceded by [prev]; the end index and the
    group on success. *)
Definition match_at (p : pattern) : cont := fold_right match_atom accept p.

Record match_obj : Type := MatchObj {
  m_start : nat;
  m_end : nat;
  m_groups : groups
}.

(** [re.match]: at the start of the text only. *)
Definition re_match (p : pattern) (s : str) : option match_obj :=
  match match_at p (None, None) 0 None s with
  | Some (e, g) => Some (MatchObj 0 e g)
  | None => None
  end.

(** [re.search]: the first index at which the pattern matches. *)
Fixpoint search_from (p : pattern) (pos : nat) (prev : option char) (s : str)
  : option match_obj :=
  match match_at p (None, None) pos prev s with
  | Some (e, g) => Some (MatchObj pos e g)
  | None =>
      match s with
      | [] => None
      | c :: s' => search_from p (S pos) (Some c) s'
      end
  end.

Definition re_search (p : pattern) (s : str) : option match_obj :=
  search_from p 0 None s.

(** [m.group(1)] as text of the subject [s]. *)
Definition group1 (m : match_obj) (s : str) : str :=
  match m_groups m with
  | (Some a, Some b) => firstn (b - a) (skipn a s)
  | _ => []
  end.

(** [re.sub(p, repl, s)] for a replacement without group references.
    [skip] counts the characters of the current match still to be dropped.
    An empty match inserts [repl] and keeps the character. *)
Fixpoint sub_from (p : pattern) (repl : str) (skip : nat) (pos : nat)
                  (prev : option char) (s : str) : str :=
  match s with
  | [] =>
      match skip, match_at p (None, None) pos prev [] with
      | O, Some _ => repl
      | _, _ => []
      end
  | c :: s' =>
      match skip with
      | S n => sub_from p repl n (S pos) (Some c) s'
      | O =>
          match match_at p (None, None) pos prev s with
          | Some (e, _) =>
              match (e - pos)%nat with
              | O => repl ++ c :: sub_from p repl 0 (S pos) (Some c) s'
              | S n => repl ++ sub_from p repl n (S pos) (Some c) s'
              end
          | None => c :: sub_from p repl 0 (S pos) (Some c) s'
          end
      end
  end.

Definition re_sub (p : pattern) (repl s : str) : str :=
  sub_from p repl 0 0 None s.

End Re.

(** ** Dictionaries

    A Python [dict] with string keys, as the list of its items in insertion
    order: assigning to a key that is present replaces its value in place. *)

Module Dict.
Import Py.

Definition dict (V : Type) : Type := list (str * V).

Fixpoint get {V : Type} (d : dict V) (k : str) : option V :=
  match d with
  | [] => None
  | (k', v) :: d' => if Py.eqb k' k then Some v else get d' k
  end.

Fixpoint set {V : Type} (d : dict V) (k : str) (v : V) : dict V :=
  match d with
  | [] => [(k, v)]
  | (k', v') :: d' => if Py.eqb k' k then (k', v) :: d' else (k', v') :: set d' k v
  end.

Definition keys {V : Type} (d : dict V) : list str := map fst d.
Definition values {V : Type} (d : dict V) : list V := map snd d.

(** [d.get(k, default)]. *)
Definition get_or {V : Type} (o : option V) (default : V) : V :=
  match o with Some v => v | None => default end.

Section Sorting.
Context {A : Type}.
Variable le : A -> A -> bool.

Fixpoint insert (x : A) (l : list A) : list A :=
  match l with
  | [] => [x]
  | y :: l' => if le x y then x :: l else y :: insert x l'
  end.

(** [sorted(l)]: a stable sort. *)
Definition sorted (l : list A) : list A := fold_right insert [] l.
End Sorting.

End Dict.

(** ** The converter *)

Module Mus2ndp.
Import Py Re Dict.

Definition MUS_TO_NDP_TRACK_MAP : dict str :=
  [(lit "A", lit "1"); (lit "B", lit "2"); (lit "C", lit "3"); (lit "D", lit "4");
   (lit "E", lit "5"); (lit "F", lit "6"); (lit "G", lit "7"); (lit "H", lit "8")].

Definition NDP_TIMEBASE : Z := 48.
Definition MAX_LINE_LENGTH_MMLE : nat := 80.

(** The dictionary [parse_mus_file] returns. *)
Record parsed_data : Type := Parsed {
  title : str;
  composer : str;
  tracks : dict str;
  track_instruments : dict str;
  voice_definitions : dict str;
  mus_tempo : option N
}.

Definition set_title (r : parsed_data) (v : str) : parsed_data :=
  Parsed v (composer r) (tracks r) (track_instruments r) (voice_definitions r) (mus_tempo r).
Definition set_composer (r : parsed_data) (v : str) : parsed_data :=
  Parsed (title r) v (tracks r) (track_instruments r) (voice_definitions r) (mus_tempo r).
Definition set_tracks (r : parsed_data) (v : dict str) : parsed_data :=
  Parsed (title r) (composer r) v (track_instruments r) (voice_definitions r) (mus_tempo r).
Definition set_track_instruments (r : parsed_data) (v : dict str) : parsed_data :=
  Parsed (title r) (composer r) (tracks r) v (voice_definitions r) (mus_tempo r).
Definition set_voice_definitions (r : parsed_data) (v : dict str) : parsed_data :=
  Parsed (title r) (composer r) (tracks r) (track_instruments r) v (mus_tempo r).
Definition set_mus_tempo (r : parsed_data) (v : option N) : parsed_data :=
  Parsed (title r) (composer r) (tracks r) (track_instruments r) (voice_definitions r) v.

Definition nonempty {A : Type} (l : list A) : bool :=
  match l with [] => false | _ => true end.

(** *** preprocess_and_extract_data_from_track_line *)

(** [@t(\d+)], [@t\s+(\d+)] and [@\s*t\s*(\d+)]. *)
Definition tempo_patterns : list pattern :=
  [ [Chr (one "@"); Chr (one "t"); GOpen; Plus isdecimal; GClose];
    [Chr (one "@"); Chr (one "t"); Plus isspace; GOpen; Plus isdecimal; GClose];
    [Chr (one "@"); Star isspace; Chr (one "t"); Star isspace;
     GOpen; Plus isdecimal; GClose] ].

(** [@(\d+)]. *)
Definition instrument_pattern : pattern :=
  [Chr (one "@"); GOpen; Plus isdecimal; GClose].

(** The loop over [tempo_patterns]: the first pattern found in the line
    gives the tempo and is cut out of the line.  The tempo is what [int]
    returns; [tempo_digits] below has the text it is called on. *)
Fixpoint extract_tempo (patterns : list pattern) (line_content_stripped : str)
  : str * option N :=
  match patterns with
  | [] => (line_content_stripped, None)
  | pattern :: rest =>
      match re_search pattern line_content_stripped with
      | Some tempo_match =>
          (lstrip (firstn (m_start tempo_match) line_content_stripped
                   ++ skipn (m_end tempo_match) line_content_stripped),
           Some (int_of_digits (group1 tempo_match line_content_stripped)))
      | None => extract_tempo rest line_content_stripped
      end
  end.

Definition preprocess_and_extract_data_from_track_line
    (line_content : str) (track_char : str) (track_instruments_dict : dict str)
  : str * dict str * option N :=
  let line_content_stripped := lstrip line_content in
  let '(line_content_stripped, extracted_tempo) :=
    extract_tempo tempo_patterns line_content_stripped in
  match re_match instrument_pattern line_content_stripped with
  | Some instrument_match =>
      let instrument_id_val := group1 instrument_match line_content_stripped in
      (lstrip (skipn (m_end instrument_match) line_content_stripped),
       Dict.set track_instruments_dict track_char (lit "@" ++ instrument_id_val),
       extracted_tempo)
  | None => (line_content_stripped, track_instruments_dict, extracted_tempo)
  end.

(** *** parse_mus_file *)

(** The variables of the loop over the lines. *)
Record pstate : Type := PState {
  result : parsed_data;
  current_track : option str;
  track_data_list_for_current_track : list str
}.

Definition VALID_MUS_TRACK_CHARS : str := lit "ABCDEFGH".

(** [@\s*\d+(?!\s*=)]. *)
Definition definition_pattern : pattern :=
  [Chr (one "@"); Star isspace; Plus isdecimal;
   NotAhead [Star isspace; Chr (one "=")]].

Definition is_definition_command_present (data_after_potential_track_id : str) : bool :=
  contains data_after_potential_track_id (lit "@t")
  || match re_search definition_pattern (lstrip data_after_potential_track_id) with
     | Some _ => true
     | None => false
     end.

(** Saving the data of the open track, if it has any. *)
Definition save_track (st : pstate) : parsed_data :=
  match current_track st with
  | Some ct =>
      if nonempty (track_data_list_for_current_track st) then
        let data_to_save := strip (join (lit " ") (track_data_list_for_current_track st)) in
        if nonempty data_to_save
        then set_tracks (result st) (Dict.set (tracks (result st)) ct data_to_save)
        else result st
      else result st
  | None => result st
  end.

Definition append_data (l : list str) (processed_data : str) : list str :=
  if nonempty processed_data then l ++ [processed_data] else l.

Definition is_comment_or_blank (line_stripped : str) : bool :=
  negb (nonempty line_stripped)
  || startswith line_stripped (lit ";") || startswith line_stripped (lit "*").

Definition is_title (line_stripped : str) : bool :=
  startswith (upper line_stripped) (lit "#TITLE").

Definition is_composer (line_stripped : str) : bool :=
  startswith (upper line_stripped) (lit "#COMPOSER").

Definition is_voice_definition (line_stripped : str) : bool :=
  startswith line_stripped (lit "@") && has_char (chr "=") line_stripped
  && has_char (chr "{") line_stripped && has_char (chr "}") line_stripped.

Definition starts_with_track_char (line_stripped : str) : bool :=
  match line_stripped with
  | c :: _ => isalpha c && isupper c && has_char c VALID_MUS_TRACK_CHARS
  | [] => false
  end.

Definition quote : char := 34%N.

(** A line that starts with a track letter. *)
Definition track_line (st : pstate) (line_stripped : str) : pstate :=
  let potential_track_id := firstn 1 line_stripped in
  let data_after_potential_track_id := skipn 1 line_stripped in
  let same_track :=
    match current_track st with
    | Some ct => Py.eqb potential_track_id ct
    | None => false
    end in
  if negb same_track || is_definition_command_present data_after_potential_track_id then
    let saved := save_track st in
    let '(processed_data, instruments, tempo) :=
      preprocess_and_extract_data_from_track_line
        (lstrip data_after_potential_track_id) potential_track_id
        (track_instruments saved) in
    let r := set_track_instruments saved instruments in
    let r := match tempo, mus_tempo r with
             | Some t, None => set_mus_tempo r (Some t)
             | _, _ => r
             end in
    PState r (Some potential_track_id) (append_data [] processed_data)
  else
    let '(processed_data, instruments, _) :=
      preprocess_and_extract_data_from_track_line
        (lstrip data_after_potential_track_id) potential_track_id
        (track_instruments (result st)) in
    PState (set_track_instruments (result st) instruments) (current_track st)
           (append_data (track_data_list_for_current_track st) processed_data).

(** The body of the loop, for one line of the input. *)
Definition parse_line (st : pstate) (line_raw : str) : pstate :=
  let line_stripped := strip line_raw in
  if is_comment_or_blank line_stripped then st
  else if is_title line_stripped then
    PState (set_title (result st)
              (replace_char quote [] (strip (skipn 6 line_stripped))))
           (current_track st) (track_data_list_for_current_track st)
  else if is_composer line_stripped then
    PState (set_composer (result st)
              (replace_char quote [] (strip (skipn 9 line_stripped))))
           (current_track st) (track_data_list_for_current_track st)
  else if is_voice_definition line_stripped then
    let '(before, after) := split_once (chr "=") line_stripped in
    let inst_id_key := strip before in
    let inst_data_str := strip after in
    if startswith inst_data_str (lit "{") && endswith inst_data_str (lit "}") then
      PState (set_voice_definitions (result st)
                (Dict.set (voice_definitions (result st)) inst_id_key inst_data_str))
             (current_track st) (track_data_list_for_current_track st)
    else st
  else if starts_with_track_char line_stripped then track_line st line_stripped
  else if nonempty line_stripped then
    match current_track st with
    | Some _ =>
        PState (result st) (current_track st)
               (track_data_list_for_current_track st ++ [line_stripped])
    | None => st
    end
  else st.

Definition initial_state : pstate :=
  PState (Parsed [] [] [] [] [] None) None [].

Definition parse_lines (st : pstate) (lines : list str) : pstate :=
  fold_left parse_line lines st.

Definition parse_mus_file (content : str) : parsed_data :=
  save_track (parse_lines initial_state (splitlines content)).

(** *** The ValueError of a tempo too long for int

    The tempo loop calls [int] on the digits of the first pattern it finds,
    in every track line, and nothing in [parse_mus_file] or in
    [convert_mml_file] catches what [int] raises.  [parse_mus_file] above is
    the dictionary the function returns when no call raises;
    [parse_raises] tells when one does. *)

(** The digits the tempo loop hands to [int], when a pattern is found. *)
Fixpoint tempo_digits (patterns : list pattern) (line_content_stripped : str)
  : option str :=
  match patterns with
  | [] => None
  | pattern :: rest =>
      match re_search pattern line_content_stripped with
      | Some tempo_match => Some (group1 tempo_match line_content_stripped)
      | None => tempo_digits rest line_content_stripped
      end
  end.

Definition preprocess_raises (line_content : str) : bool :=
  match tempo_digits tempo_patterns (lstrip line_content) with
  | Some digits => int_raises digits
  | None => false
  end.

(** A line of the input at which the loop is left by the exception: a
    track line, which is preprocessed on either branch. *)
Definition line_raises (line_raw : str) : bool :=
  let line_stripped := strip line_raw in
  negb (is_comment_or_blank line_stripped) && negb (is_title line_stripped)
  && negb (is_composer line_stripped) && negb (is_voice_definition line_stripped)
  && starts_with_track_char line_stripped
  && preprocess_raises (lstrip (skipn 1 line_stripped)).

Definition parse_raises (content : str) : bool :=
  existsb line_raises (splitlines content).


(** *** split_track_data *)

Definition safe_split_chars : str := lit "abcdefgrABCDEFGR<>".

(** The inner loop: from [split_index] down, the first index below the
    length of the text whose character starts a note, a rest or an octave
    shift; 0 when there is none. *)
Fixpoint scan_back (split_index : nat) (remaining_data : str) : nat :=
  match split_index with
  | O => O
  | S below =>
      if (split_index <? length remaining_data)%nat
         && match nth_error remaining_data split_index with
            | Some c => has_char c safe_split_chars
            | None => false
            end
      then split_index
      else scan_back below remaining_data
  end.

Definition find_split_index (max_length : nat) (remaining_data : str) : nat :=
  let split_index := scan_back max_length remaining_data in
  if (split_index <=? 0)%nat then max_length else split_index.

Definition prefixed (channel_id chunk : str) : str := channel_id ++ lit " " ++ chunk.

(** The outer loop.  Every round that cuts a line takes one unit of [fuel];
    [None] stands for a loop that has not finished within it. *)
Fixpoint split_loop (fuel : nat) (max_length : nat) (channel_id : str)
                    (remaining_data : str) (result_lines : list str)
  : option (list str) :=
  match remaining_data with
  | [] => Some result_lines
  | _ =>
      if (length remaining_data <=? max_length)%nat then
        Some (result_lines ++ [prefixed channel_id remaining_data])
      else
        match fuel with
        | O => None
        | S fuel' =>
            let split_index := find_split_index max_length remaining_data in
            split_loop fuel' max_length channel_id
              (strip (skipn split_index remaining_data))
              (result_lines ++ [prefixed channel_id (firstn split_index remaining_data)])
        end
  end.

Definition split_track_data (fuel : nat) (mml_data channel_id : str) (max_length : nat)
  : option (list str) :=
  if negb (nonempty (strip mml_data)) then Some []
  else split_loop fuel max_length channel_id (strip mml_data) [].

(** *** process_mus_commands *)

(** [D[-+]?\d+], [p\d+], [\bL\s+], [\]], [\[] and [\s+]. *)
Definition detune_pattern : pattern :=
  [Chr (one "D"); Opt (fun c => one "-" c || one "+" c); Plus isdecimal].
Definition pan_pattern : pattern := [Chr (one "p"); Plus isdecimal].
Definition loop_pattern : pattern := [WordB; Chr (one "L"); Plus isspace].
Definition close_bracket_pattern : pattern := [Chr (one "]")].
Definition open_bracket_pattern : pattern := [Chr (one "[")].
Definition whitespace_pattern : pattern := [Plus isspace].

Definition process_mus_commands (track_data : str) : str :=
  let converted_data := re_sub detune_pattern [] track_data in
  let converted_data := re_sub pan_pattern [] converted_data in
  let converted_data := re_sub loop_pattern (lit "@L ") converted_data in
  let converted_data := re_sub close_bracket_pattern [] converted_data in
  let converted_data := re_sub open_bracket_pattern [] converted_data in
  let converted_data := re_sub whitespace_pattern (lit " ") converted_data in
  converted_data.

(** *** convert_mml_file *)

(** [round(n / d)] for integers [n] and [d]: the quotient rounded to the
    nearest integer, a tie to the even one.  The program rounds the double
    nearest to the quotient; for its constants the quotient 46875 / (8 k),
    k in 1..255, is never within 1/2040 of a tie, so both round alike. *)
Definition round_div (n d : Z) : Z :=
  let '(n, d) := if (d <? 0)%Z then ((- n)%Z, (- d)%Z) else (n, d) in
  let q := (n / d)%Z in
  let r := (n mod d)%Z in
  if (2 * r <? d)%Z then q
  else if (d <? 2 * r)%Z then (q + 1)%Z
  else if Z.even q then q else (q + 1)%Z.

(** The BPM of a MUS tempo; [None] is the [ZeroDivisionError]. *)
Definition bpm_of_mus_tempo (mus_tempo : Z) : option Z :=
  let divisor := (40 * 1024 * (256 - mus_tempo))%Z in
  if (divisor =? 0)%Z then None else Some (round_div (60 * 4000000) divisor).

Definition channel_of (mus_key : str) : option str :=
  Dict.get MUS_TO_NDP_TRACK_MAP (upper mus_key).

(** [if x:] for the result of [MUS_TO_NDP_TRACK_MAP.get]. *)
Definition truthy (o : option str) : option str :=
  match o with
  | Some v => if nonempty v then Some v else None
  | None => None
  end.

Definition int_leb (a b : str) : bool := (int_of_digits a <=? int_of_digits b)%N.

(** The channels of the tracks that have data, as the prefix of the tempo
    command. *)
Definition active_ndp_tracks_for_tempo (parsed : parsed_data) : list str :=
  flat_map (fun mus_key => match truthy (channel_of mus_key) with
                           | Some ndp_track_num => [ndp_track_num]
                           | None => []
                           end)
           (sorted Py.leb (keys (tracks parsed))).

(** The tempo command, as the lines it adds to the output. *)
Definition tempo_command (parsed : parsed_data) : list str :=
  match Dict.get_or (Some (mus_tempo parsed)) None with
  | Some mus_tempo =>
      if ((1 <=? mus_tempo) && (mus_tempo <=? 255))%N then
        match bpm_of_mus_tempo (Z.of_N mus_tempo) with
        | Some bpm =>
            if nonempty (tracks parsed) then
              let active := active_ndp_tracks_for_tempo parsed in
              if nonempty active then
                [join [] (sorted int_leb active) ++ lit " T" ++ str_of_Z bpm]
              else []
            else []
        | None => []
        end
      else []
  | None => []
  end.

Definition voice_comment (voice_data_str : str) : str :=
  let c := replace_char 10%N (lit " ") voice_data_str in
  let c := replace_char 13%N (lit " ") c in
  let c := replace_char 9%N (lit " ") c in
  strip (re_sub whitespace_pattern (lit " ") c).

Definition key_leb (a b : str * str) : bool :=
  Py.leb (fst a) (fst b) && (negb (Py.eqb (fst a) (fst b)) || Py.leb (snd a) (snd b)).

Definition voice_definition_lines (parsed : parsed_data) : list str :=
  if nonempty (voice_definitions parsed) then
    [lit "// Voice Definitions (from MUS @ NN={...})"]
    ++ map (fun '(voice_id, voice_data_str) =>
              lit "// " ++ voice_id ++ lit " = " ++ voice_comment voice_data_str)
           (sorted key_leb (voice_definitions parsed))
    ++ [[]]
  else [].

Definition track_instrument_lines (parsed : parsed_data) : list str :=
  if nonempty (track_instruments parsed) then
    if existsb (fun val => nonempty val) (values (track_instruments parsed)) then
      [lit "// Track-specific Instrument Assignments (from MUS Track @NN)"]
      ++ flat_map (fun '(track_char, inst_id_str) =>
                     if nonempty inst_id_str
                     then [lit "// Track " ++ track_char ++ lit ": " ++ inst_id_str]
                     else [])
                  (sorted key_leb (track_instruments parsed))
      ++ [[]]
    else []
  else [].

(** The header comment of a track: the words for track and channel are
    katakana in the source. *)
Definition track_comment (mus_track_key mml_channel_id : str) : str :=
  lit "// " ++ [12488; 12521; 12483; 12463]%N ++ lit " " ++ upper mus_track_key
  ++ lit " (" ++ [12481; 12515; 12531; 12493; 12523]%N ++ lit " "
  ++ mml_channel_id ++ lit ")".

(** The loop over the tracks, in the order of their letters. *)
Fixpoint tracks_output (fuel : nat) (parsed : parsed_data) (sorted_mus_track_keys : list str)
  : option (list str) :=
  match sorted_mus_track_keys with
  | [] => Some []
  | mus_track_key :: rest =>
      match truthy (channel_of mus_track_key) with
      | None => tracks_output fuel parsed rest
      | Some mml_channel_id =>
          let full_mus_track_data := Dict.get_or (Dict.get (tracks parsed) mus_track_key) [] in
          let single_mml_track_string := process_mus_commands full_mus_track_data in
          match split_track_data fuel single_mml_track_string mml_channel_id
                                 MAX_LINE_LENGTH_MMLE with
          | None => None
          | Some mml_track_lines_split =>
              match tracks_output fuel parsed rest with
              | None => None
              | Some more =>
                  Some ([track_comment mus_track_key mml_channel_id]
                        ++ mml_track_lines_split ++ [[]] ++ more)
              end
          end
      end
  end.

(** The lines of the output before the tracks. *)
Definition header_parts (parsed : parsed_data) : list str :=
  let title := Dict.get_or (Some (title parsed)) (lit "Untitled") in
  let composer := Dict.get_or (Some (composer parsed)) (lit "Unknown") in
  let timebase := NDP_TIMEBASE in
  [lit "#TITLE " ++ [quote] ++ title ++ [quote];
   lit "#COMPOSER " ++ [quote] ++ composer ++ [quote];
   lit "#TIMEBASE " ++ str_of_Z timebase]
  ++ tempo_command parsed
  ++ [[]]
  ++ voice_definition_lines parsed
  ++ track_instrument_lines parsed.

Definition mml_output_parts (fuel : nat) (parsed : parsed_data) : option (list str) :=
  match tracks_output fuel parsed (sorted Py.leb (keys (tracks parsed))) with
  | Some processed_tracks_output => Some (header_parts parsed ++ processed_tracks_output)
  | None => None
  end.

Definition final_text (mml_output_parts : list str) : str :=
  let final_mml_content := strip (join [10%N] mml_output_parts) in
  if nonempty final_mml_content then final_mml_content ++ [10%N] else [10%N].

(** [convert_mml_file] from the text of the file on, when [parse_mus_file]
    returns. *)
Definition convert_mml_content (fuel : nat) (mus_content : str) : option str :=
  option_map final_text (mml_output_parts fuel (parse_mus_file mus_content)).

End Mus2ndp.

(** ** The command translator as the specification words it

    Six passes over the whole text, each from the left: where a command
    starts it is replaced and the pass goes on behind it.  The third pass
    is given twice: for every L followed by whitespace, as the
    specification has it, and for such an L at the start of a word. *)

Module Reference.
Import Py.

(** The number of characters of class [f] at the head of [s]. *)
Fixpoint run_length (f : char -> bool) (s : str) : nat :=
  match s with
  | c :: s' => if f c then S (run_length f s') else O
  | [] => O
  end.

Definition is_sign (c : char) : bool := (c =? chr "-")%N || (c =? chr "+")%N.

Definition not_word_before (prev : option char) : bool :=
  match prev with
  | Some c => negb (isword c)
  | None => true
  end.

(** The length of the command at the head of [s], 0 when there is none.
    A detune command: an upper-case D, an optional sign, one or more digits. *)
Definition detune_command (prev : option char) (s : str) : nat :=
  match s with
  | c :: s1 =>
      if (c =? chr "D")%N then
        let sign := match s1 with
                    | x :: _ => if is_sign x then 1 else 0
                    | [] => 0
                    end in
        match run_length isdecimal (skipn sign s1) with
        | O => O
        | S digits => 1 + sign + S digits
        end
      else O
  | [] => O
  end.

(** A pan command: a lower-case p and one or more digits. *)
Definition pan_command (prev : option char) (s : str) : nat :=
  match s with
  | c :: s1 =>
      if (c =? chr "p")%N then
        match run_length isdecimal s1 with
        | O => O
        | S digits => 1 + S digits
        end
      else O
  | [] => O
  end.

(** A loop-open token as the specification words it: an L followed by one
    or more whitespace characters. *)
Definition loop_open (prev : option char) (s : str) : nat :=
  match s with
  | c :: s1 =>
      if (c =? chr "L")%N then
        match run_length isspace s1 with
        | O => O
        | S spaces => 1 + S spaces
        end
      else O
  | [] => O
  end.

(** A loop-open token at the start of a word: the L must not follow a
    letter, a digit or an underscore. *)
Definition loop_open_token (prev : option char) (s : str) : nat :=
  match s with
  | c :: s1 =>
      if (c =? chr "L")%N && not_word_before prev then
        match run_length isspace s1 with
        | O => O
        | S spaces => 1 + S spaces
        end
      else O
  | [] => O
  end.

(** A run of whitespace. *)
Definition whitespace_run (prev : option char) (s : str) : nat := run_length isspace s.

(** One pass: [cmd prev s] is the length of the command at the head of [s],
    which follows the character [prev]. *)
Equations? rewrite_pass (cmd : option char -> str -> nat) (repl : str)
                        (prev : option char) (s : str) : str by wf (length s) lt :=
rewrite_pass cmd repl prev [] := [];
rewrite_pass cmd repl prev (c :: s') with cmd prev (c :: s') := {
  | O => c :: rewrite_pass cmd repl (Some c) s';
  | S n => repl ++ rewrite_pass cmd repl (Some (last (firstn n s') c)) (skipn n s') }.
Proof. all: simpl; try rewrite length_skipn; lia. Qed.

Definition delete_char (c : char) (s : str) : str :=
  filter (fun x => negb (x =? c)%N) s.

Definition remove_detune (s : str) : str := rewrite_pass detune_command [] None s.
Definition remove_pan (s : str) : str := rewrite_pass pan_command [] None s.
Definition rewrite_loop_open (s : str) : str := rewrite_pass loop_open (lit "@L ") None s.
Definition rewrite_loop_open_token (s : str) : str :=
  rewrite_pass loop_open_token (lit "@L ") None s.
Definition collapse_whitespace (s : str) : str := rewrite_pass whitespace_run (lit " ") None s.

(** The six steps as the specification words them. *)
Definition pipeline (track_data : str) : str :=
  collapse_whitespace
    (delete_char (chr "[")
       (delete_char (chr "]")
          (rewrite_loop_open (remove_pan (remove_detune track_data))))).

(** The six steps with the third one taking an L at the start of a word
    only. *)
Definition token_pipeline (track_data : str) : str :=
  collapse_whitespace
    (delete_char (chr "[")
       (delete_char (chr "]")
          (rewrite_loop_open_token (remove_pan (remove_detune track_data))))).

End Reference.
(** ** Inputs and properties the statements name *)

Module Inputs.
Import Py Mus2ndp.

(** The text "c1" repeated [n] times. *)
Definition repeated_c1 (n : nat) : str := concat (repeat (lit "c1") n).

(** [n] times "c1" with [sep] between them: "c1c1c1" or "c1 c1 c1". *)
Definition c1_pairs (sep : str) (n : nat) : str := join sep (repeat (lit "c1") n).

(** A chunk that starts with a character before which the wrapper may cut. *)
Definition starts_safe (chunk : str) : Prop :=
  match chunk with
  | c :: _ => has_char c safe_split_chars = true
  | [] => False
  end.

(** The last line of [lines] that [f] accepts. *)
Definition last_matching (f : str -> bool) (lines : list str) : option str :=
  hd_error (rev (filter f lines)).

(** The value of a header line: the text after the keyword, trimmed, with
    the quote characters taken out. *)
Definition header_value (keyword_length : nat) (line_stripped : str) : str :=
  replace_char quote [] (strip (skipn keyword_length line_stripped)).

(** A key of one track letter. *)
Definition valid_track_key (k : str) : bool :=
  match k with
  | [c] => has_char c VALID_MUS_TRACK_CHARS
  | _ => false
  end.

Definition is_channel_digit (c : char) : bool := has_char c (lit "12345678").

(** A line that the parser takes as a track line. *)
Definition is_track_line (line_stripped : str) : bool :=
  negb (is_comment_or_blank line_stripped) && negb (is_title line_stripped)
  && negb (is_composer line_stripped) && negb (is_voice_definition line_stripped)
  && starts_with_track_char line_stripped.

(** A track line that starts a segment: no track is open, or another one
    is, or the line is taken to hold a definition command. *)
Definition opens_segment (st : pstate) (line_stripped : str) : bool :=
  negb (match current_track st with
        | Some ct => Py.eqb (firstn 1 line_stripped) ct
        | None => false
        end)
  || is_definition_command_present (skipn 1 line_stripped).

(** The tempo that preprocessing a track line yields. *)
Definition line_tempo (line_stripped : str) : option N :=
  snd (preprocess_and_extract_data_from_track_line
         (lstrip (skipn 1 line_stripped)) (firstn 1 line_stripped) []).

(** A channel as the text of one digit. *)
Definition one_digit (x : str) : Prop := exists d, x = [d] /\ is_channel_digit d = true.

(** The keys the parser works with are track letters: those of the tracks
    saved so far and the open track. *)
Definition keys_valid (st : pstate) : Prop :=
  Forall (fun k => valid_track_key k = true) (Dict.keys (tracks (result st)))
  /\ (forall ct, current_track st = Some ct -> valid_track_key ct = true).

(** The BPM of the tempo [1 + i]. *)
Definition bpm_at (i : nat) : Z :=
  match bpm_of_mus_tempo (1 + Z.of_nat i) with
  | Some bpm => bpm
  | None => 0%Z
  end.

End Inputs.

(** ** Further notions the statements name *)

Module Props.
Import Py Re Dict Mus2ndp.

(** The text without its whitespace. *)
Definition no_ws (s : str) : str := filter (fun c => negb (isspace c)) s.

(** Index [j] of the text holds a character before which the wrapper may
    cut: the test of its inner loop. *)
Definition safe_at (remaining_data : str) (j : nat) : bool :=
  (j <? length remaining_data)%nat
  && match nth_error remaining_data j with
     | Some c => has_char c safe_split_chars
     | None => false
     end.

(** Every whitespace character of the text is a plain space and is not
    followed by another whitespace character. *)
Fixpoint single_spaced (s : str) : bool :=
  match s with
  | [] => true
  | c :: t =>
      (negb (isspace c)
       || ((c =? 32)%N && match t with d :: _ => negb (isspace d) | [] => true end))
      && single_spaced t
  end.

(** A run of one or more decimal digits. *)
Definition is_digits (s : str) : Prop := s <> [] /\ Forall (fun c => isdecimal c = true) s.

(** A character that starts none of the commands the translator rewrites. *)
Definition plain_char (c : char) : bool :=
  negb (isspace c) && negb (has_char c (lit "DpL[]")).

(** A saved track text: not empty and already trimmed. *)
Definition saved_text_ok (kv : str * str) : Prop :=
  snd kv <> [] /\ strip (snd kv) = snd kv.

(** An instrument entry: a track letter and "@" with one or more digits. *)
Definition instrument_ok (kv : str * str) : Prop :=
  Inputs.valid_track_key (fst kv) = true
  /\ exists digits, is_digits digits /\ snd kv = lit "@" ++ digits.

(** A voice entry: the key starts with "@", the value is enclosed in
    braces. *)
Definition voice_ok (kv : str * str) : Prop :=
  startswith (fst kv) (lit "@") = true
  /\ startswith (snd kv) (lit "{") = true /\ endswith (snd kv) (lit "}") = true.

(** Rule 3 of the specification, a voice definition: a line that starts
    with "@" and holds a "=", the text after the first "=" being, once
    trimmed, enclosed in braces. *)
Definition voice_definition_rule (line_stripped : str) : bool :=
  startswith line_stripped (lit "@") && has_char (chr "=") line_stripped
  && (let body := strip (snd (split_once (chr "=") line_stripped)) in
      startswith body (lit "{") && endswith body (lit "}")).





End Props.

(** ** Facts about the character tables *)

Section UnicodeFacts.
Import Py.

Lemma in_range_spec (lo hi c : N) : in_range lo hi c = true <-> (lo <= c <= hi)%N.
Proof. unfold in_range. rewrite andb_true_iff, !N.leb_le. reflexivity. Qed.

Lemma range_avoids_spec (lo hi : N) (r : N * N) (c : N) :
  range_avoids lo hi r = true -> (fst r <= c <= snd r)%N -> (c < lo \/ hi < c)%N.
Proof.
  unfold range_avoids. rewrite orb_true_iff, !N.ltb_lt. lia.
Qed.

(** A character of a table lies in one of its ranges, and what a check
    finds of every range holds of that one. *)
Lemma in_table_range (ok : N * N -> bool) (t : list (N * N)) (c : N) :
  forallb ok t = true -> in_table t c = true ->
  exists r, ok r = true /\ (fst r <= c <= snd r)%N.
Proof.
  intros Hok Hin. unfold in_table in Hin. apply existsb_exists in Hin.
  destruct Hin as [r [Hr Hc]]. exists r. split.
  - rewrite forallb_forall in Hok. apply Hok, Hr.
  - apply in_range_spec, Hc.
Qed.

Lemma decimal_not_linebreak (c : char) : isdecimal c = true -> islinebreak c = false.
Proof.
  intros H.
  destruct (in_table_range
              (fun r => range_avoids 10 13 r && range_avoids 28 30 r
                        && range_avoids 133 133 r && range_avoids 8232 8233 r)
              decimal_blocks c) as [r [Hok Hc]]; [vm_compute; reflexivity | exact H |].
  rewrite !andb_true_iff in Hok. destruct Hok as [[[H1 H2] H3] H4].
  pose proof (range_avoids_spec _ _ r c H1 Hc).
  pose proof (range_avoids_spec _ _ r c H2 Hc).
  pose proof (range_avoids_spec _ _ r c H3 Hc).
  pose proof (range_avoids_spec _ _ r c H4 Hc).
  unfold islinebreak, in_range.
  rewrite !orb_false_iff, !andb_false_iff, !N.leb_gt, !N.eqb_neq. lia.
Qed.

(** What [str.upper] makes of one character: an expansion of the table,
    the image under a rule of the table, or the character itself. *)
Lemma upper_char_cases (c : char) :
  (exists e, In e upper_expansions /\ upper_char c = snd e)
  \/ (exists lo hi step image,
        In (lo, hi, step, image) upper_rules /\ (lo <= c <= hi)%N
        /\ upper_char c = [(image + (c - lo))%N])
  \/ upper_char c = [c].
Proof.
  unfold upper_char.
  destruct (find (fun e => (fst e =? c)%N) upper_expansions) as [e|] eqn:Ee.
  - left. apply find_some in Ee. exists e. split; [apply Ee | reflexivity].
  - destruct (find (fun r => rule_applies r c) upper_rules) as [[[[lo hi] step] image]|] eqn:Er.
    + right. left. apply find_some in Er. destruct Er as [Hin Hap].
      exists lo, hi, step, image. split; [exact Hin|]. split; [|reflexivity].
      unfold rule_applies in Hap. apply andb_true_iff in Hap.
      apply in_range_spec, Hap.
    + right. right. reflexivity.
Qed.

(** No character becomes a "#" in upper case, and none vanishes. *)
Lemma upper_char_head (c : char) :
  exists h t, upper_char c = h :: t /\ (h = 35%N -> c = 35%N).
Proof.
  destruct (upper_char_cases c) as [[e [Hin Hu]] | [[lo [hi [step [image [Hin [Hc Hu]]]]]] | Hu]].
  - assert (Hall : forallb (fun e : N * list N =>
                              match snd e with h :: _ => negb (h =? 35)%N | [] => false end)
                           upper_expansions = true) by (vm_compute; reflexivity).
    rewrite forallb_forall in Hall. specialize (Hall e Hin). rewrite Hu.
    destruct (snd e) as [|h t]; [discriminate Hall|].
    exists h, t. split; [reflexivity|]. intros ->. discriminate Hall.
  - assert (Hall : forallb (fun r : N * N * N * N => let '(_, _, _, image) := r in (35 <? image)%N)
                           upper_rules = true) by (vm_compute; reflexivity).
    rewrite forallb_forall in Hall. specialize (Hall _ Hin). cbv beta iota in Hall.
    apply N.ltb_lt in Hall. rewrite Hu. eexists. eexists. split; [reflexivity|]. lia.
  - rewrite Hu. eexists. eexists. split; [reflexivity|]. auto.
Qed.

End UnicodeFacts.

(** ** Facts about the matcher *)

Section MatcherFacts.
Import Py Re Reference.

Lemma match_at_cons (a : atom) (p : pattern) : match_at (a :: p) = match_atom a (match_at p).
Proof. reflexivity. Qed.

Lemma chr_step (f : char -> bool) (k : cont) g pos prev s :
  match_atom (Chr f) k g pos prev s =
  match s with
  | c :: s' => if f c then k g (S pos) (Some c) s' else None
  | [] => None
  end.
Proof. reflexivity. Qed.

Lemma opt_step (f : char -> bool) (k : cont) g pos prev s :
  match_atom (Opt f) k g pos prev s =
  match s with
  | c :: s' =>
      if f c then
        match k g (S pos) (Some c) s' with
        | Some r => Some r
        | None => k g pos prev s
        end
      else k g pos prev s
  | [] => k g pos prev s
  end.
Proof. reflexivity. Qed.

Lemma wordb_step (k : cont) g pos prev s :
  match_atom WordB k g pos prev s =
  if word_boundary prev s then k g pos prev s else None.
Proof. reflexivity. Qed.

Lemma star_accept (f : char -> bool) (g : groups) (s : str) :
  forall pos prev, star f (accept g) pos prev s = Some (pos + run_length f s, g).
Proof.
  induction s as [|c s IH]; intros pos prev; simpl.
  - unfold accept. f_equal. f_equal. lia.
  - destruct (f c).
    + rewrite IH. f_equal. f_equal. lia.
    + unfold accept. f_equal. f_equal. lia.
Qed.

(** A pattern that ends in [c+]. *)
Lemma plus_accept (f : char -> bool) (g : groups) (pos : nat) (prev : option char) (s : str) :
  match_at [Plus f] g pos prev s =
  match run_length f s with
  | O => None
  | S n => Some (pos + S n, g)
  end.
Proof.
  destruct s as [|c s]; simpl; [reflexivity|].
  destruct (f c); [|reflexivity].
  rewrite star_accept. f_equal. f_equal. lia.
Qed.

Lemma run_length_le (f : char -> bool) (s : str) : run_length f s <= length s.
Proof. induction s as [|c s IH]; simpl; [lia|]. destruct (f c); simpl; lia. Qed.

Lemma sign_not_decimal (x : char) : is_sign x = true -> isdecimal x = false.
Proof.
  unfold is_sign, isdecimal, in_range, chr. simpl. intros H.
  apply orb_true_iff in H. destruct H as [H|H]; apply N.eqb_eq in H; subst x; reflexivity.
Qed.

Lemma one_eqb (a : ascii) (c : char) : one a c = (c =? chr a)%N.
Proof. unfold one. apply N.eqb_sym. Qed.

Lemma detune_match (g : groups) (pos : nat) (prev : option char) (s : str) :
  match_at Mus2ndp.detune_pattern g pos prev s =
  match detune_command prev s with
  | O => None
  | S n => Some (pos + S n, g)
  end.
Proof.
  unfold Mus2ndp.detune_pattern. do 2 rewrite match_at_cons. rewrite chr_step.
  destruct s as [|c s1]; [reflexivity|].
  cbn [detune_command]. rewrite one_eqb.
  destruct (c =? chr "D")%N; [|reflexivity].
  rewrite opt_step. destruct s1 as [|x s2].
  - rewrite plus_accept. reflexivity.
  - rewrite !one_eqb. fold (is_sign x). destruct (is_sign x) eqn:Hs.
    + rewrite !plus_accept. cbn [skipn].
      destruct (run_length isdecimal s2) as [|n] eqn:Hr.
      * cbn [run_length]. rewrite (sign_not_decimal x Hs). reflexivity.
      * cbn [Nat.add]. f_equal. f_equal. lia.
    + rewrite plus_accept. cbn [skipn].
      destruct (run_length isdecimal (x :: s2)); [reflexivity|].
      cbn [Nat.add]. f_equal. f_equal. lia.
Qed.

Lemma pan_match (g : groups) (pos : nat) (prev : option char) (s : str) :
  match_at Mus2ndp.pan_pattern g pos prev s =
  match pan_command prev s with
  | O => None
  | S n => Some (pos + S n, g)
  end.
Proof.
  unfold Mus2ndp.pan_pattern. rewrite match_at_cons, chr_step.
  destruct s as [|c s1]; [reflexivity|].
  cbn [pan_command]. rewrite one_eqb.
  destruct (c =? chr "p")%N; [|reflexivity].
  rewrite plus_accept.
  destruct (run_length isdecimal s1); [reflexivity|].
  cbn [Nat.add]. f_equal. f_equal. lia.
Qed.

Lemma isword_L : isword (chr "L") = true.
Proof. reflexivity. Qed.

Lemma loop_match (g : groups) (pos : nat) (prev : option char) (s : str) :
  match_at Mus2ndp.loop_pattern g pos prev s =
  match loop_open_token prev s with
  | O => None
  | S n => Some (pos + S n, g)
  end.
Proof.
  unfold Mus2ndp.loop_pattern. do 2 rewrite match_at_cons. rewrite wordb_step, chr_step.
  destruct s as [|c s1].
  - destruct (word_boundary prev []); reflexivity.
  - cbn [loop_open_token]. rewrite one_eqb. unfold word_boundary. cbn [hd_error isword_opt].
    destruct (c =? chr "L")%N eqn:Hc.
    + apply N.eqb_eq in Hc. subst c. rewrite isword_L.
      unfold not_word_before. rewrite plus_accept.
      destruct prev as [d|]; cbn [isword_opt andb].
      * destruct (isword d); cbn [xorb negb]; [reflexivity|].
        destruct (run_length isspace s1); [reflexivity|]. cbn [Nat.add]. f_equal. f_equal. lia.
      * cbn [xorb]. destruct (run_length isspace s1); [reflexivity|]. cbn [Nat.add]. f_equal. f_equal. lia.
    + cbn [andb]. destruct (xorb _ _); reflexivity.
Qed.

Lemma whitespace_match (g : groups) (pos : nat) (prev : option char) (s : str) :
  match_at Mus2ndp.whitespace_pattern g pos prev s =
  match whitespace_run prev s with
  | O => None
  | S n => Some (pos + S n, g)
  end.
Proof. apply plus_accept. Qed.

Lemma detune_command_le prev s : detune_command prev s <= length s.
Proof.
  destruct s as [|c s1]; cbn [detune_command length]; [lia|].
  destruct (c =? chr "D")%N; [|lia].
  destruct s1 as [|x s2]; cbn [skipn run_length length]; [lia|].
  destruct (is_sign x); cbn [skipn].
  - pose proof (run_length_le isdecimal s2). destruct (run_length isdecimal s2); lia.
  - pose proof (run_length_le isdecimal (x :: s2)) as H. cbn [length] in H.
    destruct (run_length isdecimal (x :: s2)); lia.
Qed.

Lemma pan_command_le prev s : pan_command prev s <= length s.
Proof.
  destruct s as [|c s1]; cbn [pan_command length]; [lia|].
  destruct (c =? chr "p")%N; [|lia].
  pose proof (run_length_le isdecimal s1). destruct (run_length isdecimal s1); lia.
Qed.

Lemma loop_open_token_le prev s : loop_open_token prev s <= length s.
Proof.
  destruct s as [|c s1]; cbn [loop_open_token length]; [lia|].
  destruct ((c =? chr "L")%N && not_word_before prev); [|lia].
  pose proof (run_length_le isspace s1). destruct (run_length isspace s1); lia.
Qed.

Lemma last_cons {A : Type} (l : list A) : forall d c : A, last (d :: l) c = last l d.
Proof.
  induction l as [|x l IH]; intros d c; [reflexivity|].
  change (last (d :: x :: l) c) with (last (x :: l) c).
  rewrite (IH x c), (IH x d). reflexivity.
Qed.

(** Dropping the rest of a match character by character is dropping it at once. *)
Lemma sub_from_skip (p : pattern) (repl : str) (n : nat) :
  forall (s : str) (pos : nat) (c : char),
    n <= length s ->
    sub_from p repl n (S pos) (Some c) s =
    sub_from p repl 0 (S pos + n) (Some (last (firstn n s) c)) (skipn n s).
Proof.
  induction n as [|n IH]; intros s pos c Hn.
  - simpl. rewrite Nat.add_0_r. reflexivity.
  - destruct s as [|d s]; [simpl in Hn; lia|].
    cbn [sub_from]. rewrite IH by (simpl in Hn; lia).
    cbn [firstn skipn]. rewrite last_cons. f_equal. lia.
Qed.

(** [re.sub] with a pattern whose matches a function [cmd] measures is the
    pass of the specification with [cmd]. *)
Lemma sub_is_pass (p : pattern) (cmd : option char -> str -> nat) (repl : str) :
  (forall pos prev s,
      match_at p (None, None) pos prev s =
      match cmd prev s with O => None | S n => Some (pos + S n, (None, None)) end) ->
  (forall prev s, cmd prev s <= length s) ->
  forall s pos prev, sub_from p repl 0 pos prev s = rewrite_pass cmd repl prev s.
Proof.
  intros Hm Hle s pos prev. revert pos.
  funelim (rewrite_pass cmd repl prev s); intros pos.
  - simp rewrite_pass. cbn [sub_from]. rewrite Hm.
    specialize (Hle prev []). simpl in Hle. destruct (cmd prev []); [reflexivity|lia].
  - cbn [sub_from]. rewrite Hm, Heq. f_equal. apply H; assumption.
  - cbn [sub_from]. rewrite Hm, Heq.
    replace (pos + S n - pos) with (S n) by lia.
    pose proof (Hle prev (c :: s')) as Hn. rewrite Heq in Hn. cbn [length] in Hn.
    rewrite sub_from_skip by lia. f_equal. apply H; assumption.
Qed.


(** [re.sub] of a one-character pattern by nothing deletes the character. *)
Lemma sub_chr_is_delete (a : ascii) (s : str) :
  forall pos prev, sub_from [Chr (one a)] [] 0 pos prev s = delete_char (chr a) s.
Proof.
  induction s as [|c s IH]; intros pos prev; [reflexivity|].
  cbn [sub_from delete_char filter]. rewrite match_at_cons, chr_step, one_eqb.
  destruct (c =? chr a)%N; cbn [negb].
  - change (match_at [] (None, None) (S pos) (Some c) s) with (Some (S pos, (@None nat, @None nat))).
    cbv beta iota. replace (S pos - pos) with 1 by lia.
    cbn [app]. apply IH.
  - f_equal. apply IH.
Qed.

End MatcherFacts.

(** ** The command translator *)

Section Translator.
Import Py Re Mus2ndp Reference.

(** C2, as the code has it.  [process_mus_commands] is the six passes in
    their order: detune commands removed (an upper-case D, an optional
    sign, digits), pan commands removed (a lower-case p, digits), every L
    that stands at the start of a word (it does not follow a letter, a
    digit or an underscore) and is followed by whitespace rewritten,
    together with that whitespace, to "@L ", every "]" deleted, every "["
    deleted, every run of whitespace collapsed to one space.  The text
    "c4 D4 p1 d4" becomes "c4 d4", and "L [cdeg]" becomes "@L cdeg", also
    behind a space inside a longer track. *)
Theorem process_mus_commands_is_token_pipeline :
  (forall track_data : str, process_mus_commands track_data = token_pipeline track_data)
  /\ process_mus_commands (lit "c4 D4 p1 d4") = lit "c4 d4"
  /\ process_mus_commands (lit "L [cdeg]") = lit "@L cdeg"
  /\ process_mus_commands (lit "o4 L [cdeg] c4") = lit "o4 @L cdeg c4".
Proof.
  split; [|repeat split; vm_compute; reflexivity].
  intros track_data. unfold process_mus_commands, token_pipeline, re_sub.
  unfold remove_detune, remove_pan, rewrite_loop_open_token, collapse_whitespace.
  rewrite (sub_is_pass detune_pattern detune_command)
    by (intros; first [apply detune_match | apply detune_command_le]).
  rewrite (sub_is_pass pan_pattern pan_command)
    by (intros; first [apply pan_match | apply pan_command_le]).
  rewrite (sub_is_pass loop_pattern loop_open_token)
    by (intros; first [apply loop_match | apply loop_open_token_le]).
  unfold close_bracket_pattern, open_bracket_pattern.
  rewrite !sub_chr_is_delete.
  apply (sub_is_pass whitespace_pattern whitespace_run).
  - intros. apply whitespace_match.
  - intros. apply run_length_le.
Qed.

(** C2, as the claim words it, fails: an L that directly follows a word
    character is no loop-open token for the code.  In "o4L [cdeg]" the L
    follows the digit 4 and is followed by whitespace; the six steps of the
    specification give "o4@L cdeg", the code leaves the L as it is. *)
Lemma loop_open_after_word_character :
  process_mus_commands (lit "o4L [cdeg]") = lit "o4L cdeg"
  /\ pipeline (lit "o4L [cdeg]") = lit "o4@L cdeg"
  /\ process_mus_commands (lit "o4L [cdeg]") <> pipeline (lit "o4L [cdeg]").
Proof.
  assert (Hcode : process_mus_commands (lit "o4L [cdeg]") = lit "o4L cdeg")
    by (vm_compute; reflexivity).
  assert (Hspec : pipeline (lit "o4L [cdeg]") = lit "o4@L cdeg").
  { unfold pipeline, remove_detune, remove_pan, rewrite_loop_open, collapse_whitespace.
    repeat (simp rewrite_pass; cbn). reflexivity. }
  split; [exact Hcode|]. split; [exact Hspec|].
  rewrite Hcode, Hspec. discriminate.
Qed.

End Translator.

(** ** Facts about strings *)

Section StringFacts.
Import Py.

Lemma lstrip_length (s : str) : length (lstrip s) <= length s.
Proof. induction s as [|c s IH]; simpl; [lia|]. destruct (isspace c); simpl; lia. Qed.

Lemma rstrip_length (s : str) : length (rstrip s) <= length s.
Proof.
  unfold rstrip. rewrite length_rev. pose proof (lstrip_length (rev s)) as H.
  rewrite length_rev in H. exact H.
Qed.

Lemma strip_length (s : str) : length (strip s) <= length s.
Proof.
  unfold strip. pose proof (lstrip_length (rstrip s)). pose proof (rstrip_length s). lia.
Qed.

Lemma lstrip_head (c : char) (s : str) : isspace c = false -> lstrip (c :: s) = c :: s.
Proof. intros H. simpl. rewrite H. reflexivity. Qed.

Lemma rstrip_last (s : str) (c : char) : isspace c = false -> rstrip (s ++ [c]) = s ++ [c].
Proof.
  intros H. unfold rstrip. rewrite rev_app_distr. cbn [rev app].
  rewrite lstrip_head by exact H.
  cbn [rev]. rewrite rev_involutive. reflexivity.
Qed.

Lemma join_nil (l : list str) : join [] l = concat l.
Proof.
  induction l as [|x l IH]; [reflexivity|].
  cbn [concat]. rewrite <- IH. destruct l; cbn [join app]; [rewrite app_nil_r|]; reflexivity.
Qed.

End StringFacts.

(** ** The line wrapper *)

Section Wrapper.
Import Py Mus2ndp Inputs.

Lemma scan_back_le (n : nat) (r : str) : scan_back n r <= n.
Proof.
  induction n as [|n IH]; [simpl; lia|].
  cbn [scan_back]. destruct (_ && _); lia.
Qed.

Lemma find_split_index_bounds (max_length : nat) (r : str) :
  1 <= max_length ->
  1 <= find_split_index max_length r <= max_length.
Proof.
  intros Hmax. unfold find_split_index.
  pose proof (scan_back_le max_length r) as Hle.
  destruct (scan_back max_length r <=? 0) eqn:Hz.
  - lia.
  - apply Nat.leb_gt in Hz. lia.
Qed.

Lemma scan_back_hit (k : nat) (r : str) (c : char) :
  S k < length r -> nth_error r (S k) = Some c -> has_char c safe_split_chars = true ->
  scan_back (S k) r = S k.
Proof.
  intros Hlen Hnth Hsafe. cbn [scan_back].
  apply Nat.ltb_lt in Hlen. rewrite Hlen, Hnth, Hsafe. reflexivity.
Qed.

(** One round of the loop on a text longer than a line. *)
Lemma split_loop_round (fuel max_length : nat) (channel_id r : str) (acc : list str) :
  max_length < length r ->
  split_loop (S fuel) max_length channel_id r acc =
  split_loop fuel max_length channel_id
    (strip (skipn (find_split_index max_length r) r))
    (acc ++ [prefixed channel_id (firstn (find_split_index max_length r) r)]).
Proof.
  intros Hlen. destruct r as [|c r]; [simpl in Hlen; lia|].
  cbn [split_loop]. apply Nat.leb_gt in Hlen. rewrite Hlen. reflexivity.
Qed.

Lemma split_loop_fits (fuel max_length : nat) (channel_id r : str) (acc : list str) :
  r <> [] -> length r <= max_length ->
  split_loop fuel max_length channel_id r acc = Some (acc ++ [prefixed channel_id r]).
Proof.
  intros Hne Hlen. destruct r as [|c r]; [congruence|].
  destruct fuel; cbn [split_loop]; apply Nat.leb_le in Hlen; rewrite Hlen; reflexivity.
Qed.

Lemma split_loop_nil (fuel max_length : nat) (channel_id : str) (acc : list str) :
  split_loop fuel max_length channel_id [] acc = Some acc.
Proof. destruct fuel; reflexivity. Qed.

Lemma rest_shorter (max_length : nat) (r : str) :
  1 <= max_length -> max_length < length r ->
  length (strip (skipn (find_split_index max_length r) r)) < length r.
Proof.
  intros Hmax Hlen. pose proof (find_split_index_bounds max_length r Hmax) as Hk.
  pose proof (strip_length (skipn (find_split_index max_length r) r)) as Hs.
  rewrite length_skipn in Hs. lia.
Qed.

(** The loop ends within as many rounds as the text has characters, and
    its lines are the channel prefix and a chunk that is not empty and
    not longer than [max_length]. *)
Lemma split_loop_terminates (max_length : nat) (channel_id : str) :
  1 <= max_length ->
  forall (fuel : nat) (r : str) (acc : list str),
    length r <= fuel ->
    exists chunks,
      split_loop fuel max_length channel_id r acc
        = Some (acc ++ map (prefixed channel_id) chunks)
      /\ Forall (fun chunk => chunk <> [] /\ length chunk <= max_length) chunks.
Proof.
  intros Hmax. induction fuel as [|fuel IH]; intros r acc Hfuel.
  - destruct r; [|simpl in Hfuel; lia]. exists []. simpl. rewrite app_nil_r. auto.
  - destruct (list_eq_dec N.eq_dec r []) as [->|Hne].
    + exists []. rewrite split_loop_nil, app_nil_r. auto.
    + destruct (Nat.le_gt_cases (length r) max_length) as [Hfit|Hlong].
      * exists [r]. rewrite split_loop_fits by assumption. split; [reflexivity|].
        constructor; [split; assumption | constructor].
      * rewrite split_loop_round by assumption.
        pose proof (rest_shorter max_length r Hmax Hlong) as Hshort.
        pose proof (find_split_index_bounds max_length r Hmax) as Hk.
        destruct (IH (strip (skipn (find_split_index max_length r) r))
                     (acc ++ [prefixed channel_id (firstn (find_split_index max_length r) r)]))
          as [chunks [Heq Hall]]; [lia|].
        exists (firstn (find_split_index max_length r) r :: chunks).
        split.
        -- rewrite Heq. cbn [map]. rewrite <- app_assoc. reflexivity.
        -- constructor; [|exact Hall]. split.
           ++ destruct r as [|c r]; [exfalso; apply Hne; reflexivity|].
              destruct (find_split_index max_length (c :: r)); [lia|]. discriminate.
           ++ rewrite length_firstn. lia.
Qed.

(** C10.  With the line length 80 the line wrapper ends on every input.
    The split index is always between 1 and 80; a round on a text longer
    than a line emits the first [split_index] characters and goes on with
    a text that is strictly shorter; and within as many rounds as the
    input has characters the wrapper returns its list of lines, each the
    channel prefix and a chunk that is not empty. *)
Theorem split_track_data_terminates :
  (forall remaining_data : str,
      1 <= find_split_index MAX_LINE_LENGTH_MMLE remaining_data <= MAX_LINE_LENGTH_MMLE)
  /\ (forall (fuel : nat) (channel_id remaining_data : str) (result_lines : list str),
         MAX_LINE_LENGTH_MMLE < length remaining_data ->
         let split_index := find_split_index MAX_LINE_LENGTH_MMLE remaining_data in
         split_loop (S fuel) MAX_LINE_LENGTH_MMLE channel_id remaining_data result_lines
         = split_loop fuel MAX_LINE_LENGTH_MMLE channel_id
             (strip (skipn split_index remaining_data))
             (result_lines ++ [prefixed channel_id (firstn split_index remaining_data)])
         /\ length (strip (skipn split_index remaining_data)) < length remaining_data)
  /\ (forall (mml_data channel_id : str) (fuel : nat),
         length mml_data <= fuel ->
         exists chunks,
           split_track_data fuel mml_data channel_id MAX_LINE_LENGTH_MMLE
             = Some (map (prefixed channel_id) chunks)
           /\ Forall (fun chunk => chunk <> []) chunks).
Proof.
  assert (Hmax : 1 <= MAX_LINE_LENGTH_MMLE) by (unfold MAX_LINE_LENGTH_MMLE; lia).
  split; [|split].
  - intros r. apply find_split_index_bounds. exact Hmax.
  - intros fuel channel_id r acc Hlong split_index. split.
    + apply split_loop_round. exact Hlong.
    + apply rest_shorter; assumption.
  - intros mml_data channel_id fuel Hfuel. unfold split_track_data.
    destruct (nonempty (strip mml_data)); cbn [negb].
    + destruct (split_loop_terminates MAX_LINE_LENGTH_MMLE channel_id Hmax fuel
                  (strip mml_data) []) as [chunks [Heq Hall]].
      * pose proof (strip_length mml_data). lia.
      * exists chunks. split; [exact Heq|].
        eapply Forall_impl; [|exact Hall]. intros chunk [H _]. exact H.
    + exists []. split; [reflexivity | constructor].
Qed.

Lemma split_track_data_terminates_witness :
  (split_loop 1 MAX_LINE_LENGTH_MMLE (lit "1") (repeat 99%N 81) []
   = split_loop 0 MAX_LINE_LENGTH_MMLE (lit "1")
       (strip (skipn (find_split_index MAX_LINE_LENGTH_MMLE (repeat 99%N 81)) (repeat 99%N 81)))
       ([] ++ [prefixed (lit "1")
                 (firstn (find_split_index MAX_LINE_LENGTH_MMLE (repeat 99%N 81))
                         (repeat 99%N 81))])
   /\ length (strip (skipn (find_split_index MAX_LINE_LENGTH_MMLE (repeat 99%N 81))
                           (repeat 99%N 81)))
      < length (repeat 99%N 81))
  /\ exists chunks,
       split_track_data 3 (lit " c4") (lit "1") MAX_LINE_LENGTH_MMLE
         = Some (map (prefixed (lit "1")) chunks)
       /\ Forall (fun chunk => chunk <> []) chunks.
Proof.
  split.
  - apply (proj1 (proj2 split_track_data_terminates) 0 (lit "1") (repeat 99%N 81) []).
    vm_compute. lia.
  - apply (proj2 (proj2 split_track_data_terminates) (lit " c4") (lit "1") 3).
    vm_compute. lia.
Defined.

(** C3.  A text of 80 characters fits the line length and is emitted as
    one chunk; with the channel prefix "1 " the line has 82 characters. *)
Theorem split_track_data_line_of_82 :
  exists line,
    split_track_data 0 (repeat (chr "c") 80) (lit "1") MAX_LINE_LENGTH_MMLE = Some [line]
    /\ length line = 82
    /\ MAX_LINE_LENGTH_MMLE < length line.
Proof.
  eexists. split; [vm_compute; reflexivity|]. split; vm_compute; [reflexivity|lia].
Qed.

(** What does hold of the lines: the chunk behind the prefix is not longer
    than the line length. *)
Lemma split_track_data_chunks_bounded (mml_data channel_id : str) (fuel : nat) :
  length mml_data <= fuel ->
  exists chunks,
    split_track_data fuel mml_data channel_id MAX_LINE_LENGTH_MMLE
      = Some (map (prefixed channel_id) chunks)
    /\ Forall (fun chunk => length chunk <= MAX_LINE_LENGTH_MMLE) chunks.
Proof.
  intros Hfuel. unfold split_track_data.
  destruct (nonempty (strip mml_data)); cbn [negb].
  - destruct (split_loop_terminates MAX_LINE_LENGTH_MMLE channel_id
                ltac:(unfold MAX_LINE_LENGTH_MMLE; lia) fuel (strip mml_data) [])
      as [chunks [Heq Hall]].
    + pose proof (strip_length mml_data). lia.
    + exists chunks. split; [exact Heq|].
      eapply Forall_impl; [|exact Hall]. intros chunk [_ H]. exact H.
  - exists []. split; [reflexivity | constructor].
Qed.

(** *** Wrapping a run of "c1" pairs *)

Lemma repeated_c1_S (n : nat) : repeated_c1 (S n) = chr "c" :: chr "1" :: repeated_c1 n.
Proof. reflexivity. Qed.

Lemma repeated_c1_app (n m : nat) : repeated_c1 (n + m) = repeated_c1 n ++ repeated_c1 m.
Proof. unfold repeated_c1. rewrite repeat_app, concat_app. reflexivity. Qed.

Lemma repeated_c1_length (n : nat) : length (repeated_c1 n) = 2 * n.
Proof. induction n as [|n IH]; [reflexivity|]. rewrite repeated_c1_S. cbn [length]. lia. Qed.

Lemma repeated_c1_snoc (n : nat) :
  repeated_c1 (S n) = (repeated_c1 n ++ [chr "c"]) ++ [chr "1"].
Proof.
  replace (S n) with (n + 1) by lia. rewrite repeated_c1_app, <- app_assoc. reflexivity.
Qed.

Lemma repeated_c1_strip (n : nat) : strip (repeated_c1 n) = repeated_c1 n.
Proof.
  destruct n as [|n]; [reflexivity|]. unfold strip.
  rewrite repeated_c1_snoc, rstrip_last by reflexivity.
  rewrite <- repeated_c1_snoc, repeated_c1_S. apply lstrip_head. reflexivity.
Qed.

Lemma repeated_c1_split_index (m : nat) :
  find_split_index 80 (repeated_c1 (40 + S m)) = 80.
Proof.
  unfold find_split_index.
  rewrite (scan_back_hit 79 _ (chr "c")); [reflexivity| | |reflexivity].
  - rewrite repeated_c1_length. lia.
  - rewrite repeated_c1_app, nth_error_app2 by (rewrite repeated_c1_length; lia).
    rewrite repeated_c1_length. reflexivity.
Qed.

Lemma repeated_c1_cut (m : nat) :
  firstn 80 (repeated_c1 (40 + m)) = repeated_c1 40
  /\ skipn 80 (repeated_c1 (40 + m)) = repeated_c1 m.
Proof.
  rewrite repeated_c1_app. split.
  - rewrite firstn_app, firstn_all2 by (rewrite repeated_c1_length; lia).
    rewrite repeated_c1_length. cbn [Nat.sub Nat.mul Nat.add firstn]. apply app_nil_r.
  - rewrite skipn_app, skipn_all2 by (rewrite repeated_c1_length; lia).
    rewrite repeated_c1_length. reflexivity.
Qed.

Lemma wrap_repeated_c1_loop (channel_id : str) :
  forall (fuel n : nat) (acc : list str),
    1 <= n -> n <= fuel ->
    exists chunks,
      split_loop fuel 80 channel_id (repeated_c1 n) acc
        = Some (acc ++ map (prefixed channel_id) chunks)
      /\ (80 < length (repeated_c1 n) -> 2 <= length chunks)
      /\ concat chunks = repeated_c1 n
      /\ Forall starts_safe chunks.
Proof.
  induction fuel as [|fuel IH]; intros n acc Hn Hfuel; [lia|].
  destruct (Nat.le_gt_cases n 40) as [Hfit|Hlong].
  - exists [repeated_c1 n]. rewrite split_loop_fits.
    + split; [reflexivity|]. split; [rewrite repeated_c1_length; lia|].
      split; [apply app_nil_r|].
      constructor; [|constructor]. destruct n; [lia|]. reflexivity.
    + destruct n; [lia|]. discriminate.
    + rewrite repeated_c1_length. lia.
  - replace n with (40 + S (n - 41)) by lia.
    rewrite split_loop_round by (rewrite repeated_c1_length; lia).
    rewrite repeated_c1_split_index.
    destruct (repeated_c1_cut (S (n - 41))) as [Hfirst Hskip].
    rewrite Hfirst, Hskip, repeated_c1_strip.
    destruct (IH (S (n - 41)) (acc ++ [prefixed channel_id (repeated_c1 40)]))
      as [chunks [Heq [_ [Hcat Hall]]]]; [lia|lia|].
    exists (repeated_c1 40 :: chunks). split; [|split; [|split]].
    + rewrite Heq. cbn [map]. rewrite <- app_assoc. reflexivity.
    + intros _. destruct chunks as [|x chunks]; [discriminate Hcat|]. cbn [length]. lia.
    + cbn [concat]. rewrite Hcat, <- repeated_c1_app. reflexivity.
    + constructor; [reflexivity | exact Hall].
Qed.

(** *** Wrapping "c1" pairs with a space between them *)

Lemma scan_back_miss (k : nat) (r : str) (c : char) :
  nth_error r (S k) = Some c -> has_char c safe_split_chars = false ->
  scan_back (S k) r = scan_back k r.
Proof.
  intros Hnth Hsafe. cbn [scan_back]. rewrite Hnth, Hsafe, andb_false_r. reflexivity.
Qed.

Lemma spaced_SS (n : nat) :
  c1_pairs (lit " ") (S (S n)) = lit "c1 " ++ c1_pairs (lit " ") (S n).
Proof. reflexivity. Qed.

Lemma spaced_length (n : nat) : length (c1_pairs (lit " ") (S n)) = 3 * n + 2.
Proof.
  induction n as [|n IH]; [reflexivity|].
  rewrite spaced_SS, length_app, IH. cbn [length lit list_ascii_of_string map]. lia.
Qed.

Lemma spaced_app (k m : nat) :
  c1_pairs (lit " ") (k + S m)
  = concat (repeat (lit "c1 ") k) ++ c1_pairs (lit " ") (S m).
Proof.
  induction k as [|k IH]; [reflexivity|].
  cbn [Nat.add repeat concat]. replace (S (k + S m)) with (S (S (k + m))) by lia.
  rewrite spaced_SS. replace (S (k + m)) with (k + S m) by lia.
  rewrite IH, <- app_assoc. reflexivity.
Qed.

Lemma spaced_block_length (k : nat) : length (concat (repeat (lit "c1 ") k)) = 3 * k.
Proof.
  induction k as [|k IH]; [reflexivity|].
  cbn [repeat concat]. rewrite length_app, IH. cbn [length lit list_ascii_of_string map]. lia.
Qed.

Lemma spaced_last (n : nat) : exists body, c1_pairs (lit " ") (S n) = body ++ [chr "1"].
Proof.
  induction n as [|n [body IH]]; [exists [chr "c"]; reflexivity|].
  exists (lit "c1 " ++ body). rewrite spaced_SS, IH, app_assoc. reflexivity.
Qed.

Lemma spaced_strip (n : nat) : strip (c1_pairs (lit " ") n) = c1_pairs (lit " ") n.
Proof.
  destruct n as [|n]; [reflexivity|]. unfold strip.
  destruct (spaced_last n) as [body Hbody].
  rewrite Hbody, rstrip_last by reflexivity. rewrite <- Hbody.
  destruct n as [|n]; [reflexivity|]. rewrite spaced_SS. apply lstrip_head. reflexivity.
Qed.

Lemma spaced_split_index (m : nat) :
  find_split_index 80 (c1_pairs (lit " ") (26 + S (S m))) = 78.
Proof.
  assert (Hnth : forall i c,
             nth_error (lit "c1 ") i = Some c ->
             nth_error (c1_pairs (lit " ") (26 + S (S m))) (78 + i) = Some c).
  { intros i c Hi. rewrite spaced_app, nth_error_app2 by (rewrite spaced_block_length; lia).
    rewrite spaced_block_length, spaced_SS.
    replace (78 + i - 3 * 26) with i by lia.
    rewrite nth_error_app1; [exact Hi|]. apply nth_error_Some. congruence. }
  unfold find_split_index.
  rewrite (scan_back_miss 79 _ (chr " ")); [|apply (Hnth 2); reflexivity|reflexivity].
  rewrite (scan_back_miss 78 _ (chr "1")); [|apply (Hnth 1); reflexivity|reflexivity].
  rewrite (scan_back_hit 77 _ (chr "c")); [reflexivity| |apply (Hnth 0); reflexivity|reflexivity].
  replace (26 + S (S m)) with (S (27 + m)) by lia. rewrite spaced_length. lia.
Qed.

Lemma spaced_cut (m : nat) :
  firstn 78 (c1_pairs (lit " ") (26 + S m)) = concat (repeat (lit "c1 ") 26)
  /\ skipn 78 (c1_pairs (lit " ") (26 + S m)) = c1_pairs (lit " ") (S m).
Proof.
  rewrite spaced_app. split.
  - rewrite firstn_app, firstn_all2 by (rewrite spaced_block_length; lia).
    rewrite spaced_block_length. cbn [Nat.sub Nat.mul Nat.add firstn]. apply app_nil_r.
  - rewrite skipn_app, skipn_all2 by (rewrite spaced_block_length; lia).
    rewrite spaced_block_length. reflexivity.
Qed.

Lemma wrap_spaced_loop (channel_id : str) :
  forall (fuel n : nat) (acc : list str),
    1 <= n -> n <= fuel ->
    exists chunks,
      split_loop fuel 80 channel_id (c1_pairs (lit " ") n) acc
        = Some (acc ++ map (prefixed channel_id) chunks)
      /\ (80 < length (c1_pairs (lit " ") n) -> 2 <= length chunks)
      /\ concat chunks = c1_pairs (lit " ") n
      /\ Forall starts_safe chunks.
Proof.
  induction fuel as [|fuel IH]; intros n acc Hn Hfuel; [lia|].
  destruct n as [|n]; [lia|].
  destruct (Nat.le_gt_cases n 26) as [Hfit|Hlong].
  - exists [c1_pairs (lit " ") (S n)]. rewrite split_loop_fits.
    + split; [reflexivity|]. split; [rewrite spaced_length; lia|].
      split; [apply app_nil_r|].
      constructor; [|constructor]. destruct n; reflexivity.
    + destruct n; discriminate.
    + rewrite spaced_length. lia.
  - replace (S n) with (26 + S (S (n - 27))) by lia.
    rewrite split_loop_round
      by (replace (26 + S (S (n - 27))) with (S n) by lia; rewrite spaced_length; lia).
    rewrite spaced_split_index.
    destruct (spaced_cut (S (n - 27))) as [Hfirst Hskip].
    rewrite Hfirst, Hskip, spaced_strip.
    destruct (IH (S (S (n - 27)))
                 (acc ++ [prefixed channel_id (concat (repeat (lit "c1 ") 26))]))
      as [chunks [Heq [_ [Hcat Hall]]]]; [lia|lia|].
    exists (concat (repeat (lit "c1 ") 26) :: chunks). split; [|split; [|split]].
    + rewrite Heq. cbn [map]. rewrite <- app_assoc. reflexivity.
    + intros _. destruct chunks as [|x chunks]; [discriminate Hcat|]. cbn [length]. lia.
    + cbn [concat]. rewrite Hcat, <- spaced_app. reflexivity.
    + constructor; [reflexivity | exact Hall].
Qed.

Lemma c1_pairs_nil (n : nat) : c1_pairs [] n = repeated_c1 n.
Proof. apply join_nil. Qed.

Lemma c1_pairs_nonempty (sep : str) (n : nat) : 1 <= n -> nonempty (c1_pairs sep n) = true.
Proof.
  intros Hn. destruct n as [|[|n]]; [lia | reflexivity | reflexivity].
Qed.

(** C4.  A run of "c1" pairs, written one after the other or with one
    space between them, that is longer than 80 characters is wrapped into
    at least two lines; the chunks behind the channel prefixes, put one
    after the other, are the trimmed input, so no character is lost; and
    every chunk starts with one of the characters a-g, r, A-G, R, [<],
    [>], so every cut is made immediately before such a character.  An
    input that is empty after trimming yields no line. *)
Theorem wrap_repeated_c1 :
  (forall (sep : str) (n fuel : nat) (channel_id : str),
      sep = [] \/ sep = lit " " ->
      80 < length (c1_pairs sep n) -> n <= fuel ->
      exists chunks,
        split_track_data fuel (c1_pairs sep n) channel_id MAX_LINE_LENGTH_MMLE
          = Some (map (prefixed channel_id) chunks)
        /\ 2 <= length chunks
        /\ concat chunks = strip (c1_pairs sep n)
        /\ Forall starts_safe chunks)
  /\ (forall (mml_data channel_id : str) (fuel : nat),
        strip mml_data = [] ->
        split_track_data fuel mml_data channel_id MAX_LINE_LENGTH_MMLE = Some []).
Proof.
  split.
  - intros sep n fuel channel_id Hsep Hlen Hfuel.
    assert (Hn : 1 <= n) by (destruct n; [destruct Hsep; subst; simpl in Hlen; lia | lia]).
    unfold split_track_data, MAX_LINE_LENGTH_MMLE.
    assert (Hstrip : strip (c1_pairs sep n) = c1_pairs sep n).
    { destruct Hsep as [-> | ->]; [rewrite c1_pairs_nil; apply repeated_c1_strip
                                  | apply spaced_strip]. }
    rewrite Hstrip, (c1_pairs_nonempty sep n Hn). cbn [negb].
    assert (Hloop : exists chunks,
               split_loop fuel 80 channel_id (c1_pairs sep n) []
                 = Some ([] ++ map (prefixed channel_id) chunks)
               /\ (80 < length (c1_pairs sep n) -> 2 <= length chunks)
               /\ concat chunks = c1_pairs sep n
               /\ Forall starts_safe chunks).
    { destruct Hsep as [-> | ->].
      - rewrite c1_pairs_nil. apply wrap_repeated_c1_loop; assumption.
      - apply wrap_spaced_loop; assumption. }
    destruct Hloop as [chunks [Heq [Htwo [Hcat Hall]]]].
    exists chunks. repeat split; [exact Heq | apply Htwo, Hlen | exact Hcat | exact Hall].
  - intros mml_data channel_id fuel Hempty. unfold split_track_data.
    rewrite Hempty. reflexivity.
Qed.

Lemma wrap_repeated_c1_witness :
  (exists chunks,
      split_track_data 41 (c1_pairs [] 41) (lit "1") MAX_LINE_LENGTH_MMLE
        = Some (map (prefixed (lit "1")) chunks)
      /\ 2 <= length chunks
      /\ concat chunks = strip (c1_pairs [] 41)
      /\ Forall starts_safe chunks)
  /\ (exists chunks,
      split_track_data 28 (c1_pairs (lit " ") 28) (lit "1") MAX_LINE_LENGTH_MMLE
        = Some (map (prefixed (lit "1")) chunks)
      /\ 2 <= length chunks
      /\ concat chunks = strip (c1_pairs (lit " ") 28)
      /\ Forall starts_safe chunks)
  /\ split_track_data 0 (lit "  ") (lit "1") MAX_LINE_LENGTH_MMLE = Some [].
Proof.
  split; [|split].
  - apply (proj1 wrap_repeated_c1 [] 41 41 (lit "1")); [left; reflexivity | |];
      vm_compute; lia.
  - apply (proj1 wrap_repeated_c1 (lit " ") 28 28 (lit "1")); [right; reflexivity | |];
      vm_compute; lia.
  - apply (proj2 wrap_repeated_c1 (lit "  ") (lit "1") 0). reflexivity.
Defined.

End Wrapper.

(** ** The tempo conversion *)

Section Tempo.
Import Py Mus2ndp Inputs.
#[local] Open Scope Z_scope.

Lemma bpm_defined (t : Z) : 1 <= t <= 255 -> bpm_of_mus_tempo t = Some (bpm_at (Z.to_nat (t - 1))).
Proof.
  intros Ht. unfold bpm_at. replace (1 + Z.of_nat (Z.to_nat (t - 1))) with t by lia.
  unfold bpm_of_mus_tempo. destruct (40 * 1024 * (256 - t) =? 0) eqn:E; [lia | reflexivity].
Qed.

Lemma bpm_at_step (i : nat) : (i < 254)%nat -> bpm_at i <= bpm_at (S i).
Proof.
  intros Hi.
  assert (Hall : forallb (fun i => bpm_at i <=? bpm_at (S i)) (seq 0 254) = true)
    by (vm_compute; reflexivity).
  rewrite forallb_forall in Hall. apply Z.leb_le, Hall, in_seq. lia.
Qed.

Lemma bpm_at_monotone (i j : nat) : (i <= j)%nat -> (j <= 254)%nat -> bpm_at i <= bpm_at j.
Proof.
  intros Hij Hj. induction j as [|j IH].
  - replace i with 0%nat by lia. lia.
  - destruct (Nat.eq_dec i (S j)) as [->|Hne]; [lia|].
    transitivity (bpm_at j); [apply IH; lia | apply bpm_at_step; lia].
Qed.

(** The quotient the program rounds is never half way between two
    integers, so rounding a tie to the even integer never matters. *)
Lemma bpm_never_a_tie (t : Z) :
  1 <= t <= 255 ->
  2 * ((60 * 4000000) mod (40 * 1024 * (256 - t))) <> 40 * 1024 * (256 - t).
Proof. intros Ht Heq. assert (Hodd : (256 - t) * 8 * (2 * ((60 * 4000000) / (40 * 1024 * (256 - t))) + 1) = 46875).
  { pose proof (Z.div_mod (60 * 4000000) (40 * 1024 * (256 - t)) ltac:(lia)) as Hdm. nia. }
  assert (Heven : Z.even 46875 = true).
  { rewrite <- Hodd. rewrite !Z.even_mul. cbn. rewrite orb_true_r. reflexivity. }
  discriminate Heven.
Qed.

(** C5 as the code has it.  The BPM is a function of the MUS tempo alone,
    defined for every tempo from 1 to 255; a higher tempo never gives a
    lower BPM, and the highest tempo gives a higher BPM than the lowest;
    tempo 220 gives 163. *)
Theorem bpm_monotone :
  (forall t1 t2 : Z,
      1 <= t1 -> t1 <= t2 -> t2 <= 255 ->
      exists bpm1 bpm2,
        bpm_of_mus_tempo t1 = Some bpm1 /\ bpm_of_mus_tempo t2 = Some bpm2 /\ bpm1 <= bpm2)
  /\ bpm_of_mus_tempo 1 = Some 23
  /\ bpm_of_mus_tempo 255 = Some 5859
  /\ bpm_of_mus_tempo 220 = Some 163.
Proof.
  split; [|repeat split; reflexivity].
  intros t1 t2 H1 H12 H2.
  exists (bpm_at (Z.to_nat (t1 - 1))), (bpm_at (Z.to_nat (t2 - 1))).
  rewrite !bpm_defined by lia. repeat split.
  apply bpm_at_monotone; lia.
Qed.

Lemma bpm_monotone_witness :
  exists bpm1 bpm2,
    bpm_of_mus_tempo 100 = Some bpm1 /\ bpm_of_mus_tempo 220 = Some bpm2 /\ bpm1 <= bpm2.
Proof. apply (proj1 bpm_monotone 100 220); lia. Defined.

(** C5, as the claim words it, fails: the BPM does not rise with every
    step of the tempo; the tempos 1 and 2 both give 23. *)
Lemma bpm_not_strictly_monotone :
  ~ (forall t1 t2 bpm1 bpm2 : Z,
        1 <= t1 -> t1 < t2 -> t2 <= 255 ->
        bpm_of_mus_tempo t1 = Some bpm1 -> bpm_of_mus_tempo t2 = Some bpm2 ->
        bpm1 < bpm2).
Proof.
  intros H. specialize (H 1 2 23 23).
  assert (23 < 23) by (apply H; [lia | lia | lia | reflexivity | reflexivity]). lia.
Qed.

End Tempo.

(** ** The parser *)

Section Parser.
Import Py Re Dict Mus2ndp Inputs Props.

Ltac n_bool :=
  repeat match goal with
         | H : context [(?a <=? ?b)%N] |- _ => destruct (N.leb_spec a b)
         | |- context [(?a <=? ?b)%N] => destruct (N.leb_spec a b)
         | H : context [(?a =? ?b)%N] |- _ => destruct (N.eqb_spec a b)
         | |- context [(?a =? ?b)%N] => destruct (N.eqb_spec a b)
         end.

Lemma startswith_hash_head (s : str) (p : str) :
  startswith (upper s) (35%N :: p) = true -> exists rest, s = 35%N :: rest.
Proof.
  destruct s as [|c rest]; [discriminate|].
  destruct (upper_char_head c) as [h [t [Hu Hh]]].
  cbn [upper flat_map]. rewrite Hu. cbn [app startswith].
  intros H. apply andb_true_iff in H. destruct H as [H _]. apply N.eqb_eq in H.
  exists rest. f_equal. apply Hh. exact H.
Qed.

Lemma hash_not_comment (rest : str) : is_comment_or_blank (35%N :: rest) = false.
Proof. reflexivity. Qed.

Lemma is_title_not_comment (ls : str) : is_title ls = true -> is_comment_or_blank ls = false.
Proof.
  intros H. destruct (startswith_hash_head ls _ H) as [rest ->]. apply hash_not_comment.
Qed.

Lemma is_composer_not_comment (ls : str) :
  is_composer ls = true -> is_comment_or_blank ls = false.
Proof.
  intros H. destruct (startswith_hash_head ls _ H) as [rest ->]. apply hash_not_comment.
Qed.

Lemma is_composer_not_title (ls : str) : is_composer ls = true -> is_title ls = false.
Proof.
  unfold is_composer, is_title. destruct (upper ls) as [|a [|b u]]; try discriminate.
  - cbn. rewrite andb_false_r. discriminate.
  - cbn. n_bool; subst; cbn [andb]; intros H; try discriminate; try reflexivity; try lia.
Qed.

(** *** What a line leaves unchanged *)

Lemma save_track_title (st : pstate) : title (save_track st) = title (result st).
Proof.
  unfold save_track. destruct (current_track st); [|reflexivity].
  destruct (nonempty _); [|reflexivity]. destruct (nonempty _); reflexivity.
Qed.

Lemma save_track_composer (st : pstate) : composer (save_track st) = composer (result st).
Proof.
  unfold save_track. destruct (current_track st); [|reflexivity].
  destruct (nonempty _); [|reflexivity]. destruct (nonempty _); reflexivity.
Qed.

Lemma save_track_mus_tempo (st : pstate) : mus_tempo (save_track st) = mus_tempo (result st).
Proof.
  unfold save_track. destruct (current_track st); [|reflexivity].
  destruct (nonempty _); [|reflexivity]. destruct (nonempty _); reflexivity.
Qed.

Lemma track_line_title (st : pstate) (ls : str) :
  title (result (track_line st ls)) = title (result st).
Proof.
  unfold track_line. destruct (_ || _).
  - destruct (preprocess_and_extract_data_from_track_line _ _ _) as [[pd instr] tempo].
    destruct tempo as [t|]; cbn [mus_tempo set_track_instruments];
      [destruct (mus_tempo (save_track st))|]; cbn; apply save_track_title.
  - destruct (preprocess_and_extract_data_from_track_line _ _ _) as [[pd instr] tempo].
    reflexivity.
Qed.

Lemma track_line_composer (st : pstate) (ls : str) :
  composer (result (track_line st ls)) = composer (result st).
Proof.
  unfold track_line. destruct (_ || _).
  - destruct (preprocess_and_extract_data_from_track_line _ _ _) as [[pd instr] tempo].
    destruct tempo as [t|]; cbn [mus_tempo set_track_instruments];
      [destruct (mus_tempo (save_track st))|]; cbn; apply save_track_composer.
  - destruct (preprocess_and_extract_data_from_track_line _ _ _) as [[pd instr] tempo].
    reflexivity.
Qed.

Lemma track_line_mus_tempo_kept (st : pstate) (ls : str) (t : N) :
  mus_tempo (result st) = Some t -> mus_tempo (result (track_line st ls)) = Some t.
Proof.
  intros Ht. unfold track_line. destruct (_ || _).
  - destruct (preprocess_and_extract_data_from_track_line _ _ _) as [[pd instr] tempo].
    cbn [mus_tempo set_track_instruments]. rewrite save_track_mus_tempo, Ht.
    destruct tempo; cbn; rewrite save_track_mus_tempo; exact Ht.
  - destruct (preprocess_and_extract_data_from_track_line _ _ _) as [[pd instr] tempo].
    exact Ht.
Qed.

Lemma parse_line_title (st : pstate) (line_raw : str) :
  title (result (parse_line st line_raw)) =
  if is_title (strip line_raw) then header_value 6 (strip line_raw)
  else title (result st).
Proof.
  unfold parse_line. destruct (is_title (strip line_raw)) eqn:Ht.
  - rewrite (is_title_not_comment _ Ht). reflexivity.
  - destruct (is_comment_or_blank _); [reflexivity|].
    destruct (is_composer _); [reflexivity|].
    destruct (is_voice_definition _).
    + destruct (split_once _ _) as [before after]. destruct (_ && _); reflexivity.
    + destruct (starts_with_track_char _); [apply track_line_title|].
      destruct (nonempty _); [|reflexivity]. destruct (current_track st); reflexivity.
Qed.

Lemma parse_line_composer (st : pstate) (line_raw : str) :
  composer (result (parse_line st line_raw)) =
  if is_composer (strip line_raw) then header_value 9 (strip line_raw)
  else composer (result st).
Proof.
  unfold parse_line. destruct (is_composer (strip line_raw)) eqn:Hc.
  - rewrite (is_composer_not_comment _ Hc), (is_composer_not_title _ Hc). reflexivity.
  - destruct (is_comment_or_blank _); [reflexivity|].
    destruct (is_title _); [reflexivity|].
    destruct (is_voice_definition _).
    + destruct (split_once _ _) as [before after]. destruct (_ && _); reflexivity.
    + destruct (starts_with_track_char _); [apply track_line_composer|].
      destruct (nonempty _); [|reflexivity]. destruct (current_track st); reflexivity.
Qed.

Lemma parse_line_mus_tempo_kept (st : pstate) (line_raw : str) (t : N) :
  mus_tempo (result st) = Some t -> mus_tempo (result (parse_line st line_raw)) = Some t.
Proof.
  intros Ht. unfold parse_line.
  destruct (is_comment_or_blank _); [exact Ht|].
  destruct (is_title _); [exact Ht|].
  destruct (is_composer _); [exact Ht|].
  destruct (is_voice_definition _).
  - destruct (split_once _ _) as [before after]. destruct (_ && _); exact Ht.
  - destruct (starts_with_track_char _); [apply track_line_mus_tempo_kept; exact Ht|].
    destruct (nonempty _); [|exact Ht]. destruct (current_track st); exact Ht.
Qed.

Lemma last_matching_cons (f : str -> bool) (x : str) (xs : list str) :
  last_matching f (x :: xs) =
  match last_matching f xs with
  | Some y => Some y
  | None => if f x then Some x else None
  end.
Proof.
  unfold last_matching. cbn [filter]. destruct (f x).
  - cbn [rev]. destruct (rev (filter f xs)); reflexivity.
  - destruct (rev (filter f xs)); reflexivity.
Qed.

Lemma parse_lines_title (lines : list str) :
  forall st,
    title (result (parse_lines st lines)) =
    match last_matching is_title (map strip lines) with
    | Some l => header_value 6 l
    | None => title (result st)
    end.
Proof.
  induction lines as [|l lines IH]; intros st; [reflexivity|].
  cbn [parse_lines fold_left map]. fold (parse_lines (parse_line st l) lines).
  rewrite IH, last_matching_cons, parse_line_title.
  destruct (last_matching is_title (map strip lines)); [reflexivity|].
  destruct (is_title (strip l)); reflexivity.
Qed.

Lemma parse_lines_composer (lines : list str) :
  forall st,
    composer (result (parse_lines st lines)) =
    match last_matching is_composer (map strip lines) with
    | Some l => header_value 9 l
    | None => composer (result st)
    end.
Proof.
  induction lines as [|l lines IH]; intros st; [reflexivity|].
  cbn [parse_lines fold_left map]. fold (parse_lines (parse_line st l) lines).
  rewrite IH, last_matching_cons, parse_line_composer.
  destruct (last_matching is_composer (map strip lines)); [reflexivity|].
  destruct (is_composer (strip l)); reflexivity.
Qed.

Lemma parse_lines_mus_tempo_kept (lines : list str) :
  forall st t,
    mus_tempo (result st) = Some t -> mus_tempo (result (parse_lines st lines)) = Some t.
Proof.
  induction lines as [|l lines IH]; intros st t Ht; [exact Ht|].
  cbn [parse_lines fold_left]. apply IH, parse_line_mus_tempo_kept, Ht.
Qed.

Lemma replace_char_nil (c : char) (s : str) :
  replace_char c [] s = filter (fun x => negb (x =? c)%N) s.
Proof.
  unfold replace_char. induction s as [|x s IH]; [reflexivity|].
  cbn [flat_map filter]. rewrite IH. destruct (x =? c)%N; reflexivity.
Qed.

(** C9.  The title is the value of the last line that starts, in any
    case, with #TITLE: the text after the keyword, trimmed, with every
    quote character taken out of it; without such a line it is empty.
    The same holds of the composer and #COMPOSER.  In a document with two
    title lines, the second one written in lower case with a dotless i,
    the title is that of the second line.  The tempo goes the other way:
    once the parser has recorded one, no later line changes it. *)
Theorem headers_last_write_wins :
  (forall content : str,
      title (parse_mus_file content) =
      match last_matching is_title (map strip (splitlines content)) with
      | Some line_stripped => header_value 6 line_stripped
      | None => []
      end
      /\ composer (parse_mus_file content) =
         match last_matching is_composer (map strip (splitlines content)) with
         | Some line_stripped => header_value 9 line_stripped
         | None => []
         end)
  /\ (forall (keyword_length : nat) (line_stripped : str),
         header_value keyword_length line_stripped
         = filter (fun c => negb (c =? quote)%N) (strip (skipn keyword_length line_stripped)))
  /\ (let content :=
         lit "#TITLE " ++ [quote] ++ lit "One" ++ [quote] ++ [10%N]
         ++ lit "#composer  X" ++ [10%N]
         ++ lit "#t" ++ [305%N] ++ lit "tle  Two " ++ [quote] ++ lit "2" ++ [quote] in
       title (parse_mus_file content) = lit "Two 2"
       /\ composer (parse_mus_file content) = lit "X")
  /\ (forall (st : pstate) (lines : list str) (t : N),
         mus_tempo (result st) = Some t ->
         mus_tempo (save_track (parse_lines st lines)) = Some t).
Proof.
  split; [|split; [|split]].
  - intros content. unfold parse_mus_file.
    rewrite save_track_title, save_track_composer, parse_lines_title, parse_lines_composer.
    split; reflexivity.
  - intros n l. unfold header_value. apply replace_char_nil.
  - vm_compute. split; reflexivity.
  - intros st lines t Ht. rewrite save_track_mus_tempo.
    apply parse_lines_mus_tempo_kept, Ht.
Qed.

Lemma headers_last_write_wins_witness :
  mus_tempo (save_track (parse_lines (parse_lines initial_state [lit "A @t220 c"])
                                     [lit "B @t100 d"])) = Some 220%N.
Proof.
  apply (proj2 (proj2 (proj2 headers_last_write_wins))
               (parse_lines initial_state [lit "A @t220 c"])
               [lit "B @t100 d"] 220%N).
  reflexivity.
Defined.

(** C8, as the code has it.  Take a line that, trimmed, is of none of the
    kinds the rules before the last one name: not blank, not a comment,
    not a title or composer header, not a voice definition, not starting
    with a track letter.  If it starts with "@" and holds "=", "{" and "}"
    somewhere, it is dropped: the state stays as it was.  Every other such
    line is appended, trimmed, to the data of the open track; when no
    track is open the state stays as it was. *)
Theorem other_line_is_appended_or_dropped (st : pstate) (line_raw : str) :
  is_comment_or_blank (strip line_raw) = false ->
  is_title (strip line_raw) = false ->
  is_composer (strip line_raw) = false ->
  voice_definition_rule (strip line_raw) = false ->
  starts_with_track_char (strip line_raw) = false ->
  parse_line st line_raw =
  if is_voice_definition (strip line_raw) then st
  else match current_track st with
       | Some _ =>
           PState (result st) (current_track st)
                  (track_data_list_for_current_track st ++ [strip line_raw])
       | None => st
       end.
Proof.
  intros Hc Ht Hco Hrule Htr. unfold parse_line. rewrite Hc, Ht, Hco.
  destruct (is_voice_definition (strip line_raw)) eqn:Hv.
  - unfold voice_definition_rule in Hrule. unfold is_voice_definition in Hv.
    apply andb_true_iff in Hv. destruct Hv as [Hv _].
    apply andb_true_iff in Hv. destruct Hv as [Hv _]. rewrite Hv in Hrule.
    cbn [andb] in Hrule. destruct (split_once _ _) as [before after].
    cbn [snd] in Hrule. rewrite Hrule. reflexivity.
  - rewrite Htr. unfold is_comment_or_blank in Hc.
    destruct (nonempty (strip line_raw)); [reflexivity | discriminate Hc].
Qed.

Lemma other_line_is_appended_or_dropped_witness :
  parse_line (PState (Parsed [] [] [] [] [] None) (Some (lit "A")) [lit "o4 cde"])
             (lit "  o5 fga  ")
  = PState (Parsed [] [] [] [] [] None) (Some (lit "A")) [lit "o4 cde"; lit "o5 fga"]
  /\ parse_line initial_state (lit "  o5 fga  ") = initial_state
  /\ parse_line (PState (Parsed [] [] [] [] [] None) (Some (lit "A")) [lit "o4 cde"])
                (lit "@v1 octave={o4} c")
     = PState (Parsed [] [] [] [] [] None) (Some (lit "A")) [lit "o4 cde"].
Proof.
  split; [|split].
  - apply (other_line_is_appended_or_dropped
             (PState (Parsed [] [] [] [] [] None) (Some (lit "A")) [lit "o4 cde"])
             (lit "  o5 fga  ")); reflexivity.
  - apply (other_line_is_appended_or_dropped initial_state (lit "  o5 fga  ")); reflexivity.
  - apply (other_line_is_appended_or_dropped
             (PState (Parsed [] [] [] [] [] None) (Some (lit "A")) [lit "o4 cde"])
             (lit "@v1 octave={o4} c")); reflexivity.
Defined.

(** C8, as the claim words it, fails.  The line "@1 = x{}" is no voice
    definition, as what follows its "=" is not enclosed in braces, and it
    is of no other kind; with track A open the claim has it appended to
    the data of the track, the code drops it, and the document of the two
    lines "A o4 cde" and "@1 = x{}" has the track text "o4 cde".  Nor is a
    line appended as it stands: "  o5 fga  " is appended without the
    spaces around it. *)
Lemma malformed_voice_line_is_dropped :
  let st := PState (Parsed [] [] [] [] [] None) (Some (lit "A")) [lit "o4 cde"] in
  let line := lit "@1 = x{}" in
  (is_comment_or_blank (strip line) = false /\ is_title (strip line) = false
   /\ is_composer (strip line) = false /\ voice_definition_rule (strip line) = false
   /\ starts_with_track_char (strip line) = false)
  /\ parse_line st line = st
  /\ parse_line st line
     <> PState (result st) (current_track st) (track_data_list_for_current_track st ++ [line])
  /\ tracks (parse_mus_file (lit "A o4 cde" ++ [10%N] ++ line)) = [(lit "A", lit "o4 cde")]
  /\ voice_definitions (parse_mus_file (lit "A o4 cde" ++ [10%N] ++ line)) = []
  /\ track_data_list_for_current_track (parse_line st (lit "  o5 fga  "))
     <> track_data_list_for_current_track st ++ [lit "  o5 fga  "].
Proof.
  vm_compute. repeat split; try reflexivity; discriminate.
Qed.

Lemma preprocess_tempo (l tc : str) (d d' : dict str) :
  snd (preprocess_and_extract_data_from_track_line l tc d)
  = snd (preprocess_and_extract_data_from_track_line l tc d').
Proof.
  unfold preprocess_and_extract_data_from_track_line.
  destruct (extract_tempo tempo_patterns (lstrip l)) as [rest tempo].
  destruct (re_match instrument_pattern rest); reflexivity.
Qed.

(** What the parser records of the tempo: only a track line that starts a
    segment can set it, and only while none is recorded. *)
Lemma parse_line_mus_tempo (st : pstate) (line_raw : str) :
  mus_tempo (result (parse_line st line_raw)) =
  match mus_tempo (result st) with
  | Some t => Some t
  | None =>
      if is_track_line (strip line_raw) && opens_segment st (strip line_raw)
      then line_tempo (strip line_raw)
      else None
  end.
Proof.
  destruct (mus_tempo (result st)) as [t|] eqn:Ht;
    [apply parse_line_mus_tempo_kept; exact Ht|].
  unfold parse_line, is_track_line.
  destruct (is_comment_or_blank _); [exact Ht|].
  destruct (is_title _); [exact Ht|].
  destruct (is_composer _); [exact Ht|].
  destruct (is_voice_definition _).
  - destruct (split_once _ _) as [before after]. destruct (_ && _); exact Ht.
  - cbn [negb andb]. destruct (starts_with_track_char _).
    + unfold track_line, opens_segment, line_tempo.
      destruct (_ || _); cbn [andb].
      * rewrite (preprocess_tempo _ _ [] (track_instruments (save_track st))).
        destruct (preprocess_and_extract_data_from_track_line _ _ _) as [[pd instr] tempo].
        cbn [snd result]. unfold set_track_instruments. cbn [mus_tempo].
        rewrite save_track_mus_tempo, Ht.
        destruct tempo as [t|]; cbn [mus_tempo set_mus_tempo];
          reflexivity.
      * destruct (preprocess_and_extract_data_from_track_line _ _ _) as [[pd instr] tempo].
        cbn [andb]. exact Ht.
    + destruct (nonempty _); [|exact Ht]. destruct (current_track st); exact Ht.
Qed.

(** A line that starts with "@" and holds "=", "{" and "}" is taken by the
    voice-definition rule whatever follows the "=": it is stored as a voice
    when the text after the "=" is enclosed in braces and dropped when it
    is not, and in neither case reaches the data of the open track. *)
Lemma voice_line_never_appended (st : pstate) (line_raw : str) :
  is_comment_or_blank (strip line_raw) = false ->
  is_title (strip line_raw) = false ->
  is_composer (strip line_raw) = false ->
  is_voice_definition (strip line_raw) = true ->
  current_track (parse_line st line_raw) = current_track st
  /\ track_data_list_for_current_track (parse_line st line_raw)
     = track_data_list_for_current_track st
  /\ tracks (result (parse_line st line_raw)) = tracks (result st).
Proof.
  intros Hc Ht Hco Hv. unfold parse_line. rewrite Hc, Ht, Hco, Hv.
  destruct (split_once _ _) as [before after]. destruct (_ && _); repeat split; reflexivity.
Qed.

(** C1.  In the text of the two lines "A cde" and "A @ t220 d" the second
    line continues track A: it holds no "@t" and no instrument number, so
    it does not open a new segment.  Its preprocessing finds the tempo 220
    (third pattern) and cuts it out of the data, but the continuation
    branch drops the tempo, and the document is left without one. *)
Theorem tempo_of_continuation_line_is_lost :
  let content := lit "A cde" ++ [10%N] ++ lit "A @ t220 d" in
  splitlines content = [lit "A cde"; lit "A @ t220 d"]
  /\ preprocess_and_extract_data_from_track_line (lit "cde") (lit "A") []
     = (lit "cde", [], None)
  /\ is_definition_command_present (lit " @ t220 d") = false
  /\ preprocess_and_extract_data_from_track_line (lit "@ t220 d") (lit "A") []
     = (lit "d", [], Some 220%N)
  /\ is_track_line (lit "A @ t220 d") = true
  /\ line_tempo (lit "A @ t220 d") = Some 220%N
  /\ mus_tempo (parse_mus_file content) = None
  /\ tracks (parse_mus_file content) = [(lit "A", lit "cde d")].
Proof. vm_compute. repeat split; reflexivity. Qed.

(** *** The keys of the tracks *)

Lemma keys_set {V : Type} (P : str -> Prop) (d : dict V) (k : str) (v : V) :
  Forall P (keys d) -> P k -> Forall P (keys (Dict.set d k v)).
Proof.
  intros Hd Hk. induction d as [|[k' v'] d IH]; cbn [Dict.set keys map fst].
  - constructor; [exact Hk | constructor].
  - inversion Hd as [|? ? Hk' Hd']; subst. destruct (Py.eqb k' k); cbn [map fst].
    + constructor; assumption.
    + constructor; [exact Hk' | apply IH; exact Hd'].
Qed.

Lemma save_track_keys (st : pstate) :
  keys_valid st -> Forall (fun k => valid_track_key k = true) (keys (tracks (save_track st))).
Proof.
  intros [Hk Hc]. unfold save_track. destruct (current_track st) as [ct|]; [|exact Hk].
  destruct (nonempty _); [|exact Hk]. destruct (nonempty _); [|exact Hk].
  cbn [tracks set_tracks]. apply keys_set; [exact Hk | apply Hc; reflexivity].
Qed.

Lemma track_line_keys (st : pstate) (ls : str) :
  starts_with_track_char ls = true -> keys_valid st -> keys_valid (track_line st ls).
Proof.
  intros Hs Hinv. pose proof (save_track_keys st Hinv) as Hsaved.
  destruct Hinv as [Hk Hc]. unfold track_line. destruct (_ || _).
  - destruct (preprocess_and_extract_data_from_track_line _ _ _) as [[pd instr] tempo].
    split.
    + cbn [result]. destruct tempo as [t|]; cbn [mus_tempo set_track_instruments];
        [destruct (mus_tempo (save_track st))|]; exact Hsaved.
    + cbn [current_track]. intros ct Hct. injection Hct as <-.
      destruct ls as [|c rest]; [discriminate Hs|].
      cbn [starts_with_track_char] in Hs. cbn [firstn valid_track_key].
      apply andb_true_iff in Hs. apply Hs.
  - destruct (preprocess_and_extract_data_from_track_line _ _ _) as [[pd instr] tempo].
    split; [exact Hk | exact Hc].
Qed.

Lemma parse_line_keys (st : pstate) (line_raw : str) :
  keys_valid st -> keys_valid (parse_line st line_raw).
Proof.
  intros Hinv. unfold parse_line.
  destruct (is_comment_or_blank _); [exact Hinv|].
  destruct (is_title _); [exact Hinv|].
  destruct (is_composer _); [exact Hinv|].
  destruct (is_voice_definition _).
  - destruct (split_once _ _) as [before after]. destruct (_ && _); exact Hinv.
  - destruct (starts_with_track_char _) eqn:Hs; [apply track_line_keys; assumption|].
    destruct (nonempty _); [|exact Hinv]. destruct (current_track st) eqn:Hct; [|exact Hinv].
    destruct Hinv as [Hk Hc]. split; [exact Hk|]. cbn [current_track].
    intros ct E. apply Hc. congruence.
Qed.

Lemma parse_lines_keys (lines : list str) :
  forall st, keys_valid st -> keys_valid (parse_lines st lines).
Proof.
  induction lines as [|l lines IH]; intros st Hinv; [exact Hinv|].
  cbn [parse_lines fold_left]. apply IH, parse_line_keys, Hinv.
Qed.

Lemma parse_mus_file_keys (content : str) :
  Forall (fun k => valid_track_key k = true) (keys (tracks (parse_mus_file content))).
Proof.
  unfold parse_mus_file. apply save_track_keys, parse_lines_keys.
  split; [constructor | discriminate].
Qed.

End Parser.

(** ** The emitter *)

Section Emitter.
Import Py Re Dict Mus2ndp Inputs.

Lemma insert_Forall {A : Type} (le : A -> A -> bool) (P : A -> Prop) (x : A) (l : list A) :
  P x -> Forall P l -> Forall P (insert le x l).
Proof.
  intros Hx Hl. induction l as [|y l IH]; cbn [insert].
  - constructor; [exact Hx | constructor].
  - inversion Hl; subst. destruct (le x y); constructor; auto.
Qed.

Lemma sorted_Forall {A : Type} (le : A -> A -> bool) (P : A -> Prop) (l : list A) :
  Forall P l -> Forall P (sorted le l).
Proof.
  induction 1 as [|x l Hx Hl IH]; cbn [sorted fold_right]; [constructor|].
  apply insert_Forall; assumption.
Qed.



(** A track letter has its channel digit. *)
Lemma channel_of_valid (k : str) :
  valid_track_key k = true ->
  exists d, truthy (channel_of k) = Some [d] /\ is_channel_digit d = true.
Proof.
  destruct k as [|c [|? ?]]; try discriminate. cbn [valid_track_key].
  unfold has_char, VALID_MUS_TRACK_CHARS. cbn [lit list_ascii_of_string map N_of_ascii existsb].
  intros H. repeat (apply orb_true_iff in H; destruct H as [H|H]); try discriminate H;
    apply N.eqb_eq in H; subst c; eexists; split; reflexivity.
Qed.

Lemma active_of_valid_keys (ks : list str) :
  Forall (fun k => valid_track_key k = true) ks ->
  Forall one_digit
    (flat_map (fun mus_key => match truthy (channel_of mus_key) with
                              | Some ndp_track_num => [ndp_track_num]
                              | None => []
                              end) ks)
  /\ (ks <> [] ->
      flat_map (fun mus_key => match truthy (channel_of mus_key) with
                               | Some ndp_track_num => [ndp_track_num]
                               | None => []
                               end) ks <> []).
Proof.
  induction 1 as [|k ks Hk Hks [IH _]]; [split; [constructor | congruence]|].
  destruct (channel_of_valid k Hk) as [d [Hd Hdig]].
  cbn [flat_map]. rewrite Hd. cbn [app]. split; [|discriminate].
  constructor; [exists d; auto | exact IH].
Qed.

Lemma concat_digits (l : list str) :
  Forall one_digit l ->
  Forall (fun c => is_channel_digit c = true) (concat l) /\ (l <> [] -> concat l <> []).
Proof.
  induction 1 as [|x l [d [-> Hd]] Hl [IH _]]; [split; [constructor | congruence]|].
  cbn [concat app]. split; [constructor; assumption | discriminate].
Qed.






Lemma tracks_output_terminates (p : parsed_data) (ks : list str) :
  exists fuel0, forall fuel, fuel0 <= fuel -> exists out, tracks_output fuel p ks = Some out.
Proof.
  induction ks as [|k ks [fuel0 IH]]; [exists 0; intros; eexists; reflexivity|].
  cbn [tracks_output]. destruct (truthy (channel_of k)) as [ch|]; [|exists fuel0; exact IH].
  set (s := process_mus_commands (Dict.get_or (Dict.get (tracks p) k) [])).
  exists (Nat.max (length s) fuel0). intros fuel Hfuel.
  destruct (split_track_data_chunks_bounded s ch fuel) as [chunks [Heq _]]; [lia|].
  destruct (IH fuel) as [more Hmore]; [lia|].
  rewrite Heq, Hmore. eexists. reflexivity.
Qed.

(** *** The end of the output *)

Lemma lstrip_suffix (s : str) : exists pre, s = pre ++ lstrip s.
Proof.
  induction s as [|c s [pre IH]]; [exists []; reflexivity|].
  cbn [lstrip]. destruct (isspace c); [|exists []; reflexivity].
  exists (c :: pre). cbn [app]. f_equal. exact IH.
Qed.

Lemma lstrip_head_not_space (s : str) (c : char) (t : str) :
  lstrip s = c :: t -> isspace c = false.
Proof.
  induction s as [|x s IH]; [discriminate|].
  cbn [lstrip]. destruct (isspace x) eqn:Hx; [exact IH|].
  intros H. injection H as <- _. exact Hx.
Qed.

Lemma rstrip_last_not_space (s body : str) (c : char) :
  rstrip s = body ++ [c] -> isspace c = false.
Proof.
  unfold rstrip. intros H. apply (f_equal (@rev char)) in H.
  rewrite rev_involutive, rev_app_distr in H. cbn [rev app] in H.
  apply (lstrip_head_not_space _ _ _ H).
Qed.

Lemma strip_last_not_space (s body : str) (c : char) :
  strip s = body ++ [c] -> isspace c = false.
Proof.
  unfold strip. intros H. destruct (lstrip_suffix (rstrip s)) as [pre Hpre].
  rewrite H, app_assoc in Hpre. apply (rstrip_last_not_space _ _ _ Hpre).
Qed.

(** The output ends with one newline: what stands before it is trimmed,
    and when that is empty the output is the newline alone. *)
Lemma final_text_one_newline (parts : list str) :
  exists body,
    final_text parts = body ++ [10%N]
    /\ (forall b c, body = b ++ [c] -> isspace c = false).
Proof.
  unfold final_text. destruct (strip (join [10%N] parts)) as [|x body'] eqn:E.
  - exists []. split; [reflexivity|]. intros b c H. destruct b; discriminate H.
  - exists (x :: body'). cbn [nonempty]. split; [reflexivity|].
    intros b c H. rewrite H in E. apply (strip_last_not_space _ _ _ E).
Qed.

(** C7.  The empty document is converted to the three header lines and
    one newline, with no track section; but the title and the composer in
    them are empty: the dictionary of the parser always holds both keys,
    so the defaults "Untitled" and "Unknown" are never taken. *)
Theorem convert_empty_document (fuel : nat) :
  convert_mml_content fuel []
  = Some (lit "#TITLE " ++ [quote; quote; 10%N]
          ++ lit "#COMPOSER " ++ [quote; quote; 10%N]
          ++ lit "#TIMEBASE 48" ++ [10%N])
  /\ convert_mml_content fuel []
     <> Some (lit "#TITLE " ++ [quote] ++ lit "Untitled" ++ [quote; 10%N]
              ++ lit "#COMPOSER " ++ [quote] ++ lit "Unknown" ++ [quote; 10%N]
              ++ lit "#TIMEBASE 48" ++ [10%N]).
Proof.
  assert (H : convert_mml_content fuel []
              = Some (lit "#TITLE " ++ [quote; quote; 10%N]
                      ++ lit "#COMPOSER " ++ [quote; quote; 10%N]
                      ++ lit "#TIMEBASE 48" ++ [10%N])) by reflexivity.
  split; [exact H|]. rewrite H. vm_compute. discriminate.
Qed.

End Emitter.

(** ** More about strings and dictionaries *)

Section MoreStringFacts.
Import Py Dict Props.

Lemma Py_eqb_eq (a b : str) : Py.eqb a b = true <-> a = b.
Proof.
  revert b. induction a as [|x a IH]; intros [|y b]; cbn [Py.eqb]; split; intros H;
    try reflexivity; try discriminate.
  - apply andb_true_iff in H. destruct H as [Hx Ha].
    apply N.eqb_eq in Hx. apply IH in Ha. congruence.
  - injection H as -> ->. rewrite N.eqb_refl. apply IH. reflexivity.
Qed.

Lemma lstrip_app_nonspace (x y : str) (c : char) :
  isspace c = false -> lstrip (x ++ c :: y) = lstrip x ++ c :: y.
Proof.
  intros Hc. induction x as [|a x IH]; cbn [app lstrip].
  - rewrite Hc. reflexivity.
  - destruct (isspace a); [exact IH | reflexivity].
Qed.

Lemma rstrip_app_nonspace (x y : str) (c : char) :
  isspace c = false -> rstrip (x ++ c :: y) = x ++ c :: rstrip y.
Proof.
  intros Hc. unfold rstrip. rewrite rev_app_distr. cbn [rev]. rewrite <- app_assoc.
  cbn [app]. rewrite lstrip_app_nonspace by exact Hc.
  rewrite rev_app_distr. cbn [rev]. rewrite rev_involutive, <- app_assoc. reflexivity.
Qed.

Lemma strip_head_not_space (s : str) (c : char) (t : str) :
  strip s = c :: t -> isspace c = false.
Proof. unfold strip. apply lstrip_head_not_space. Qed.

Lemma strip_cons_nonspace (c : char) (t : str) :
  isspace c = false -> exists t', strip (c :: t) = c :: t'.
Proof.
  intros Hc. unfold strip. pose proof (rstrip_app_nonspace [] t c Hc) as H.
  cbn [app] in H. rewrite H, lstrip_head by exact Hc. eexists. reflexivity.
Qed.

(** Trimming a trimmed text changes nothing. *)
Lemma strip_idempotent (s : str) : strip (strip s) = strip s.
Proof.
  destruct (strip s) as [|c t] eqn:E; [reflexivity|].
  pose proof (strip_head_not_space s c t E) as Hc.
  destruct (exists_last (l := c :: t) ltac:(discriminate)) as [body [d Hbody]].
  assert (Hd : isspace d = false).
  { apply (strip_last_not_space s body d). rewrite E. exact Hbody. }
  unfold strip. rewrite Hbody, rstrip_last by exact Hd. rewrite <- Hbody.
  apply lstrip_head. exact Hc.
Qed.

Lemma Forall_lstrip (P : char -> Prop) (s : str) : Forall P s -> Forall P (lstrip s).
Proof.
  induction 1 as [|c s Hc Hs IH]; cbn [lstrip]; [constructor|].
  destruct (isspace c); [exact IH | constructor; assumption].
Qed.

Lemma Forall_strip (P : char -> Prop) (s : str) : Forall P s -> Forall P (strip s).
Proof.
  intros H. unfold strip, rstrip. apply Forall_lstrip, Forall_rev, Forall_lstrip, Forall_rev, H.
Qed.

Lemma Forall_firstn {A : Type} (P : A -> Prop) (n : nat) (l : list A) :
  Forall P l -> Forall P (firstn n l).
Proof.
  intros H. rewrite <- (firstn_skipn n l) in H. apply Forall_app in H. apply H.
Qed.

Lemma Forall_skipn {A : Type} (P : A -> Prop) (n : nat) (l : list A) :
  Forall P l -> Forall P (skipn n l).
Proof.
  intros H. rewrite <- (firstn_skipn n l) in H. apply Forall_app in H. apply H.
Qed.

Lemma no_ws_lstrip (s : str) : no_ws (lstrip s) = no_ws s.
Proof.
  induction s as [|c s IH]; [reflexivity|].
  cbn [lstrip]. destruct (isspace c) eqn:Hc; [|reflexivity].
  rewrite IH. unfold no_ws. cbn [filter]. rewrite Hc. reflexivity.
Qed.

Lemma no_ws_rev (s : str) : no_ws (rev s) = rev (no_ws s).
Proof.
  unfold no_ws. induction s as [|c s IH]; [reflexivity|].
  cbn [rev filter]. rewrite filter_app, IH. cbn [filter].
  destruct (negb (isspace c)); [reflexivity | apply app_nil_r].
Qed.

Lemma no_ws_strip (s : str) : no_ws (strip s) = no_ws s.
Proof.
  unfold strip, rstrip. rewrite no_ws_lstrip, no_ws_rev, no_ws_lstrip, no_ws_rev.
  apply rev_involutive.
Qed.

(** No line of [splitlines] holds a line boundary. *)
Lemma splitlines_from_no_linebreak (n : nat) :
  forall (s cur : str),
    length s <= n ->
    Forall (fun c => islinebreak c = false) cur ->
    Forall (Forall (fun c => islinebreak c = false)) (splitlines_from cur s).
Proof.
  induction n as [|n IH]; intros s cur Hlen Hcur.
  - destruct s; [|simpl in Hlen; lia]. cbn.
    destruct cur; [constructor | constructor; [assumption | constructor]].
  - destruct s as [|c s];
      [cbn; destruct cur; [constructor | constructor; [assumption | constructor]]|].
    cbn [splitlines_from length] in *. destruct (islinebreak c) eqn:Hc.
    + constructor; [exact Hcur|].
      destruct (c =? 13)%N; [|apply IH; [lia | constructor]].
      destruct s as [|d s']; [apply IH; [simpl; lia | constructor]|].
      destruct (d =? 10)%N; apply IH; cbn [length] in *; try lia; constructor.
    + apply IH; [lia|]. apply Forall_app. split; [exact Hcur|]. repeat constructor. exact Hc.
Qed.

Lemma splitlines_no_linebreak (s : str) :
  Forall (Forall (fun c => islinebreak c = false)) (splitlines s).
Proof. apply (splitlines_from_no_linebreak (length s)); [lia | constructor]. Qed.

Lemma get_set_same {V : Type} (d : dict V) (k : str) (v : V) :
  Dict.get (Dict.set d k v) k = Some v.
Proof.
  induction d as [|[k' v'] d IH]; cbn [Dict.set Dict.get].
  - rewrite (proj2 (Py_eqb_eq k k) eq_refl). reflexivity.
  - destruct (Py.eqb k' k) eqn:E; cbn [Dict.get]; rewrite E; [reflexivity | exact IH].
Qed.

Lemma get_set_other {V : Type} (d : dict V) (k k' : str) (v : V) :
  k' <> k -> Dict.get (Dict.set d k v) k' = Dict.get d k'.
Proof.
  intros Hne. induction d as [|[k0 v0] d IH]; cbn [Dict.set Dict.get].
  - destruct (Py.eqb k k') eqn:E; [|reflexivity].
    apply Py_eqb_eq in E. congruence.
  - destruct (Py.eqb k0 k) eqn:E; cbn [Dict.get].
    + apply Py_eqb_eq in E. subst k0.
      destruct (Py.eqb k k') eqn:E'; [apply Py_eqb_eq in E'; congruence | reflexivity].
    + destruct (Py.eqb k0 k'); [reflexivity | exact IH].
Qed.

Lemma items_set {V : Type} (P : str * V -> Prop) (d : dict V) (k : str) (v : V) :
  Forall P d -> P (k, v) -> Forall P (Dict.set d k v).
Proof.
  intros Hd Hk. induction d as [|[k' v'] d IH]; cbn [Dict.set].
  - constructor; [exact Hk | constructor].
  - inversion Hd as [|? ? Hk' Hd']; subst. destruct (Py.eqb k' k) eqn:E.
    + apply Py_eqb_eq in E. subst k'. constructor; assumption.
    + constructor; [exact Hk' | apply IH; exact Hd'].
Qed.

End MoreStringFacts.

(** ** The track-line preprocessor *)

Section Preprocessor.
Import Py Re Dict Mus2ndp Inputs Props Reference.

Lemma star_total {R : Type} (f : char -> bool) (k : nat -> option char -> str -> option R)
      (h : nat -> R) :
  (forall pos prev s, k pos prev s = Some (h pos)) ->
  forall s pos prev, star f k pos prev s = Some (h (pos + run_length f s)).
Proof.
  intros Hk. induction s as [|c s IH]; intros pos prev; cbn [star run_length].
  - rewrite Hk, Nat.add_0_r. reflexivity.
  - destruct (f c).
    + rewrite IH. f_equal. f_equal. lia.
    + rewrite Hk, Nat.add_0_r. reflexivity.
Qed.

Lemma run_length_all (f : char -> bool) (s : str) :
  Forall (fun c => f c = true) (firstn (run_length f s) s).
Proof.
  induction s as [|c s IH]; cbn [run_length]; [constructor|].
  destruct (f c) eqn:E; cbn [firstn]; constructor; assumption.
Qed.

(** A pattern that starts with "@" matches only at an "@". *)
Lemma at_required (p : pattern) (g : groups) (pos : nat) (prev : option char) (s : str) :
  match s with c :: _ => (c =? chr "@")%N = false | [] => True end ->
  match_at (Chr (one "@") :: p) g pos prev s = None.
Proof.
  intros H. rewrite match_at_cons, chr_step. destruct s as [|c s]; [reflexivity|].
  rewrite one_eqb, H. reflexivity.
Qed.

Lemma search_needs_at (p : pattern) (s : str) :
  has_char (chr "@") s = false ->
  forall pos prev, search_from (Chr (one "@") :: p) pos prev s = None.
Proof.
  unfold has_char. induction s as [|c s IH]; intros H pos prev; cbn [search_from].
  - rewrite at_required by exact I. reflexivity.
  - cbn [existsb] in H. apply orb_false_iff in H. destruct H as [Hc Hs].
    rewrite at_required by (rewrite N.eqb_sym; exact Hc). apply IH, Hs.
Qed.

Lemma has_char_lstrip (c : char) (s : str) :
  has_char c s = false -> has_char c (lstrip s) = false.
Proof.
  unfold has_char. induction s as [|x s IH]; [reflexivity|].
  cbn [lstrip existsb]. intros H. apply orb_false_iff in H. destruct H as [Hx Hs].
  destruct (isspace x); [apply IH, Hs|]. cbn [existsb]. rewrite Hx, Hs. reflexivity.
Qed.

(** [@(\d+)] at the start of a text: an "@" and the digits after it. *)
Lemma instrument_match (s : str) :
  re_match instrument_pattern s =
  match s with
  | c :: s' =>
      if (c =? chr "@")%N then
        match run_length isdecimal s' with
        | O => None
        | S n => Some (MatchObj 0 (2 + n) (Some 1, Some (2 + n)))
        end
      else None
  | [] => None
  end.
Proof.
  unfold re_match, instrument_pattern. rewrite match_at_cons, chr_step.
  destruct s as [|c s']; [reflexivity|]. rewrite one_eqb.
  destruct (c =? chr "@")%N; [|reflexivity].
  rewrite match_at_cons. cbn [match_atom]. rewrite match_at_cons. cbn [match_atom].
  destruct s' as [|d s'']; [reflexivity|]. cbn [run_length].
  destruct (isdecimal d); [|reflexivity].
  rewrite (star_total isdecimal _ (fun pos => (pos, (Some 1, Some pos)))) by reflexivity.
  reflexivity.
Qed.

Lemma preprocess_no_at (line_content track_char : str) (d : dict str) :
  has_char (chr "@") line_content = false ->
  preprocess_and_extract_data_from_track_line line_content track_char d
  = (lstrip line_content, d, None).
Proof.
  intros H. apply has_char_lstrip in H.
  unfold preprocess_and_extract_data_from_track_line, tempo_patterns, extract_tempo, re_search.
  rewrite !search_needs_at by exact H.
  rewrite instrument_match. destruct (lstrip line_content) as [|c s']; [reflexivity|].
  unfold has_char in H. cbn [existsb] in H. apply orb_false_iff in H.
  rewrite N.eqb_sym, (proj1 H). reflexivity.
Qed.

(** X1.  A line without "@" holds no directive: the preprocessor returns
    it with its leading whitespace removed, leaves the instrument map as
    it is and yields no tempo. *)
Theorem preprocess_without_at (line_content track_char : str) (d : dict str) :
  has_char (chr "@") line_content = false ->
  preprocess_and_extract_data_from_track_line line_content track_char d
  = (lstrip line_content, d, None).
Proof. apply preprocess_no_at. Qed.

Lemma preprocess_without_at_witness :
  preprocess_and_extract_data_from_track_line (lit "  o4 cde D-4") (lit "A") [(lit "A", lit "@7")]
  = (lit "o4 cde D-4", [(lit "A", lit "@7")], None).
Proof.
  apply (preprocess_without_at (lit "  o4 cde D-4") (lit "A") [(lit "A", lit "@7")]).
  reflexivity.
Defined.

(** The tempo of a line is the number of the digits handed to [int]. *)
Lemma extract_tempo_digits (patterns : list pattern) (x : str) :
  snd (extract_tempo patterns x) = option_map int_of_digits (tempo_digits patterns x).
Proof.
  induction patterns as [|p rest IH]; cbn [extract_tempo tempo_digits]; [reflexivity|].
  destruct (re_search p x); [reflexivity | exact IH].
Qed.

Lemma lstrip_idempotent (s : str) : lstrip (lstrip s) = lstrip s.
Proof.
  induction s as [|c s IH]; [reflexivity|].
  cbn [lstrip]. destruct (isspace c) eqn:E; [exact IH|]. cbn [lstrip]. rewrite E. reflexivity.
Qed.

Lemma extract_tempo_lstripped (patterns : list pattern) (x : str) :
  lstrip x = x -> lstrip (fst (extract_tempo patterns x)) = fst (extract_tempo patterns x).
Proof.
  intros Hx. induction patterns as [|p rest IH]; cbn [extract_tempo]; [exact Hx|].
  destruct (re_search p x); [apply lstrip_idempotent | exact IH].
Qed.

(** X2.  Whatever the line holds, the text the preprocessor returns does
    not start with whitespace. *)
Theorem preprocess_text_lstripped (line_content track_char : str) (d : dict str) :
  let text := fst (fst (preprocess_and_extract_data_from_track_line line_content track_char d)) in
  lstrip text = text.
Proof.
  unfold preprocess_and_extract_data_from_track_line.
  pose proof (extract_tempo_lstripped tempo_patterns (lstrip line_content)
                (lstrip_idempotent line_content)) as H.
  destruct (extract_tempo tempo_patterns (lstrip line_content)) as [rest tempo].
  cbn [fst] in H. destruct (re_match instrument_pattern rest); cbn [fst].
  - apply lstrip_idempotent.
  - exact H.
Qed.

(** X3.  The preprocessor touches the instrument map at the key of its
    track only: every other key keeps its value, and either the map is
    unchanged or the track now has "@" followed by one or more digits. *)
Theorem preprocess_instrument_map (line_content track_char : str) (d : dict str) :
  let d' := snd (fst (preprocess_and_extract_data_from_track_line line_content track_char d)) in
  (forall k, k <> track_char -> Dict.get d' k = Dict.get d k)
  /\ (d' = d
      \/ exists digits,
           is_digits digits /\ Dict.get d' track_char = Some (lit "@" ++ digits)).
Proof.
  unfold preprocess_and_extract_data_from_track_line.
  destruct (extract_tempo tempo_patterns (lstrip line_content)) as [rest tempo].
  rewrite instrument_match. destruct rest as [|c s']; cbn [fst snd]; [split; auto|].
  destruct (c =? chr "@")%N; cbn [fst snd]; [|split; auto].
  destruct (run_length isdecimal s') as [|n] eqn:Hrun; cbn [fst snd]; [split; auto|].
  split.
  - intros k Hk. apply get_set_other. exact Hk.
  - right. exists (firstn (S n) s'). split; [split|].
    + destruct s'; [discriminate Hrun | discriminate].
    + rewrite <- Hrun. apply run_length_all.
    + rewrite get_set_same. unfold group1. cbn [m_groups skipn].
      replace (2 + n - 1) with (S n) by lia. reflexivity.
Qed.

Lemma preprocess_instrument_map_witness :
  Dict.get (snd (fst (preprocess_and_extract_data_from_track_line
                        (lit "@12 cde") (lit "A") [(lit "B", lit "@3")]))) (lit "B")
  = Dict.get [(lit "B", lit "@3")] (lit "B").
Proof.
  apply (proj1 (preprocess_instrument_map (lit "@12 cde") (lit "A") [(lit "B", lit "@3")])
               (lit "B")).
  discriminate.
Defined.

End Preprocessor.

(** ** What the parser keeps *)

Section ParserInvariants.
Import Py Re Dict Mus2ndp Inputs Props Reference.

Lemma parse_lines_cons (st : pstate) (l : str) (lines : list str) :
  parse_lines st (l :: lines) = parse_lines (parse_line st l) lines.
Proof. reflexivity. Qed.

(** X4.  Blank lines and comment lines (";" or "*" first) count for
    nothing wherever they stand: parsing the lines without them gives the
    same state. *)
Theorem comments_are_ignored (lines : list str) :
  forall st : pstate,
    parse_lines st (filter (fun l => negb (is_comment_or_blank (strip l))) lines)
    = parse_lines st lines.
Proof.
  induction lines as [|l lines IH]; intros st; [reflexivity|].
  cbn [filter]. rewrite (parse_lines_cons st l lines).
  destruct (is_comment_or_blank (strip l)) eqn:E; cbn [negb].
  - rewrite IH. f_equal. unfold parse_line. rewrite E. reflexivity.
  - rewrite parse_lines_cons. apply IH.
Qed.

(** *** The saved tracks *)

Lemma save_track_saved_text (st : pstate) :
  Forall saved_text_ok (tracks (result st)) -> Forall saved_text_ok (tracks (save_track st)).
Proof.
  intros H. unfold save_track. destruct (current_track st) as [ct|]; [|exact H].
  destruct (nonempty _); [|exact H].
  destruct (nonempty (strip _)) eqn:E; [|exact H].
  cbn [tracks set_tracks]. apply items_set; [exact H|]. split; cbn [snd].
  - intros Hnil. rewrite Hnil in E. discriminate E.
  - apply strip_idempotent.
Qed.

Lemma track_line_tracks (st : pstate) (ls : str) :
  tracks (result (track_line st ls)) = tracks (save_track st)
  \/ tracks (result (track_line st ls)) = tracks (result st).
Proof.
  unfold track_line. destruct (_ || _).
  - left. destruct (preprocess_and_extract_data_from_track_line _ _ _) as [[pd instr] tempo].
    cbn [result]. destruct tempo as [t|]; cbn [mus_tempo set_track_instruments];
      [destruct (mus_tempo (save_track st))|]; reflexivity.
  - right. destruct (preprocess_and_extract_data_from_track_line _ _ _) as [[pd instr] tempo].
    reflexivity.
Qed.

Lemma parse_line_saved_text (st : pstate) (line_raw : str) :
  Forall saved_text_ok (tracks (result st)) ->
  Forall saved_text_ok (tracks (result (parse_line st line_raw))).
Proof.
  intros H. unfold parse_line.
  destruct (is_comment_or_blank _); [exact H|].
  destruct (is_title _); [exact H|].
  destruct (is_composer _); [exact H|].
  destruct (is_voice_definition _).
  - destruct (split_once _ _) as [before after]. destruct (_ && _); exact H.
  - destruct (starts_with_track_char _).
    + destruct (track_line_tracks st (strip line_raw)) as [-> | ->];
        [apply save_track_saved_text|]; exact H.
    + destruct (nonempty _); [|exact H]. destruct (current_track st); exact H.
Qed.

Lemma parse_lines_saved_text (lines : list str) :
  forall st,
    Forall saved_text_ok (tracks (result st)) ->
    Forall saved_text_ok (tracks (result (parse_lines st lines))).
Proof.
  induction lines as [|l lines IH]; intros st H; [exact H|].
  cbn [parse_lines fold_left]. apply IH, parse_line_saved_text, H.
Qed.

(** X5.  Every track of the parsed document is filed under one of the
    letters A to H, and its text is not empty and has no whitespace at
    either end. *)
Theorem parsed_tracks_well_formed (content : str) :
  Forall (fun kv => valid_track_key (fst kv) = true /\ saved_text_ok kv)
         (tracks (parse_mus_file content)).
Proof.
  pose proof (parse_mus_file_keys content) as Hk.
  assert (Hv : Forall saved_text_ok (tracks (parse_mus_file content))).
  { unfold parse_mus_file. apply save_track_saved_text, parse_lines_saved_text. constructor. }
  unfold keys in Hk. induction (tracks (parse_mus_file content)) as [|kv d IH];
    [constructor|].
  inversion Hk; inversion Hv; subst. constructor; [split; assumption | apply IH; assumption].
Qed.

(** *** The instrument map *)

Lemma preprocess_instruments (l tc : str) (d : dict str) :
  valid_track_key tc = true -> Forall instrument_ok d ->
  Forall instrument_ok (snd (fst (preprocess_and_extract_data_from_track_line l tc d))).
Proof.
  intros Htc Hd. unfold preprocess_and_extract_data_from_track_line.
  destruct (extract_tempo tempo_patterns (lstrip l)) as [rest tempo].
  rewrite instrument_match. destruct rest as [|c s']; cbn [fst snd]; [exact Hd|].
  destruct (c =? chr "@")%N; cbn [fst snd]; [|exact Hd].
  destruct (run_length isdecimal s') as [|n] eqn:Hrun; cbn [fst snd]; [exact Hd|].
  apply items_set; [exact Hd|]. split; [exact Htc|]. cbn [snd].
  exists (firstn (S n) s'). split; [split|].
  - destruct s'; [discriminate Hrun | discriminate].
  - rewrite <- Hrun. apply run_length_all.
  - unfold group1. cbn [m_groups skipn]. replace (2 + n - 1) with (S n) by lia. reflexivity.
Qed.

Lemma save_track_instruments (st : pstate) :
  track_instruments (save_track st) = track_instruments (result st).
Proof.
  unfold save_track. destruct (current_track st); [|reflexivity].
  destruct (nonempty _); [|reflexivity]. destruct (nonempty _); reflexivity.
Qed.

Lemma track_letter_valid (ls : str) :
  starts_with_track_char ls = true -> valid_track_key (firstn 1 ls) = true.
Proof.
  destruct ls as [|c rest]; [discriminate|]. cbn [starts_with_track_char firstn valid_track_key].
  intros H. apply andb_true_iff in H. apply H.
Qed.

Lemma track_line_instruments (st : pstate) (ls : str) :
  starts_with_track_char ls = true ->
  Forall instrument_ok (track_instruments (result st)) ->
  Forall instrument_ok (track_instruments (result (track_line st ls))).
Proof.
  intros Hs H. pose proof (track_letter_valid ls Hs) as Hv. unfold track_line.
  destruct (_ || _).
  - pose proof (preprocess_instruments (lstrip (skipn 1 ls)) (firstn 1 ls)
                  (track_instruments (save_track st)) Hv) as Hp.
    rewrite save_track_instruments in Hp. specialize (Hp H).
    rewrite save_track_instruments.
    destruct (preprocess_and_extract_data_from_track_line _ _ _) as [[pd instr] tempo].
    cbn [fst snd] in Hp. cbn [result].
    destruct tempo as [t|]; cbn [mus_tempo set_track_instruments];
      [destruct (mus_tempo (save_track st))|]; exact Hp.
  - pose proof (preprocess_instruments (lstrip (skipn 1 ls)) (firstn 1 ls)
                  (track_instruments (result st)) Hv H) as Hp.
    destruct (preprocess_and_extract_data_from_track_line _ _ _) as [[pd instr] tempo].
    exact Hp.
Qed.

Lemma parse_line_instruments (st : pstate) (line_raw : str) :
  Forall instrument_ok (track_instruments (result st)) ->
  Forall instrument_ok (track_instruments (result (parse_line st line_raw))).
Proof.
  intros H. unfold parse_line.
  destruct (is_comment_or_blank _); [exact H|].
  destruct (is_title _); [exact H|].
  destruct (is_composer _); [exact H|].
  destruct (is_voice_definition _).
  - destruct (split_once _ _) as [before after]. destruct (_ && _); exact H.
  - destruct (starts_with_track_char _) eqn:Hs; [apply track_line_instruments; assumption|].
    destruct (nonempty _); [|exact H]. destruct (current_track st); exact H.
Qed.

Lemma parsed_instruments_ok (content : str) :
  Forall instrument_ok (track_instruments (parse_mus_file content)).
Proof.
  unfold parse_mus_file. rewrite save_track_instruments.
  assert (H : forall lines st,
             Forall instrument_ok (track_instruments (result st)) ->
             Forall instrument_ok (track_instruments (result (parse_lines st lines)))).
  { induction lines as [|l lines IH]; intros st Hst; [exact Hst|].
    cbn [parse_lines fold_left]. apply IH, parse_line_instruments, Hst. }
  apply H. constructor.
Qed.

(** X6.  Every entry of the instrument map of the parsed document belongs
    to one of the letters A to H and is "@" followed by one or more
    decimal digits, whatever the lines of the document hold. *)
Theorem parsed_instruments_well_formed (content : str) :
  Forall (fun kv => valid_track_key (fst kv) = true
                    /\ exists digits, is_digits digits /\ snd kv = lit "@" ++ digits)
         (track_instruments (parse_mus_file content)).
Proof. apply parsed_instruments_ok. Qed.

(** *** The voice definitions *)

Lemma save_track_voices (st : pstate) :
  voice_definitions (save_track st) = voice_definitions (result st).
Proof.
  unfold save_track. destruct (current_track st); [|reflexivity].
  destruct (nonempty _); [|reflexivity]. destruct (nonempty _); reflexivity.
Qed.

Lemma track_line_voices (st : pstate) (ls : str) :
  voice_definitions (result (track_line st ls)) = voice_definitions (result st).
Proof.
  unfold track_line. destruct (_ || _).
  - destruct (preprocess_and_extract_data_from_track_line _ _ _) as [[pd instr] tempo].
    cbn [result]. destruct tempo as [t|]; cbn [mus_tempo set_track_instruments];
      [destruct (mus_tempo (save_track st))|]; cbn; apply save_track_voices.
  - destruct (preprocess_and_extract_data_from_track_line _ _ _) as [[pd instr] tempo].
    reflexivity.
Qed.

Lemma voice_key_starts_with_at (ls : str) :
  startswith ls (lit "@") = true ->
  startswith (strip (fst (split_once (chr "=") ls))) (lit "@") = true.
Proof.
  destruct ls as [|c t]; [discriminate|].
  intros Hc. assert (Heq : c = chr "@").
  { cbn in Hc. apply andb_true_iff in Hc. apply N.eqb_eq, Hc. }
  subst c. cbn [split_once]. change (chr "@" =? chr "=")%N with false. cbv iota.
  destruct (split_once (chr "=") t) as [a b]. cbn [fst].
  destruct (strip_cons_nonspace (chr "@") a eq_refl) as [t' ->].
  cbn. destruct t'; reflexivity.
Qed.

Lemma parse_line_voices (st : pstate) (line_raw : str) :
  Forall voice_ok (voice_definitions (result st)) ->
  Forall voice_ok (voice_definitions (result (parse_line st line_raw))).
Proof.
  intros H. unfold parse_line.
  destruct (is_comment_or_blank _); [exact H|].
  destruct (is_title _); [exact H|].
  destruct (is_composer _); [exact H|].
  destruct (is_voice_definition _) eqn:Hv.
  - pose proof (voice_key_starts_with_at (strip line_raw)) as Hkey.
    destruct (split_once _ _) as [before after]. cbn [fst] in Hkey.
    destruct (_ && _) eqn:Hb; [|exact H].
    cbn [result voice_definitions set_voice_definitions].
    apply items_set; [exact H|]. apply andb_true_iff in Hb.
    unfold is_voice_definition in Hv. rewrite !andb_true_iff in Hv.
    split; [apply Hkey, Hv | exact Hb].
  - destruct (starts_with_track_char _); [rewrite track_line_voices; exact H|].
    destruct (nonempty _); [|exact H]. destruct (current_track st); exact H.
Qed.

(** X7.  Every voice definition of the parsed document has a key that
    starts with "@" and a body that starts with "{" and ends with "}". *)
Theorem parsed_voices_well_formed (content : str) :
  Forall voice_ok (voice_definitions (parse_mus_file content)).
Proof.
  unfold parse_mus_file. rewrite save_track_voices.
  assert (H : forall lines st,
             Forall voice_ok (voice_definitions (result st)) ->
             Forall voice_ok (voice_definitions (result (parse_lines st lines)))).
  { induction lines as [|l lines IH]; intros st Hst; [exact Hst|].
    cbn [parse_lines fold_left]. apply IH, parse_line_voices, Hst. }
  apply H. constructor.
Qed.

(** *** Title and composer *)

Lemma replace_char_removes (c : char) (s : str) :
  Forall (fun x => x <> c) (replace_char c [] s).
Proof.
  unfold replace_char. induction s as [|x s IH]; [constructor|].
  cbn [flat_map]. destruct (N.eqb_spec x c); cbn [app]; [exact IH | constructor; assumption].
Qed.

Lemma replace_char_Forall (P : char -> Prop) (c : char) (s : str) :
  Forall P s -> Forall P (replace_char c [] s).
Proof.
  unfold replace_char. induction 1 as [|x s Hx Hs IH]; [constructor|].
  cbn [flat_map]. destruct (x =? c)%N; cbn [app]; [exact IH | constructor; assumption].
Qed.

Lemma last_matching_In (f : str -> bool) (lines : list str) (l : str) :
  last_matching f lines = Some l -> In l lines.
Proof.
  unfold last_matching. intros H.
  assert (Hin : In l (rev (filter f lines))).
  { destruct (rev (filter f lines)); [discriminate|]. injection H as ->. left. reflexivity. }
  apply in_rev, filter_In in Hin. apply Hin.
Qed.

Lemma header_value_clean (n : nat) (lines : list str) (f : str -> bool) :
  Forall (Forall (fun c => islinebreak c = false)) lines ->
  Forall (fun c => c <> quote /\ islinebreak c = false)
         match last_matching f (map strip lines) with
         | Some l => header_value n l
         | None => []
         end.
Proof.
  intros Hlines. destruct (last_matching f (map strip lines)) as [l|] eqn:E; [|constructor].
  apply last_matching_In, in_map_iff in E. destruct E as [raw [<- Hraw]].
  rewrite Forall_forall in Hlines. specialize (Hlines raw Hraw).
  unfold header_value. apply Forall_and.
  - apply replace_char_removes.
  - apply replace_char_Forall, Forall_strip, Forall_skipn, Forall_strip, Hlines.
Qed.

(** X8.  The title and the composer of the parsed document hold no quote
    character and no line boundary, so each header line of the output is
    one line with one pair of quotes. *)
Theorem parsed_headers_clean (content : str) :
  Forall (fun c => c <> quote /\ islinebreak c = false) (title (parse_mus_file content))
  /\ Forall (fun c => c <> quote /\ islinebreak c = false) (composer (parse_mus_file content)).
Proof.
  unfold parse_mus_file.
  rewrite save_track_title, save_track_composer, parse_lines_title, parse_lines_composer.
  split; apply header_value_clean, splitlines_no_linebreak.
Qed.

End ParserInvariants.

(** ** More about the line wrapper *)

Section WrapperMore.
Import Py Mus2ndp Inputs Props.

Lemma no_ws_app (a b : str) : no_ws (a ++ b) = no_ws a ++ no_ws b.
Proof. apply filter_app. Qed.

Lemma split_loop_keeps_text (max_length : nat) (channel_id : str) :
  1 <= max_length ->
  forall (fuel : nat) (r : str) (acc : list str),
    length r <= fuel -> lstrip r = r ->
    exists chunks,
      split_loop fuel max_length channel_id r acc
        = Some (acc ++ map (prefixed channel_id) chunks)
      /\ no_ws (concat chunks) = no_ws r
      /\ Forall (fun chunk => exists c t, chunk = c :: t /\ isspace c = false) chunks.
Proof.
  intros Hmax. induction fuel as [|fuel IH]; intros r acc Hfuel Hr.
  - destruct r; [|simpl in Hfuel; lia]. exists []. simpl. rewrite app_nil_r. auto.
  - destruct r as [|c t].
    + exists []. rewrite split_loop_nil, app_nil_r. auto.
    + assert (Hc : isspace c = false) by (apply (lstrip_head_not_space (c :: t) c t Hr)).
      destruct (Nat.le_gt_cases (length (c :: t)) max_length) as [Hfit|Hlong].
      * exists [c :: t]. rewrite split_loop_fits by (assumption || discriminate).
        split; [reflexivity|]. split; [cbn [concat]; rewrite app_nil_r; reflexivity|].
        constructor; [|constructor]. exists c, t. auto.
      * rewrite split_loop_round by assumption.
        pose proof (rest_shorter max_length (c :: t) Hmax Hlong) as Hshort.
        pose proof (find_split_index_bounds max_length (c :: t) Hmax) as Hk.
        set (k := find_split_index max_length (c :: t)) in *.
        destruct (IH (strip (skipn k (c :: t))) (acc ++ [prefixed channel_id (firstn k (c :: t))]))
          as [chunks [Heq [Hws Hheads]]]; [lia | apply lstrip_idempotent |].
        exists (firstn k (c :: t) :: chunks). split; [|split].
        -- rewrite Heq. cbn [map]. rewrite <- app_assoc. reflexivity.
        -- cbn [concat]. rewrite no_ws_app, Hws, no_ws_strip, <- no_ws_app, firstn_skipn.
           reflexivity.
        -- constructor; [|exact Hheads]. destruct k as [|k]; [lia|].
           cbn [firstn]. exists c, (firstn k t). auto.
Qed.

(** X9.  The wrapper loses nothing but whitespace, for every text: the
    chunks behind the channel prefixes, put one after the other and
    stripped of whitespace, are the input stripped of whitespace; and no
    chunk starts with whitespace. *)
Theorem wrapping_keeps_text (mml_data channel_id : str) (fuel : nat) :
  length mml_data <= fuel ->
  exists chunks,
    split_track_data fuel mml_data channel_id MAX_LINE_LENGTH_MMLE
      = Some (map (prefixed channel_id) chunks)
    /\ no_ws (concat chunks) = no_ws mml_data
    /\ Forall (fun chunk => exists c t, chunk = c :: t /\ isspace c = false) chunks.
Proof.
  intros Hfuel. unfold split_track_data.
  destruct (split_loop_keeps_text MAX_LINE_LENGTH_MMLE channel_id
              ltac:(unfold MAX_LINE_LENGTH_MMLE; lia) fuel (strip mml_data) [])
    as [chunks [Heq [Hws Hheads]]].
  - pose proof (strip_length mml_data). lia.
  - apply lstrip_idempotent.
  - rewrite no_ws_strip in Hws. destruct (nonempty (strip mml_data)) eqn:E; cbn [negb].
    + exists chunks. auto.
    + exists []. split; [reflexivity|]. split; [|constructor].
      destruct (strip mml_data) eqn:Es; [|discriminate E].
      rewrite <- (no_ws_strip mml_data), Es. reflexivity.
Qed.

Lemma wrapping_keeps_text_witness :
  exists chunks,
    split_track_data 7 (lit " c4 d4 ") (lit "2") MAX_LINE_LENGTH_MMLE
      = Some (map (prefixed (lit "2")) chunks)
    /\ no_ws (concat chunks) = no_ws (lit " c4 d4 ")
    /\ Forall (fun chunk => exists c t, chunk = c :: t /\ isspace c = false) chunks.
Proof. apply (wrapping_keeps_text (lit " c4 d4 ") (lit "2") 7). vm_compute. lia. Defined.

Lemma scan_back_spec (r : str) (n : nat) :
  (scan_back n r = 0 /\ forall j, 1 <= j <= n -> safe_at r j = false)
  \/ (1 <= scan_back n r <= n
      /\ safe_at r (scan_back n r) = true
      /\ forall j, scan_back n r < j <= n -> safe_at r j = false).
Proof.
  induction n as [|n IH]; [left; split; [reflexivity | intros; lia]|].
  cbn [scan_back]. fold (safe_at r (S n)). destruct (safe_at r (S n)) eqn:E.
  - right. split; [lia|]. split; [exact E | intros; lia].
  - destruct IH as [[H0 Hnone] | [Hb [Hsafe Hnone]]].
    + left. split; [exact H0|]. intros j Hj.
      destruct (Nat.eq_dec j (S n)) as [->|]; [exact E | apply Hnone; lia].
    + right. split; [lia|]. split; [exact Hsafe|]. intros j Hj.
      destruct (Nat.eq_dec j (S n)) as [->|]; [exact E | apply Hnone; lia].
Qed.

(** X10.  Where the wrapper cuts: at the last index from 1 to
    [max_length] that lies inside the text and holds one of the characters
    a-g, r, A-G, R, [<], [>]; and at [max_length] itself when there is no
    such index. *)
Theorem split_index_is_last_safe (max_length : nat) (remaining_data : str) :
  1 <= max_length ->
  let split_index := find_split_index max_length remaining_data in
  (1 <= split_index <= max_length
   /\ safe_at remaining_data split_index = true
   /\ forall j, split_index < j <= max_length -> safe_at remaining_data j = false)
  \/ (split_index = max_length
      /\ forall j, 1 <= j <= max_length -> safe_at remaining_data j = false).
Proof.
  intros Hmax. unfold find_split_index.
  destruct (scan_back_spec remaining_data max_length) as [[H0 Hnone] | [Hb [Hsafe Hnone]]].
  - right. rewrite H0. cbn. auto.
  - left. destruct (scan_back max_length remaining_data <=? 0) eqn:E.
    + apply Nat.leb_le in E. lia.
    + auto.
Qed.

Lemma split_index_is_last_safe_witness :
  (1 <= find_split_index 5 (lit "c4d4e4f4") <= 5
   /\ safe_at (lit "c4d4e4f4") (find_split_index 5 (lit "c4d4e4f4")) = true
   /\ forall j, find_split_index 5 (lit "c4d4e4f4") < j <= 5 ->
                safe_at (lit "c4d4e4f4") j = false)
  \/ (find_split_index 5 (lit "c4d4e4f4") = 5
      /\ forall j, 1 <= j <= 5 -> safe_at (lit "c4d4e4f4") j = false).
Proof. apply (split_index_is_last_safe 5 (lit "c4d4e4f4")). lia. Defined.

(** X11.  No output line is longer than the channel id, one space and 80
    characters. *)
Theorem wrapped_line_length (mml_data channel_id : str) (fuel : nat) :
  length mml_data <= fuel ->
  exists lines,
    split_track_data fuel mml_data channel_id MAX_LINE_LENGTH_MMLE = Some lines
    /\ Forall (fun line => length line <= length channel_id + 1 + MAX_LINE_LENGTH_MMLE) lines.
Proof.
  intros Hfuel.
  destruct (split_track_data_chunks_bounded mml_data channel_id fuel Hfuel)
    as [chunks [Heq Hall]].
  exists (map (prefixed channel_id) chunks). split; [exact Heq|].
  apply Forall_map. eapply Forall_impl; [|exact Hall].
  intros chunk Hlen. unfold prefixed. rewrite !length_app.
  change (length (lit " ")) with 1. cbv beta in Hlen. lia.
Qed.

Lemma wrapped_line_length_witness :
  exists lines,
    split_track_data 7 (lit " c4 d4 ") (lit "2") MAX_LINE_LENGTH_MMLE = Some lines
    /\ Forall (fun line => length line <= length (lit "2") + 1 + MAX_LINE_LENGTH_MMLE) lines.
Proof. apply (wrapped_line_length (lit " c4 d4 ") (lit "2") 7). vm_compute. lia. Defined.

End WrapperMore.

(** ** More about the command translator *)

Section TranslatorMore.
Import Py Re Mus2ndp Reference Props.

Lemma rewrite_pass_keep (cmd : option char -> str -> nat) (repl : str)
      (prev : option char) (c : char) (t : str) :
  cmd prev (c :: t) = 0 ->
  rewrite_pass cmd repl prev (c :: t) = c :: rewrite_pass cmd repl (Some c) t.
Proof.
  intros H. rewrite rewrite_pass_equation_2. rewrite H. reflexivity.
Qed.

Lemma rewrite_pass_replace (cmd : option char -> str -> nat) (repl : str)
      (prev : option char) (c : char) (t : str) (n : nat) :
  cmd prev (c :: t) = S n ->
  rewrite_pass cmd repl prev (c :: t)
  = repl ++ rewrite_pass cmd repl (Some (last (firstn n t) c)) (skipn n t).
Proof.
  intros H. rewrite rewrite_pass_equation_2. rewrite H. reflexivity.
Qed.


Lemma rewrite_pass_Forall (P : char -> Prop) (cmd : option char -> str -> nat) (repl : str) :
  Forall P repl ->
  forall (n : nat) (s : str) (prev : option char),
    length s <= n -> Forall P s -> Forall P (rewrite_pass cmd repl prev s).
Proof.
  intros Hrepl. induction n as [|n IH]; intros s prev Hlen Hs.
  - destruct s; [|simpl in Hlen; lia]. rewrite rewrite_pass_equation_1. constructor.
  - destruct s as [|c t]; [rewrite rewrite_pass_equation_1; constructor|].
    inversion Hs as [|? ? Hc Ht]; subst. cbn [length] in Hlen.
    destruct (cmd prev (c :: t)) as [|m] eqn:E.
    + rewrite rewrite_pass_keep by exact E. constructor; [exact Hc | apply IH; [lia | exact Ht]].
    + rewrite (rewrite_pass_replace _ _ _ _ _ m) by exact E.
      apply Forall_app. split; [exact Hrepl|].
      apply IH; [rewrite length_skipn; lia | apply Forall_skipn, Ht].
Qed.

Lemma skipn_run_length (f : char -> bool) (s : str) :
  match skipn (run_length f s) s with
  | d :: _ => f d = false
  | [] => True
  end.
Proof.
  induction s as [|c s IH]; [exact I|].
  cbn [run_length]. destruct (f c) eqn:E; [exact IH | exact E].
Qed.

Lemma collapse_single_spaced (n : nat) :
  forall (s : str) (prev : option char),
    length s <= n ->
    single_spaced (rewrite_pass whitespace_run (lit " ") prev s) = true.
Proof.
  induction n as [|n IH]; intros s prev Hlen.
  - destruct s; [|simpl in Hlen; lia]. rewrite rewrite_pass_equation_1. reflexivity.
  - destruct s as [|c t]; [rewrite rewrite_pass_equation_1; reflexivity|].
    cbn [length] in Hlen.
    destruct (whitespace_run prev (c :: t)) as [|m] eqn:E.
    + rewrite rewrite_pass_keep by exact E.
      unfold whitespace_run in E. cbn [run_length] in E.
      destruct (isspace c) eqn:Hc; [discriminate E|].
      cbn [single_spaced]. rewrite Hc. cbn [negb orb andb]. apply IH. lia.
    + rewrite (rewrite_pass_replace _ _ _ _ _ m) by exact E.
      unfold whitespace_run in E. cbn [run_length] in E.
      destruct (isspace c) eqn:Hc; [|discriminate E]. injection E as E.
      pose proof (skipn_run_length isspace t) as Hhead. rewrite E in Hhead.
      assert (Hrec := IH (skipn m t) (Some (last (firstn m t) c))
                         ltac:(rewrite length_skipn; lia)).
      destruct (skipn m t) as [|d t'] eqn:Es.
      * rewrite rewrite_pass_equation_1. reflexivity.
      * rewrite rewrite_pass_keep in *
          by (unfold whitespace_run; cbn [run_length]; rewrite Hhead; reflexivity).
        change (lit " " ++ ?x) with (32%N :: x).
        cbn [single_spaced] in *. rewrite Hhead. cbn [negb andb orb].
        rewrite Hhead in Hrec. cbn [negb orb andb] in Hrec. exact Hrec.
Qed.

Lemma delete_char_Forall (P : char -> Prop) (c : char) (s : str) :
  Forall P s -> Forall P (delete_char c s).
Proof.
  unfold delete_char. induction 1 as [|x s Hx Hs IH]; cbn [filter]; [constructor|].
  destruct (negb (x =? c)%N); [constructor; assumption | exact IH].
Qed.

Lemma delete_char_removes (c : char) (s : str) : Forall (fun x => x <> c) (delete_char c s).
Proof.
  unfold delete_char. induction s as [|x s IH]; cbn [filter]; [constructor|].
  destruct (N.eqb_spec x c); cbn [negb]; [exact IH | constructor; assumption].
Qed.

(** The translator by its passes, the last three as the specification
    has them. *)
Lemma process_by_passes (track_data : str) :
  process_mus_commands track_data
  = rewrite_pass whitespace_run (lit " ") None
      (delete_char (chr "[")
         (delete_char (chr "]")
            (re_sub loop_pattern (lit "@L ")
               (re_sub pan_pattern [] (re_sub detune_pattern [] track_data))))).
Proof.
  unfold process_mus_commands, close_bracket_pattern, open_bracket_pattern.
  unfold re_sub at 1 2 3. rewrite !sub_chr_is_delete.
  apply (sub_is_pass whitespace_pattern whitespace_run).
  - intros. apply whitespace_match.
  - intros. apply run_length_le.
Qed.

(** X12.  A translated track holds no bracket, and its whitespace is
    normalised: every whitespace character is a plain space, and no two
    of them stand side by side. *)
Theorem translated_track_is_normalised (track_data : str) :
  single_spaced (process_mus_commands track_data) = true
  /\ Forall (fun c => c <> chr "[" /\ c <> chr "]") (process_mus_commands track_data).
Proof.
  rewrite process_by_passes. split.
  - apply (collapse_single_spaced _ _ _ (Nat.le_refl _)).
  - apply (rewrite_pass_Forall (fun c => c <> chr "[" /\ c <> chr "]") whitespace_run (lit " "))
      with (n := length (delete_char (chr "[")
                           (delete_char (chr "]")
                              (re_sub loop_pattern (lit "@L ")
                                 (re_sub pan_pattern [] (re_sub detune_pattern [] track_data))))));
      [repeat constructor; discriminate | apply Nat.le_refl |].
    apply Forall_and.
    + apply delete_char_removes.
    + apply delete_char_Forall, delete_char_removes.
Qed.

Lemma rewrite_pass_plain (cmd : option char -> str -> nat) (repl : str) (ok : char -> bool) :
  (forall prev c t, ok c = true -> cmd prev (c :: t) = 0) ->
  forall (s : str) (prev : option char),
    Forall (fun c => ok c = true) s -> rewrite_pass cmd repl prev s = s.
Proof.
  intros Hcmd. induction s as [|c t IH]; intros prev Hs;
    [apply rewrite_pass_equation_1|].
  inversion Hs as [|? ? Hc Ht]; subst.
  rewrite rewrite_pass_keep by (apply Hcmd, Hc). f_equal. apply IH, Ht.
Qed.

Lemma plain_char_spec (c : char) :
  plain_char c = true ->
  isspace c = false
  /\ (c =? chr "D")%N = false /\ (c =? chr "p")%N = false /\ (c =? chr "L")%N = false
  /\ (c =? chr "[")%N = false /\ (c =? chr "]")%N = false.
Proof.
  unfold plain_char, has_char. cbn [lit list_ascii_of_string map existsb].
  intros H. apply andb_true_iff in H. destruct H as [Hs Hc].
  apply negb_true_iff in Hs, Hc. repeat (apply orb_false_iff in Hc; destruct Hc as [? Hc]).
  repeat split; try assumption; rewrite N.eqb_sym; assumption.
Qed.

(** X13.  A text without whitespace and without the characters D, p, L,
    "[" and "]" passes through the translator unchanged. *)
Theorem plain_text_is_unchanged (track_data : str) :
  Forall (fun c => plain_char c = true) track_data ->
  process_mus_commands track_data = track_data.
Proof.
  intros H. rewrite process_by_passes. unfold re_sub.
  rewrite (sub_is_pass detune_pattern detune_command)
    by (intros; first [apply detune_match | apply detune_command_le]).
  rewrite (sub_is_pass pan_pattern pan_command)
    by (intros; first [apply pan_match | apply pan_command_le]).
  rewrite (sub_is_pass loop_pattern loop_open_token)
    by (intros; first [apply loop_match | apply loop_open_token_le]).
  rewrite (rewrite_pass_plain detune_command [] plain_char), 
          (rewrite_pass_plain pan_command [] plain_char),
          (rewrite_pass_plain loop_open_token (lit "@L ") plain_char); try exact H.
  - assert (Hdel : forall a, (forall c, plain_char c = true -> (c =? chr a)%N = false) ->
                             delete_char (chr a) track_data = track_data).
    { intros a Ha. unfold delete_char. apply forallb_filter_id, forallb_forall.
      intros c Hc. rewrite Forall_forall in H. rewrite (Ha c (H c Hc)). reflexivity. }
    rewrite (Hdel "]"%char), (Hdel "["%char);
      try (intros c Hc; apply plain_char_spec in Hc; apply Hc).
    apply (rewrite_pass_plain whitespace_run (lit " ") plain_char); [|exact H].
    intros prev c t Hc. apply plain_char_spec in Hc. unfold whitespace_run.
    cbn [run_length]. rewrite (proj1 Hc). reflexivity.
  - intros prev c t Hc. apply plain_char_spec in Hc. cbn [loop_open_token].
    rewrite (proj1 (proj2 (proj2 (proj2 Hc)))). reflexivity.
  - intros prev c t Hc. apply plain_char_spec in Hc. cbn [pan_command].
    rewrite (proj1 (proj2 (proj2 Hc))). reflexivity.
  - intros prev c t Hc. apply plain_char_spec in Hc. cbn [detune_command].
    rewrite (proj1 (proj2 Hc)). reflexivity.
Qed.

Lemma plain_text_is_unchanged_witness :
  process_mus_commands (lit "o4c4d8e8<g2") = lit "o4c4d8e8<g2".
Proof.
  apply (plain_text_is_unchanged (lit "o4c4d8e8<g2")).
  repeat constructor.
Defined.

End TranslatorMore.

(** ** More about the emitter *)

Section EmitterMore.
Import Py Re Dict Mus2ndp Inputs Props.

Lemma join_cons (sep x : str) (rest : list str) :
  exists tail, join sep (x :: rest) = x ++ tail.
Proof.
  destruct rest as [|y rest]; cbn [join].
  - exists []. rewrite app_nil_r. reflexivity.
  - eexists. reflexivity.
Qed.

(** X14.  The conversion returns for every document in which no tempo is
    too long for [int]; its output starts with the title header, [#TITLE]
    and a quote, and ends with exactly one newline: the character before
    that newline is not whitespace.  The output is therefore never the
    lone newline of an empty result. *)
Theorem output_shape (mus_content : str) :
  parse_raises mus_content = false ->
  exists fuel0, forall fuel,
    fuel0 <= fuel ->
    exists body,
      convert_mml_content fuel mus_content
        = Some (lit "#TITLE " ++ quote :: body ++ [10%N])
      /\ (forall b c, body = b ++ [c] -> isspace c = false).
Proof.
  intros _. set (parsed := parse_mus_file mus_content).
  destruct (tracks_output_terminates parsed (sorted Py.leb (keys (tracks parsed))))
    as [fuel0 Hfuel].
  exists fuel0. intros fuel Hle. destruct (Hfuel fuel Hle) as [out Hout].
  unfold convert_mml_content, mml_output_parts. fold parsed. rewrite Hout. cbn [option_map].
  unfold header_parts. cbn [Dict.get_or app].
  match goal with
  | |- context [final_text (?x :: ?rest)] =>
      destruct (join_cons [10%N] x rest) as [tail Htail];
      unfold final_text; rewrite Htail
  end.
  rewrite <- !app_assoc. cbn [app].
  replace ((title parsed ++ [quote]) ++ tail) with (title parsed ++ [quote] ++ tail)
    by apply app_assoc.
  set (X := title parsed ++ [quote] ++ tail).
  assert (Hstrip : strip (lit "#TITLE " ++ quote :: X) = lit "#TITLE " ++ quote :: rstrip X).
  { unfold strip. rewrite rstrip_app_nonspace by reflexivity. reflexivity. }
  rewrite Hstrip. exists (rstrip X). split; [reflexivity|].
  intros b c Hb. apply (rstrip_last_not_space X b c Hb).
Qed.

Lemma output_shape_witness :
  exists fuel body,
    convert_mml_content fuel (lit "#TITLE Song" ++ [10%N] ++ lit "A @t220 @5 o4 c4 L [cdeg]")
    = Some (lit "#TITLE " ++ quote :: body ++ [10%N]).
Proof.
  destruct (output_shape (lit "#TITLE Song" ++ [10%N] ++ lit "A @t220 @5 o4 c4 L [cdeg]")
                         eq_refl) as [fuel0 H].
  destruct (H fuel0 (le_n fuel0)) as [body [Hbody _]].
  exists fuel0, body. exact Hbody.
Defined.


(** *** The table of channels *)

(** X15.  The table of channels is a fixed one-to-one map, read without
    regard to case: a key has a channel exactly when its upper-case form
    is one of the letters A to H, and the channel is then the digit 1 to 8
    at the same place; no other key has one. *)
Theorem channel_table (k d : str) :
  channel_of k = Some d
  <-> exists c, upper k = [c] /\ has_char c VALID_MUS_TRACK_CHARS = true /\ d = [(c - 16)%N].
Proof.
  unfold channel_of, MUS_TO_NDP_TRACK_MAP. split.
  - cbn [Dict.get].
    repeat match goal with
           | |- context [Py.eqb ?a (upper k)] =>
               let E := fresh "E" in
               destruct (Py.eqb a (upper k)) eqn:E;
               [apply Py_eqb_eq in E; rewrite <- E; intros H; injection H as <-;
                eexists; repeat split; reflexivity | clear E]
           end.
    discriminate.
  - intros [c [Hu [Hc ->]]]. rewrite Hu.
    unfold has_char, VALID_MUS_TRACK_CHARS in Hc.
    cbn [lit list_ascii_of_string map N_of_ascii existsb] in Hc.
    repeat (apply orb_true_iff in Hc; destruct Hc as [Hc|Hc]); try discriminate Hc;
      apply N.eqb_eq in Hc; subst c; reflexivity.
Qed.

Lemma channel_table_witness : channel_of (lit "c") = Some (lit "3").
Proof.
  apply (proj2 (channel_table (lit "c") (lit "3"))).
  exists (chr "C"). repeat split; reflexivity.
Defined.

(** X16.  For every tempo from 1 to 255 the BPM is defined and lies
    between 23 and 5859. *)
Theorem bpm_range (t : Z) :
  (1 <= t <= 255)%Z ->
  exists bpm, bpm_of_mus_tempo t = Some bpm /\ (23 <= bpm <= 5859)%Z.
Proof.
  intros Ht. exists (bpm_at (Z.to_nat (t - 1))). split; [apply bpm_defined, Ht|].
  split.
  - change 23%Z with (bpm_at 0). apply bpm_at_monotone; lia.
  - change 5859%Z with (bpm_at 254). apply bpm_at_monotone; lia.
Qed.

Lemma bpm_range_witness :
  exists bpm, bpm_of_mus_tempo 120 = Some bpm /\ (23 <= bpm <= 5859)%Z.
Proof. apply (bpm_range 120). lia. Defined.

(** *** The order of the channels in the tempo command *)













Lemma channel_digit_range (d : char) : is_channel_digit d = true -> (49 <= d <= 56)%N.
Proof.
  unfold is_channel_digit, has_char.
  change (lit "12345678") with [49; 50; 51; 52; 53; 54; 55; 56]%N. cbn [existsb].
  intros H. repeat (apply orb_true_iff in H; destruct H as [H|H]); try discriminate H;
    apply N.eqb_eq in H; subst d; lia.
Qed.





End EmitterMore.

(** ** Lines of the output *)

Section OutputLines.
Import Py Re Dict Mus2ndp Inputs Props Reference.

Lemma linebreak_is_space (c : char) : islinebreak c = true -> isspace c = true.
Proof.
  unfold islinebreak, isspace, in_range.
  rewrite ?orb_true_iff, ?andb_true_iff, ?N.leb_le, ?N.eqb_eq. lia.
Qed.

Lemma single_spaced_no_linebreak (s : str) :
  single_spaced s = true -> Forall (fun c => islinebreak c = false) s.
Proof.
  induction s as [|c t IH]; [constructor|].
  cbn [single_spaced]. intros H. apply andb_true_iff in H. destruct H as [Hc Ht].
  constructor; [|apply IH, Ht].
  destruct (islinebreak c) eqn:E; [|reflexivity].
  rewrite (linebreak_is_space c E) in Hc. cbn [negb orb] in Hc.
  apply andb_true_iff in Hc. destruct Hc as [Hc _]. apply N.eqb_eq in Hc. subst c.
  discriminate E.
Qed.

(** X18.  The comment made of a voice definition is one trimmed line:
    it holds no line boundary, whatever the definition holds, and no
    whitespace at either end. *)
Theorem voice_comment_is_one_line (voice_data_str : str) :
  Forall (fun c => islinebreak c = false) (voice_comment voice_data_str)
  /\ strip (voice_comment voice_data_str) = voice_comment voice_data_str.
Proof.
  unfold voice_comment. split; [|apply strip_idempotent].
  apply Forall_strip, single_spaced_no_linebreak. unfold re_sub.
  rewrite (sub_is_pass whitespace_pattern whitespace_run)
    by (intros; first [apply whitespace_match | apply run_length_le]).
  apply (collapse_single_spaced _ _ _ (Nat.le_refl _)).
Qed.

(** X19.  A document without a track line (no line that starts with one
    of the letters A to H) has no tracks, no instruments and no tempo. *)
Theorem no_track_lines_no_tracks (content : str) :
  Forall (fun l => starts_with_track_char (strip l) = false) (splitlines content) ->
  tracks (parse_mus_file content) = []
  /\ track_instruments (parse_mus_file content) = []
  /\ mus_tempo (parse_mus_file content) = None.
Proof.
  intros Hlines. unfold parse_mus_file.
  assert (H : forall lines st,
             Forall (fun l => starts_with_track_char (strip l) = false) lines ->
             current_track st = None ->
             current_track (parse_lines st lines) = None
             /\ tracks (result (parse_lines st lines)) = tracks (result st)
             /\ track_instruments (result (parse_lines st lines)) = track_instruments (result st)
             /\ mus_tempo (result (parse_lines st lines)) = mus_tempo (result st)).
  { induction lines as [|l lines IH]; intros st Hall Hct; [auto|].
    inversion Hall as [|? ? Hl Hrest]; subst. rewrite parse_lines_cons.
    assert (Hstep : current_track (parse_line st l) = None
                    /\ tracks (result (parse_line st l)) = tracks (result st)
                    /\ track_instruments (result (parse_line st l)) = track_instruments (result st)
                    /\ mus_tempo (result (parse_line st l)) = mus_tempo (result st)).
    { unfold parse_line. rewrite Hl.
      destruct (is_comment_or_blank _); [auto|].
      destruct (is_title _); [auto|].
      destruct (is_composer _); [auto|].
      destruct (is_voice_definition _).
      - destruct (split_once _ _) as [before after]. destruct (_ && _); auto.
      - destruct (nonempty _); [|auto]. rewrite Hct. auto. }
    destruct Hstep as [H1 [H2 [H3 H4]]].
    destruct (IH (parse_line st l) Hrest H1) as [I1 [I2 [I3 I4]]].
    rewrite I2, I3, I4, H2, H3, H4. auto. }
  destruct (H (splitlines content) initial_state Hlines eq_refl) as [H1 [H2 [H3 H4]]].
  rewrite save_track_instruments, save_track_mus_tempo, H3, H4.
  unfold save_track. rewrite H1, H2. auto.
Qed.

Lemma no_track_lines_no_tracks_witness :
  tracks (parse_mus_file (lit "#TITLE x" ++ [10%N] ++ lit "o4 cde")) = []
  /\ track_instruments (parse_mus_file (lit "#TITLE x" ++ [10%N] ++ lit "o4 cde")) = []
  /\ mus_tempo (parse_mus_file (lit "#TITLE x" ++ [10%N] ++ lit "o4 cde")) = None.
Proof.
  apply (no_track_lines_no_tracks (lit "#TITLE x" ++ [10%N] ++ lit "o4 cde")).
  repeat constructor.
Defined.

End OutputLines.

(** ** Every part of the output is one line *)

Section OneLinePerPart.
Import Py Re Dict Mus2ndp Inputs Props Reference.

#[local, warnings="-notation-for-abbreviation"]
Notation one_line := (Forall (fun c : char => islinebreak c = false)).

Lemma lit_cons (a : ascii) (s : string) : lit (String a s) = N_of_ascii a :: lit s.
Proof. reflexivity. Qed.

Lemma uint_one_line (d : Decimal.uint) : one_line (lit (NilEmpty.string_of_uint d)).
Proof.
  induction d; cbn [NilEmpty.string_of_uint]; [constructor|..];
    rewrite lit_cons; (constructor; [reflexivity | assumption]).
Qed.

Lemma str_of_Z_one_line (z : Z) : one_line (str_of_Z z).
Proof.
  unfold str_of_Z, NilZero.string_of_int.
  destruct (Z.to_int z) as [d|d].
  - unfold NilZero.string_of_uint. destruct d; try apply uint_one_line.
    repeat constructor.
  - rewrite lit_cons. constructor; [reflexivity|].
    unfold NilZero.string_of_uint. destruct d; try apply uint_one_line.
    repeat constructor.
Qed.

Lemma decimal_one_line (c : char) : isdecimal c = true -> islinebreak c = false.
Proof. apply decimal_not_linebreak. Qed.

Lemma channel_digit_one_line (c : char) : is_channel_digit c = true -> islinebreak c = false.
Proof.
  intros H. apply channel_digit_range in H.
  unfold islinebreak, in_range.
  rewrite !orb_false_iff, !andb_false_iff, !N.leb_gt, !N.eqb_neq. lia.
Qed.

Lemma valid_key_one_line (k : str) :
  valid_track_key k = true -> one_line k /\ one_line (upper k).
Proof.
  destruct k as [|c [|? ?]]; try discriminate. cbn [valid_track_key].
  unfold has_char, VALID_MUS_TRACK_CHARS.
  change (lit "ABCDEFGH") with [65; 66; 67; 68; 69; 70; 71; 72]%N. cbn [existsb].
  intros H. repeat (apply orb_true_iff in H; destruct H as [H|H]); try discriminate H;
    apply N.eqb_eq in H; subst c; split; repeat constructor.
Qed.

Lemma split_once_fst_Forall (P : char -> Prop) (c : char) (s : str) :
  Forall P s -> Forall P (fst (split_once c s)).
Proof.
  induction 1 as [|x s Hx Hs IH]; [constructor|].
  cbn [split_once]. destruct (x =? c)%N; [constructor|].
  destruct (split_once c s) as [a b]. cbn [fst] in *. constructor; assumption.
Qed.

(** The keys of the voice definitions come from lines. *)
Lemma parse_line_voice_keys (st : pstate) (line_raw : str) :
  one_line line_raw ->
  Forall (fun kv => one_line (fst kv)) (voice_definitions (result st)) ->
  Forall (fun kv => one_line (fst kv)) (voice_definitions (result (parse_line st line_raw))).
Proof.
  intros Hl H. unfold parse_line.
  destruct (is_comment_or_blank _); [exact H|].
  destruct (is_title _); [exact H|].
  destruct (is_composer _); [exact H|].
  destruct (is_voice_definition _).
  - pose proof (split_once_fst_Forall _ (chr "=") _ (Forall_strip _ _ Hl)) as Hkey.
    destruct (split_once _ _) as [before after]. cbn [fst] in Hkey.
    destruct (_ && _); [|exact H].
    cbn [result voice_definitions set_voice_definitions].
    apply items_set; [exact H|]. cbn [fst]. apply Forall_strip, Hkey.
  - destruct (starts_with_track_char _); [rewrite track_line_voices; exact H|].
    destruct (nonempty _); [|exact H]. destruct (current_track st); exact H.
Qed.

Lemma parse_mus_file_voice_keys (content : str) :
  Forall (fun kv => one_line (fst kv)) (voice_definitions (parse_mus_file content)).
Proof.
  unfold parse_mus_file. rewrite save_track_voices.
  assert (H : forall lines st,
             Forall one_line lines ->
             Forall (fun kv => one_line (fst kv)) (voice_definitions (result st)) ->
             Forall (fun kv => one_line (fst kv))
                    (voice_definitions (result (parse_lines st lines)))).
  { induction lines as [|l lines IH]; intros st Hall Hst; [exact Hst|].
    inversion Hall; subst. rewrite parse_lines_cons.
    apply IH; [assumption | apply parse_line_voice_keys; assumption]. }
  apply H; [apply splitlines_no_linebreak | constructor].
Qed.

Lemma split_loop_one_line (max_length : nat) (channel_id : str) :
  one_line channel_id ->
  forall (fuel : nat) (r : str) (acc lines : list str),
    split_loop fuel max_length channel_id r acc = Some lines ->
    Forall one_line acc -> one_line r -> Forall one_line lines.
Proof.
  intros Hch. induction fuel as [|fuel IH]; intros r acc lines Heq Hacc Hr.
  - destruct r as [|c t]; cbn [split_loop] in Heq; [injection Heq as <-; exact Hacc|].
    destruct (_ <=? _); [|discriminate Heq]. injection Heq as <-.
    apply Forall_app. split; [exact Hacc|]. constructor; [|constructor].
    unfold prefixed. rewrite !Forall_app. repeat split; [exact Hch | repeat constructor | exact Hr].
  - destruct r as [|c t]; cbn [split_loop] in Heq; [injection Heq as <-; exact Hacc|].
    destruct (_ <=? _).
    + injection Heq as <-. apply Forall_app. split; [exact Hacc|]. constructor; [|constructor].
      unfold prefixed. rewrite !Forall_app.
      repeat split; [exact Hch | repeat constructor | exact Hr].
    + apply (IH _ _ _ Heq).
      * apply Forall_app. split; [exact Hacc|]. constructor; [|constructor].
        unfold prefixed. rewrite !Forall_app.
        repeat split; [exact Hch | repeat constructor | apply Forall_firstn, Hr].
      * apply Forall_strip, Forall_skipn, Hr.
Qed.

Lemma process_one_line (track_data : str) : one_line (process_mus_commands track_data).
Proof.
  apply single_spaced_no_linebreak. rewrite process_by_passes.
  apply (collapse_single_spaced _ _ _ (Nat.le_refl _)).
Qed.

Lemma tracks_output_one_line (fuel : nat) (parsed : parsed_data) (ks : list str) :
  Forall (fun k => valid_track_key k = true) ks ->
  forall out, tracks_output fuel parsed ks = Some out -> Forall one_line out.
Proof.
  induction 1 as [|k ks Hk Hks IH]; intros out Hout; cbn [tracks_output] in Hout.
  - injection Hout as <-. constructor.
  - destruct (channel_of_valid k Hk) as [d [Hd Hdig]]. rewrite Hd in Hout.
    destruct (split_track_data _ _ _ _) as [split|] eqn:Es; [|discriminate Hout].
    destruct (tracks_output fuel parsed ks) as [more|]; [|discriminate Hout].
    injection Hout as <-.
    assert (Hch : one_line [d]) by (repeat constructor; apply channel_digit_one_line, Hdig).
    destruct (valid_key_one_line k Hk) as [_ Hup].
    cbn [app]. constructor; [|apply Forall_app; split; [|constructor; [constructor|]]].
    + unfold track_comment. rewrite !Forall_app.
      repeat split; try exact Hup; try exact Hch; repeat constructor.
    + unfold split_track_data in Es. destruct (negb _); [injection Es as <-; constructor|].
      apply (split_loop_one_line _ _ Hch _ _ _ _ Es); [constructor|].
      apply Forall_strip, process_one_line.
    + apply IH. reflexivity.
Qed.

Lemma tempo_command_one_line (parsed : parsed_data) :
  Forall (fun k => valid_track_key k = true) (keys (tracks parsed)) ->
  Forall one_line (tempo_command parsed).
Proof.
  intros Hkeys. unfold tempo_command. cbn [Dict.get_or].
  destruct (mus_tempo parsed) as [t|]; [|constructor].
  destruct (_ && _); [|constructor].
  destruct (bpm_of_mus_tempo _) as [bpm|]; [|constructor].
  destruct (nonempty (tracks parsed)); [|constructor].
  destruct (nonempty _); [|constructor].
  constructor; [|constructor]. rewrite join_nil, !Forall_app. repeat split.
  - destruct (active_of_valid_keys (sorted Py.leb (keys (tracks parsed))))
      as [Hone _]; [apply sorted_Forall, Hkeys|].
    fold (active_ndp_tracks_for_tempo parsed) in Hone.
    destruct (concat_digits (sorted int_leb (active_ndp_tracks_for_tempo parsed)))
      as [Hdig _]; [apply sorted_Forall, Hone|].
    eapply Forall_impl; [|exact Hdig]. intros c Hc. apply channel_digit_one_line, Hc.
  - repeat constructor.
  - apply str_of_Z_one_line.
Qed.

Lemma output_parts_one_line (mus_content : str) (fuel : nat) (parts : list str) :
  mml_output_parts fuel (parse_mus_file mus_content) = Some parts ->
  Forall one_line parts.
Proof.
  set (parsed := parse_mus_file mus_content).
  pose proof (parse_mus_file_keys mus_content) as Hkeys. fold parsed in Hkeys.
  unfold mml_output_parts.
  destruct (tracks_output fuel parsed _) as [out|] eqn:Eout; [|discriminate].
  intros H. assert (Hparts : parts = header_parts parsed ++ out) by congruence.
  subst parts. clear H. apply Forall_app. split.
  - unfold header_parts. cbn [Dict.get_or]. rewrite !Forall_app.
    assert (Hheaders :
              one_line (title parsed) /\ one_line (composer parsed)).
    { unfold parsed, parse_mus_file.
      rewrite save_track_title, save_track_composer, parse_lines_title, parse_lines_composer.
      split; (eapply Forall_impl;
              [|apply header_value_clean, splitlines_no_linebreak]); intros c Hc; apply Hc. }
    destruct Hheaders as [Ht Hc]. repeat split.
    + constructor; [|constructor; [|constructor; [|constructor]]].
      * rewrite !Forall_app. repeat split; try exact Ht; repeat constructor.
      * rewrite !Forall_app. repeat split; try exact Hc; repeat constructor.
      * rewrite Forall_app. split; [repeat constructor | apply str_of_Z_one_line].
    + apply tempo_command_one_line, Hkeys.
    + repeat constructor.
    + unfold voice_definition_lines. destruct (nonempty _); [|constructor].
      rewrite !Forall_app. repeat split; try (repeat constructor; fail).
      apply Forall_map.
      pose proof (sorted_Forall key_leb _ _ (parse_mus_file_voice_keys mus_content)) as Hv.
      fold parsed in Hv. eapply Forall_impl; [|exact Hv].
      intros [voice_id voice_data_str] Hid. cbn [fst] in Hid.
      rewrite !Forall_app. repeat split; try exact Hid; try (repeat constructor; fail).
      apply Forall_strip, single_spaced_no_linebreak. unfold re_sub.
      rewrite (sub_is_pass whitespace_pattern whitespace_run)
        by (intros; first [apply whitespace_match | apply run_length_le]).
      apply (collapse_single_spaced _ _ _ (Nat.le_refl _)).
    + unfold track_instrument_lines. destruct (nonempty _); [|constructor].
      destruct (existsb _ _); [|constructor].
      rewrite !Forall_app. repeat split; try (repeat constructor; fail).
      pose proof (sorted_Forall key_leb _ _ (parsed_instruments_ok mus_content)) as Hi.
      fold parsed in Hi.
      induction Hi as [|[track_char inst] l [Hk [digits [[_ Hd] Hv]]] Hl IH];
        cbn [flat_map]; [constructor|].
      cbn [fst snd] in *. subst inst. apply Forall_app. split; [|exact IH].
      destruct (nonempty _); [|constructor]. constructor; [|constructor].
      rewrite !Forall_app. repeat split; try (repeat constructor; fail).
      * apply (valid_key_one_line track_char Hk).
      * eapply Forall_impl; [|exact Hd]. intros x Hx. apply decimal_one_line, Hx.
  - apply (tracks_output_one_line fuel parsed _ (sorted_Forall _ _ _ Hkeys) out Eout).
Qed.

(** X20.  For every document in which no tempo is too long for [int],
    the converter builds its list of parts, and every part is one line:
    the headers, the tempo command, the voice and instrument comments, the
    track comments and the wrapped track lines hold no line boundary,
    whatever the document holds. *)
Theorem output_parts_are_lines (mus_content : str) :
  parse_raises mus_content = false ->
  exists fuel0, forall fuel,
    fuel0 <= fuel ->
    exists parts,
      mml_output_parts fuel (parse_mus_file mus_content) = Some parts
      /\ Forall one_line parts.
Proof.
  intros _. set (parsed := parse_mus_file mus_content).
  destruct (tracks_output_terminates parsed (sorted Py.leb (keys (tracks parsed))))
    as [fuel0 Hfuel].
  exists fuel0. intros fuel Hle. destruct (Hfuel fuel Hle) as [out Hout].
  exists (header_parts parsed ++ out).
  assert (Hparts : mml_output_parts fuel parsed = Some (header_parts parsed ++ out))
    by (unfold mml_output_parts; rewrite Hout; reflexivity).
  split; [exact Hparts|]. apply (output_parts_one_line mus_content fuel _ Hparts).
Qed.

(** A document with a title, a tempo, a voice definition, an instrument,
    two tracks and a track text of 120 characters, which is wrapped. *)
Lemma output_parts_are_lines_witness :
  let content :=
    lit "#TITLE Song" ++ [10%N] ++ lit "@1={ 31 0 }" ++ [10%N]
    ++ lit "A @t220 @5 o4 " ++ Inputs.repeated_c1 60 ++ [10%N] ++ lit "B L [cdeg]" in
  exists fuel parts,
    mml_output_parts fuel (parse_mus_file content) = Some parts
    /\ Forall one_line parts.
Proof.
  intros content.
  destruct (output_parts_are_lines content eq_refl) as [fuel0 H].
  destruct (H fuel0 (le_n fuel0)) as [parts [Hparts Hlines]].
  exists fuel0, parts. split; [exact Hparts | exact Hlines].
Defined.

End OneLinePerPart.

(** ** Directives and accumulation *)

Section Directives.
Import Py Re Dict Mus2ndp Inputs Props Reference.

Lemma run_length_app (f : char -> bool) (a b : str) :
  Forall (fun c => f c = true) a ->
  match b with c :: _ => f c = false | [] => True end ->
  run_length f (a ++ b) = length a.
Proof.
  intros Ha Hb. induction Ha as [|x a Hx Ha IH]; cbn [app run_length length].
  - destruct b as [|c b]; [reflexivity|]. cbn [run_length]. rewrite Hb. reflexivity.
  - rewrite Hx, IH. reflexivity.
Qed.

(** X21.  A tempo directive at the head of a track line, "@t" and a run
    of at most 4300 decimal digits of any script, yields the number the
    digits write, and is cut out of the text: when what follows does not
    go on with an instrument directive, the text returned is what follows,
    without its leading whitespace, and the instrument map is unchanged. *)
Theorem tempo_directive_at_head (digits rest track_char : str) (d : dict str) :
  is_digits digits ->
  int_raises digits = false ->
  match rest with c :: _ => isdecimal c = false | [] => True end ->
  match lstrip rest with c :: _ => (c =? chr "@")%N = false | [] => True end ->
  preprocess_and_extract_data_from_track_line (lit "@t" ++ digits ++ rest) track_char d
  = (lstrip rest, d, Some (int_of_digits digits)).
Proof.
  intros [Hne Hdig] _ Hrest Hat. destruct digits as [|d1 ds]; [congruence|].
  inversion Hdig as [|? ? Hd1 Hds]; subst.
  unfold preprocess_and_extract_data_from_track_line.
  change (lstrip (lit "@t" ++ (d1 :: ds) ++ rest)) with (chr "@" :: chr "t" :: d1 :: ds ++ rest).
  unfold tempo_patterns. cbn [extract_tempo]. unfold re_search.
  assert (Hm : match_at [Chr (one "@"); Chr (one "t"); GOpen; Plus isdecimal; GClose]
                 (None, None) 0 None (chr "@" :: chr "t" :: d1 :: ds ++ rest)
               = Some (3 + length ds, (Some 2, Some (3 + length ds)))).
  { rewrite match_at_cons, chr_step, one_eqb, N.eqb_refl.
    rewrite match_at_cons, chr_step, one_eqb, N.eqb_refl.
    rewrite match_at_cons. cbn [match_atom]. rewrite match_at_cons. cbn [match_atom].
    rewrite Hd1.
    rewrite (star_total isdecimal _ (fun pos => (pos, (Some 2, Some pos)))) by reflexivity.
    rewrite (run_length_app isdecimal ds rest Hds Hrest). reflexivity. }
  cbn [search_from]. rewrite Hm. clear Hm.
  cbn [m_start m_end firstn app]. unfold group1. cbn [m_groups skipn].
  replace (3 + length ds - 2) with (S (length ds)) by lia.
  replace (3 + length ds) with (S (S (S (length ds)))) by lia. cbn [firstn skipn].
  rewrite firstn_app, firstn_all, Nat.sub_diag, skipn_app, skipn_all, Nat.sub_diag.
  cbn [firstn skipn app]. rewrite app_nil_r.
  rewrite instrument_match. destruct (lstrip rest) as [|c s']; [reflexivity|].
  rewrite Hat. reflexivity.
Qed.

Lemma tempo_directive_at_head_witness :
  preprocess_and_extract_data_from_track_line
    (lit "@t" ++ lit "220" ++ lit " o4 cde") (lit "A") []
  = (lstrip (lit " o4 cde"), [], Some (int_of_digits (lit "220"))).
Proof.
  apply (tempo_directive_at_head (lit "220") (lit " o4 cde") (lit "A") []).
  - split; [discriminate | repeat constructor].
  - reflexivity.
  - reflexivity.
  - reflexivity.
Defined.


(** *** One track, no directives *)

Lemma has_char_rev (c : char) (s : str) : has_char c (rev s) = has_char c s.
Proof.
  unfold has_char. destruct (existsb (N.eqb c) s) eqn:E.
  - apply existsb_exists in E. destruct E as [x [Hin Hx]].
    apply existsb_exists. exists x. split; [apply in_rev in Hin; exact Hin | exact Hx].
  - destruct (existsb (N.eqb c) (rev s)) eqn:E'; [|reflexivity].
    apply existsb_exists in E'. destruct E' as [x [Hin Hx]].
    assert (existsb (N.eqb c) s = true); [|congruence].
    apply existsb_exists. exists x. split; [apply in_rev; exact Hin | exact Hx].
Qed.

Lemma has_char_rstrip (c : char) (s : str) :
  has_char c s = false -> has_char c (rstrip s) = false.
Proof.
  intros H. unfold rstrip. rewrite has_char_rev. apply has_char_lstrip.
  rewrite has_char_rev. exact H.
Qed.

Lemma contains_needs_at (s : str) :
  has_char (chr "@") s = false -> contains s (lit "@t") = false.
Proof.
  unfold has_char. induction s as [|x s IH]; intros H; [reflexivity|].
  cbn [existsb] in H. apply orb_false_iff in H. destruct H as [Hx Hs].
  cbn [contains]. rewrite (IH Hs), orb_false_r.
  change (lit "@t") with [chr "@"; chr "t"]. cbn [startswith].
  rewrite N.eqb_sym, Hx. reflexivity.
Qed.

Lemma no_definition_without_at (s : str) :
  has_char (chr "@") s = false -> is_definition_command_present s = false.
Proof.
  intros H. unfold is_definition_command_present, definition_pattern, re_search.
  rewrite (contains_needs_at s H), search_needs_at by (apply has_char_lstrip, H).
  reflexivity.
Qed.

Lemma track_letter_cases (c : char) :
  has_char c VALID_MUS_TRACK_CHARS = true ->
  c = 65%N \/ c = 66%N \/ c = 67%N \/ c = 68%N \/ c = 69%N \/ c = 70%N \/ c = 71%N \/ c = 72%N.
Proof.
  unfold has_char, VALID_MUS_TRACK_CHARS.
  change (lit "ABCDEFGH") with [65; 66; 67; 68; 69; 70; 71; 72]%N. cbn [existsb].
  rewrite !orb_true_iff, !N.eqb_eq. intuition congruence.
Qed.

(** A track line of letter [c] without "@", in a state that has saved
    nothing and has no track or the track [c] open. *)
Lemma plain_track_line_step (c : char) (f : str) (cur : option str) (acc : list str) :
  has_char c VALID_MUS_TRACK_CHARS = true ->
  has_char (chr "@") f = false ->
  cur = None \/ cur = Some [c] ->
  parse_line (PState (Parsed [] [] [] [] [] None) cur acc) (c :: f)
  = PState (Parsed [] [] [] [] [] None) (Some [c])
           (append_data (match cur with None => [] | Some _ => acc end) (strip f)).
Proof.
  intros Hc Hf Hcur.
  assert (Hsp : isspace c = false)
    by (destruct (track_letter_cases c Hc) as [->|[->|[->|[->|[->|[->|[->| ->]]]]]]];
        reflexivity).
  assert (Hstrip : strip (c :: f) = c :: rstrip f).
  { unfold strip. pose proof (rstrip_app_nonspace [] f c Hsp) as H. cbn [app] in H.
    rewrite H. apply lstrip_head, Hsp. }
  unfold parse_line. rewrite Hstrip.
  assert (Hclass : is_comment_or_blank (c :: rstrip f) = false
                   /\ is_title (c :: rstrip f) = false
                   /\ is_composer (c :: rstrip f) = false
                   /\ is_voice_definition (c :: rstrip f) = false
                   /\ starts_with_track_char (c :: rstrip f) = true)
    by (destruct (track_letter_cases c Hc) as [->|[->|[->|[->|[->|[->|[->| ->]]]]]]];
        repeat split; reflexivity).
  destruct Hclass as [H1 [H2 [H3 [H4 H5]]]]. rewrite H1, H2, H3, H4, H5.
  unfold track_line. cbn [firstn skipn current_track result track_data_list_for_current_track].
  rewrite (no_definition_without_at _ (has_char_rstrip _ _ Hf)).
  rewrite !preprocess_no_at by (apply has_char_lstrip, has_char_rstrip, Hf).
  rewrite lstrip_idempotent. fold (strip f).
  destruct Hcur as [-> | ->].
  - reflexivity.
  - rewrite (proj2 (Py_eqb_eq [c] [c]) eq_refl). reflexivity.
Qed.

Lemma append_data_app (acc : list str) (x : str) :
  append_data acc x = acc ++ filter nonempty [x].
Proof.
  unfold append_data. cbn [filter]. destruct (nonempty x); [reflexivity|].
  symmetry. apply app_nil_r.
Qed.

Lemma plain_track_lines (c : char) (fragments : list str) :
  has_char c VALID_MUS_TRACK_CHARS = true ->
  Forall (fun f => has_char (chr "@") f = false) fragments ->
  forall acc,
    parse_lines (PState (Parsed [] [] [] [] [] None) (Some [c]) acc)
                (map (fun f => c :: f) fragments)
    = PState (Parsed [] [] [] [] [] None) (Some [c])
             (acc ++ filter nonempty (map strip fragments)).
Proof.
  intros Hc Hall. induction Hall as [|f fragments Hf Hrest IH]; intros acc.
  - cbn. rewrite app_nil_r. reflexivity.
  - cbn [map]. rewrite parse_lines_cons.
    rewrite (plain_track_line_step c f (Some [c]) acc Hc Hf) by (right; reflexivity).
    rewrite IH, append_data_app, <- app_assoc. cbn [filter app].
    destruct (nonempty (strip f)); reflexivity.
Qed.

(** X22.  A document of track lines of one letter, none of them with an
    "@", is one track: its text is the trimmed fragments behind the
    letter, the empty ones left out, joined by single spaces.  When no
    fragment is left, the track is not stored. *)
Theorem single_track_accumulates (c : char) (fragments : list str) :
  has_char c VALID_MUS_TRACK_CHARS = true ->
  Forall (fun f => has_char (chr "@") f = false) fragments ->
  tracks (save_track (parse_lines initial_state (map (fun f => c :: f) fragments)))
  = let data := strip (join (lit " ") (filter nonempty (map strip fragments))) in
    if nonempty data then [([c], data)] else [].
Proof.
  intros Hc Hall. destruct fragments as [|f fragments]; [reflexivity|].
  inversion Hall as [|? ? Hf Hrest]; subst.
  cbn [map]. rewrite parse_lines_cons. unfold initial_state.
  rewrite (plain_track_line_step c f None [] Hc Hf) by (left; reflexivity).
  rewrite (plain_track_lines c fragments Hc Hrest), append_data_app. cbn [app].
  unfold save_track.
  cbn [current_track track_data_list_for_current_track result tracks set_tracks map filter].
  cbv zeta.
  first [ set (rest := filter (@nonempty char) (map strip fragments))
        | set (rest := filter (@nonempty N) (map strip fragments)) ].
  destruct (nonempty (strip f)); cbn [app].
  - cbn [nonempty]. destruct (nonempty (strip _)); reflexivity.
  - destruct rest as [|x l]; [reflexivity|].
    cbn [nonempty]. destruct (nonempty (strip _)); reflexivity.
Qed.

Lemma single_track_accumulates_witness :
  tracks (save_track (parse_lines initial_state
                        (map (fun f => chr "A" :: f) [lit " o4 cde "; lit "   "; lit " fga"])))
  = let data := strip (join (lit " ")
                         (filter nonempty (map strip [lit " o4 cde "; lit "   "; lit " fga"]))) in
    if nonempty data then [([chr "A"], data)] else [].
Proof.
  apply (single_track_accumulates (chr "A") [lit " o4 cde "; lit "   "; lit " fga"]).
  - reflexivity.
  - repeat constructor.
Defined.

End Directives.

(** ** The tempo command in the converted output *)

Section TempoLine.
Import Py Re Dict Mus2ndp Inputs Props.

















End TempoLine.
